(** * agenticWorkFlow: the intent-routing and action-dispatch core

    A shallow embedding of the TypeScript sources
      - agents/githubOAuthAgent.ts  (token store, authenticated GitHub calls)
      - agents/geminiReporter.ts    (callGeminiWithRetry and the reporters)
      - agents/githubAgent.ts       (callGemini, runGitHubAgent)
      - agents/intentParser.ts      (parseUserIntent and its regex fallback)
      - agents/cryptoAgent.ts       (runCryptoAgent)
    followed by the theorems about them.

    Asynchronous functions are run-to-completion computations in a state
    and exception monad: the state holds the process-wide token store and
    the trace of every call that leaves the process; a rejected promise
    is a thrown value.  The remote services and the platform built-ins
    are the fields of one record [Env], so every theorem holds for every
    behaviour of the services. *)

From Stdlib Require Import String Ascii List ZArith Lia Bool.
From stdpp Require Import base tactics list strings pretty.
Import ListNotations.
Open Scope string_scope.

(** ** JavaScript strings

    A string is its UTF-8 byte sequence.  Every needle the sources search
    for is ASCII, so a search over bytes finds what the search over
    UTF-16 code units finds. *)

(** [s.includes(sub)] *)
Fixpoint includes (s sub : string) : bool :=
  if String.prefix sub s then true
  else match s with
       | EmptyString => false
       | String _ s' => includes s' sub
       end.

(** [parts.join(sep)] on strings *)
Fixpoint join (sep : string) (parts : list string) : string :=
  match parts with
  | [] => ""
  | [p] => p
  | p :: rest => p ++ sep ++ join sep rest
  end.

(** The double quote character, and a line feed. *)
Definition dq : string := String (ascii_of_nat 34) EmptyString.
Definition nl : string := String (ascii_of_nat 10) EmptyString.

(** Number of UTF-16 code units of a string given as UTF-8: a byte that
    continues a sequence counts for nothing, the first byte of a
    four-byte sequence for a surrogate pair. *)
Fixpoint utf16_length (s : string) : nat :=
  match s with
  | EmptyString => 0
  | String c s' =>
      let n := nat_of_ascii c in
      (if (n <? 128)%nat then 1
       else if (n <? 192)%nat then 0
       else if (n <? 240)%nat then 1
       else 2) + utf16_length s'
  end.

(** ** JavaScript values

    What [JSON.parse] and a JSON response body can hold, and [undefined].
    [VNum] is a number whose value is an integer (printed in decimal, as
    JavaScript does below 10^21); [VReal] is any other number, kept with
    the text JavaScript prints for it. *)
#[warnings="-register-all"]
Inductive JS : Type :=
| VUndef
| VNull
| VBool (b : bool)
| VNum (n : Z)
| VReal (repr : string)
| VStr (s : string)
| VArr (elems : list JS)
| VObj (fields : list (string * JS)).

(** [String(v)], which is also what a template literal inserts. *)
Fixpoint toString (v : JS) : string :=
  match v with
  | VUndef => "undefined"
  | VNull => "null"
  | VBool true => "true"
  | VBool false => "false"
  | VNum n => pretty n
  | VReal r => r
  | VStr s => s
  | VArr l =>
      join "," (map (fun e => match e with
                              | VUndef | VNull => ""
                              | _ => toString e
                              end) l)
  | VObj _ => "[object Object]"
  end.

(** The truth value of [v] in a condition, [||] or [!]. *)
Definition truthy (v : JS) : bool :=
  match v with
  | VUndef | VNull => false
  | VBool b => b
  | VNum n => negb (n =? 0)%Z
  | VReal _ => true
  | VStr s => negb (String.eqb s "")
  | VArr _ | VObj _ => true
  end.

(** [a || b] *)
Definition orElse (a b : JS) : JS := if truthy a then a else b.

(** [v === "s"] for a string literal. *)
Definition isStr (v : JS) (s : string) : bool :=
  match v with
  | VStr t => String.eqb t s
  | _ => false
  end.

(** A default value in a destructuring pattern: [{ x = d } = obj]. *)
Definition withDefault (v d : JS) : JS :=
  match v with
  | VUndef => d
  | _ => v
  end.

Fixpoint assoc {A : Type} (k : string) (l : list (string * A)) : option A :=
  match l with
  | [] => None
  | (k', v) :: rest => if String.eqb k k' then Some v else assoc k rest
  end.

(** ** Thrown values *)

(** What a [throw] or a rejected promise carries: an [Error] with its
    message (a [TypeError] or [SyntaxError] of the runtime is one), or
    the error of an axios call, which also has [response?.status]. *)
Inductive Thrown : Type :=
| Error (message : string)
| AxiosError (message : string) (status : option Z).

(** [error instanceof Error ? error.message : String(error)] *)
Definition errMessage (e : Thrown) : string :=
  match e with
  | Error m => m
  | AxiosError m _ => m
  end.

(** [error.response?.status] *)
Definition errStatus (e : Thrown) : option Z :=
  match e with
  | Error _ => None
  | AxiosError _ st => st
  end.

Inductive Exc (A : Type) : Type :=
| Ret (a : A)
| Throw (e : Thrown).
Arguments Ret {A} a.
Arguments Throw {A} e.

Definition exc_bind {A B : Type} (m : Exc A) (k : A -> Exc B) : Exc B :=
  match m with
  | Ret a => k a
  | Throw e => Throw e
  end.

Fixpoint exc_mapi {A B : Type} (f : nat -> A -> Exc B) (i : nat) (l : list A)
  : Exc (list B) :=
  match l with
  | [] => Ret []
  | x :: rest =>
      exc_bind (f i x) (fun y =>
      exc_bind (exc_mapi f (S i) rest) (fun ys => Ret (y :: ys)))
  end.

(** ** The outside world *)

(** An axios request: what the sources put in the config object. *)
Record Request : Type := mkRequest {
  req_method : string;
  req_url : string;
  req_headers : list (string * string);
  req_data : JS;
  req_params : JS
}.

(** The result of an axios call: a response body, or a failure with the
    HTTP status when there was a response. *)
Inductive HttpResult : Type :=
| HttpOk (data : JS)
| HttpFail (status : option Z) (message : string).

(** Everything that leaves the process, in the order it happened. *)
Inductive Event : Type :=
| EvGenerate (model prompt : string)
| EvSleep (ms : Z)
| EvHttp (req : Request).

(** [TokenData] of githubOAuthAgent.ts.  The interface declares the three
    fields as strings; they are filled from a response body, so they hold
    whatever the body held. *)
Record TokenData : Type := mkTokenData {
  accessToken : JS;
  tokenType : JS;
  scope : JS;
  connectedAt : option string
}.

(** The process state: [tokenStore], a [Map] (so a list of entries in
    insertion order, one per key), and the trace. *)
Record World : Type := mkWorld {
  tokenStore : list (string * TokenData);
  trace : list Event
}.

(** The services and built-ins the sources call.  A service answers from
    the whole history, so it may answer the same request differently the
    second time. *)
Record Env : Type := mkEnv {
  (** [genAI.getGenerativeModel({model}).generateContent(prompt)] and
      [result.response.text()] *)
  generateContent : list Event -> string -> string -> Exc string;
  (** [axios(config)] *)
  axios : list Event -> Request -> HttpResult;
  (** [JSON.parse] *)
  JSON_parse : string -> Exc JS;
  (** [JSON.stringify(v, null, 2)] *)
  JSON_stringify : JS -> string;
  (** [Buffer.from(v).toString('base64')] *)
  toBase64 : JS -> Exc string;
  (** [new Date().toISOString()] *)
  nowISO : list Event -> string;
  (** [process.env.GITHUB_CLIENT_ID], [process.env.GITHUB_REDIRECT_URI] *)
  GITHUB_CLIENT_ID : option string;
  GITHUB_REDIRECT_URI : option string;
  (** [process.env.COINMARKETCAP_APIKEY] *)
  COINMARKETCAP_APIKEY : option string;
  (** the message of the [TypeError] the engine raises for a failed
      operation, named by the expression that failed *)
  typeErrorMessage : string -> string;
  (** [s.toUpperCase()] *)
  toUpperCase : string -> string;
  (** [v.toLocaleString(undefined, { maximumFractionDigits: 2 })], for a
      value other than [undefined] and [null] *)
  toLocaleString2 : JS -> string;
  (** [v.toFixed(2)], for a number *)
  toFixed2 : JS -> string;
  (** [(v / 1e9).toFixed(2)] *)
  billionsFixed2 : JS -> string
}.

(** ** The monad of an [async] function *)

Definition M (A : Type) : Type := World -> Exc A * World.

Definition ret {A : Type} (a : A) : M A := fun w => (Ret a, w).

Definition throw {A : Type} (e : Thrown) : M A := fun w => (Throw e, w).

Definition bind {A B : Type} (m : M A) (k : A -> M B) : M B :=
  fun w => match m w with
           | (Ret a, w') => k a w'
           | (Throw e, w') => (Throw e, w')
           end.

(** [try { m } catch (error) { h error }] *)
Definition try_catch {A : Type} (m : M A) (h : Thrown -> M A) : M A :=
  fun w => match m w with
           | (Ret a, w') => (Ret a, w')
           | (Throw e, w') => h e w'
           end.

Definition lift {A : Type} (r : Exc A) : M A := fun w => (r, w).

Definition gets {A : Type} (f : World -> A) : M A := fun w => (Ret (f w), w).

Definition modify (f : World -> World) : M unit := fun w => (Ret tt, f w).

Definition emit (ev : Event) : M unit :=
  fun w => (Ret tt, mkWorld (tokenStore w) (trace w ++ [ev])).

Notation "'let!' x ':=' m 'in' k" := (bind m (fun x => k))
  (at level 10, x pattern, m at level 100, k at level 200).
Notation "m ';;' k" := (bind m (fun _ => k))
  (at level 100, k at level 200, right associativity).

(** ** Reading properties *)

Section Properties.
  Context (E : Env).

  (** [v.k] for the property names the sources read; none of them is
      inherited from a prototype, except [length] of arrays and strings.
      Reading a property of [undefined] or [null] throws. *)
Definition getProp (what : string) (v : JS) (k : string) : Exc JS :=
    match v with
    | VUndef | VNull => Throw (Error (typeErrorMessage E (what ++ "." ++ k)))
    | VObj fields =>
        match assoc k fields with
        | Some x => Ret x
        | None => Ret VUndef
        end
    | VArr l => Ret (if String.eqb k "length" then VNum (Z.of_nat (length l)) else VUndef)
    | VStr s => Ret (if String.eqb k "length" then VNum (Z.of_nat (utf16_length s)) else VUndef)
    | VBool _ | VNum _ | VReal _ => Ret VUndef
    end.

  (** [v.map((x, i) => f i x)]: only an array has a [map]. *)
Definition arrayMap (what : string) (v : JS) (f : nat -> JS -> Exc string)
    : Exc (list string) :=
    match v with
    | VArr l => exc_mapi f 0 l
    | _ => Throw (Error (typeErrorMessage E (what ++ ".map")))
    end.
End Properties.

(** The code points of a string given as UTF-8: a byte that starts a
    sequence takes the continuation bytes that follow it. *)
Definition is_continuation (c : ascii) : bool :=
  let n := nat_of_ascii c in (128 <=? n)%nat && (n <? 192)%nat.

Fixpoint codePoints (s : string) : list string :=
  match s with
  | EmptyString => []
  | String c s' =>
      match codePoints s' with
      | String c' chunk :: rest =>
          if is_continuation c' then String c (String c' chunk) :: rest
          else String c EmptyString :: String c' chunk :: rest
      | chunks => String c EmptyString :: chunks
      end
  end.

(** ** [URLSearchParams]: the application/x-www-form-urlencoded serializer *)

Definition hexDigit (n : nat) : ascii :=
  ascii_of_nat (if (n <? 10)%nat then 48 + n else 55 + n).

Definition isFormSafe (c : ascii) : bool :=
  let n := nat_of_ascii c in
  ((48 <=? n)%nat && (n <=? 57)%nat) || ((65 <=? n)%nat && (n <=? 90)%nat)
  || ((97 <=? n)%nat && (n <=? 122)%nat)
  || (n =? 42)%nat || (n =? 45)%nat || (n =? 46)%nat || (n =? 95)%nat.

Fixpoint formEncode (s : string) : string :=
  match s with
  | EmptyString => EmptyString
  | String c s' =>
      let n := nat_of_ascii c in
      if isFormSafe c then String c (formEncode s')
      else if (n =? 32)%nat then String "+" (formEncode s')
      else String "%" (String (hexDigit (n / 16)) (String (hexDigit (n mod 16)) (formEncode s')))
  end.

(** [new URLSearchParams(record).toString()] *)
Definition URLSearchParams_toString (entries : list (string * string)) : string :=
  join "&" (map (fun kv => formEncode (fst kv) ++ "=" ++ formEncode (snd kv)) entries).

(** ** A [Map] with string keys, in insertion order *)

Module JSMap.
Definition t (V : Type) : Type := list (string * V).

Definition get {V : Type} (k : string) (m : t V) : option V := assoc k m.

Definition has {V : Type} (k : string) (m : t V) : bool :=
    match get k m with
    | Some _ => true
    | None => false
    end.

  (** [m.set(k, v)]: a known key keeps its place, a new key goes last. *)
Fixpoint set {V : Type} (k : string) (v : V) (m : t V) : t V :=
    match m with
    | [] => [(k, v)]
    | (k', v') :: rest =>
        if String.eqb k k' then (k, v) :: rest else (k', v') :: set k v rest
    end.

  (** [m.delete(k)] *)
Definition delete {V : Type} (k : string) (m : t V) : t V :=
    List.filter (fun kv => negb (String.eqb k (fst kv))) m.

  (** [Array.from(m.keys())] *)
Definition keys {V : Type} (m : t V) : list string := map fst m.
End JSMap.

(** An environment variable in a template or a [URLSearchParams] record:
    an unset variable reads [undefined]. *)
Definition envString (v : option string) : string :=
  match v with
  | Some s => s
  | None => "undefined"
  end.

(** ** agents/githubOAuthAgent.ts *)

Module githubOAuthAgent.

  (** [PushResult] *)
Record PushResult : Type := mkPushResult {
    pr_path : JS;
    pr_success : bool;
    pr_url : JS;
    pr_error : option string
  }.

  (** The [options] argument of [githubAPI]; an absent field takes its
      default in the destructuring. *)
Record Options : Type := mkOptions {
    opt_method : option string;
    opt_data : option JS;
    opt_params : option JS
  }.

Definition noOptions : Options := mkOptions None None None.

  Section WithEnv.
    Context (E : Env).

Definition getAuthorizationUrl (userId : string) : string :=
      "https://github.com/login/oauth/authorize?" ++
      URLSearchParams_toString
        [("client_id", envString (GITHUB_CLIENT_ID E));
         ("redirect_uri", envString (GITHUB_REDIRECT_URI E));
         ("scope", "repo user read:org workflow");
         ("state", userId)].

Definition storeToken (userId : string) (tokenData : TokenData) (w : World) : World :=
      mkWorld
        (JSMap.set userId
           (mkTokenData (accessToken tokenData) (tokenType tokenData) (scope tokenData)
              (Some (nowISO E (trace w))))
           (tokenStore w))
        (trace w).

Definition getToken (userId : string) (w : World) : option TokenData :=
      JSMap.get userId (tokenStore w).

Definition isConnected (userId : string) (w : World) : bool :=
      JSMap.has userId (tokenStore w).

Definition disconnect (userId : string) (w : World) : World :=
      mkWorld (JSMap.delete userId (tokenStore w)) (trace w).

Definition listConnectedUsers (w : World) : list string :=
      JSMap.keys (tokenStore w).

    (** [await axios(config)]: the call is recorded, then it answers. *)
Definition axiosCall (req : Request) : M JS :=
      fun w =>
        let w' := mkWorld (tokenStore w) (trace w ++ [EvHttp req]) in
        match axios E (trace w) req with
        | HttpOk data => (Ret data, w')
        | HttpFail status message => (Throw (AxiosError message status), w')
        end.

Definition githubAPI (endpoint : string) (options : Options) (userId : string) : M JS :=
      let! tokenData := gets (getToken userId) in
      match tokenData with
      | None => throw (Error "GitHub not connected. Please connect your GitHub account first.")
      | Some tokenData =>
          let method := default "GET" (opt_method options) in
          let data := default VNull (opt_data options) in
          let params := default (VObj []) (opt_params options) in
          try_catch
            (axiosCall
               (mkRequest method ("https://api.github.com" ++ endpoint)
                  [("Authorization", "Bearer " ++ toString (accessToken tokenData));
                   ("Accept", "application/vnd.github.v3+json");
                   ("User-Agent", "AgenticWorkflow-App")]
                  data params))
            (fun error =>
               if decide (errStatus error = Some 401%Z) then
                 modify (disconnect userId) ;;
                 throw (Error "GitHub token expired. Please reconnect your GitHub account.")
               else throw error)
      end.

Definition getUser (userId : string) : M JS :=
      githubAPI "/user" noOptions userId.

Definition listRepos (userId : string) (sort per_page : option JS) : M JS :=
      githubAPI "/user/repos"
        (mkOptions None None
           (Some (VObj [("sort", default (VStr "updated") sort);
                        ("per_page", default (VNum 10) per_page);
                        ("affiliation", VStr "owner")])))
        userId.

Definition createRepo (name description isPrivate autoInit : JS) (userId : string) : M JS :=
      githubAPI "/user/repos"
        (mkOptions (Some "POST")
           (Some (VObj [("name", name);
                        ("description", withDefault description (VStr ""));
                        ("private", withDefault isPrivate (VBool false));
                        ("auto_init", withDefault autoInit (VBool true))]))
           None)
        userId.

Definition contentsEndpoint (owner repo path : JS) : string :=
      "/repos/" ++ toString owner ++ "/" ++ toString repo ++ "/contents/" ++ toString path.

Definition createOrUpdateFile (owner repo path content : JS) (message userId : string) : M JS :=
      let! sha :=
        try_catch
          (let! existing := githubAPI (contentsEndpoint owner repo path) noOptions userId in
           lift (getProp E "existing" existing "sha"))
          (fun _ => ret VNull) in
      let! encoded := lift (toBase64 E content) in
      let data := [("message", VStr message); ("content", VStr encoded)] in
      let data := if truthy sha then (data ++ [("sha", sha)])%list else data in
      githubAPI (contentsEndpoint owner repo path)
        (mkOptions (Some "PUT") (Some (VObj data)) None) userId.

    (** What [for (const file of files)] goes through. *)
Definition iterate (what : string) (v : JS) : Exc (list JS) :=
      match v with
      | VArr l => Ret l
      | VStr s => Ret (map VStr (codePoints s))
      | _ => Throw (Error (typeErrorMessage E (what ++ " is not iterable")))
      end.

    (** [a?.k] *)
Definition optProp (a : JS) (k : string) : Exc JS :=
      match a with
      | VUndef | VNull => Ret VUndef
      | _ => getProp E "" a k
      end.

    (** The body of the loop of [pushProject], with [results] as the
        array it pushes to. *)
Fixpoint pushLoop (owner repo : JS) (commitMessage userId : string)
      (files : list JS) (results : list PushResult) : M (list PushResult) :=
      match files with
      | [] => ret results
      | file :: rest =>
          let! results :=
            try_catch
              (let! path := lift (getProp E "file" file "path") in
               let! content := lift (getProp E "file" file "content") in
               let! result := createOrUpdateFile owner repo path content commitMessage userId in
               let! created := lift (getProp E "result" result "content") in
               let! url := lift (optProp created "html_url") in
               ret (results ++ [mkPushResult path true url None])%list)
              (fun error =>
                 let errMsg := errMessage error in
                 let! path := lift (getProp E "file" file "path") in
                 ret (results ++ [mkPushResult path false VUndef (Some errMsg)])%list) in
          pushLoop owner repo commitMessage userId rest results
      end.

Definition pushProject (owner repo files : JS) (commitMessage userId : string)
      : M (list PushResult) :=
      let! _ := lift (getProp E "files" files "length") in
      let! items := lift (iterate "files" files) in
      pushLoop owner repo commitMessage userId items [].

Definition starRepo (owner repo : JS) (userId : string) : M JS :=
      githubAPI ("/user/starred/" ++ toString owner ++ "/" ++ toString repo)
        (mkOptions (Some "PUT") None None) userId ;;
      ret (VObj [("starred", VBool true);
                 ("repo", VStr (toString owner ++ "/" ++ toString repo))]).

Definition createIssue (owner repo title body labels : JS) (userId : string) : M JS :=
      githubAPI ("/repos/" ++ toString owner ++ "/" ++ toString repo ++ "/issues")
        (mkOptions (Some "POST")
           (Some (VObj [("title", title);
                        ("body", withDefault body (VStr ""));
                        ("labels", withDefault labels (VArr []))]))
           None)
        userId.

Definition listIssues (owner repo : JS) (userId : string) : M JS :=
      githubAPI ("/repos/" ++ toString owner ++ "/" ++ toString repo ++ "/issues")
        (mkOptions None None
           (Some (VObj [("per_page", VNum 10); ("state", VStr "open")])))
        userId.

Definition createPullRequest (owner repo title head base body : JS) (userId : string) : M JS :=
      githubAPI ("/repos/" ++ toString owner ++ "/" ++ toString repo ++ "/pulls")
        (mkOptions (Some "POST")
           (Some (VObj [("title", title);
                        ("head", head);
                        ("base", withDefault base (VStr "main"));
                        ("body", withDefault body (VStr ""))]))
           None)
        userId.

Definition getRepo (owner repo : JS) (userId : string) : M JS :=
      githubAPI ("/repos/" ++ toString owner ++ "/" ++ toString repo) noOptions userId.

Definition publicHeaders : list (string * string) :=
      [("Accept", "application/vnd.github.v3+json");
       ("User-Agent", "AgenticWorkflow-App")].

Definition getPublicUser (username : JS) : M JS :=
      axiosCall
        (mkRequest "GET" ("https://api.github.com/users/" ++ toString username)
           publicHeaders VUndef VUndef).

Definition listPublicRepos (username : JS) (sort per_page : option JS) : M JS :=
      axiosCall
        (mkRequest "GET" ("https://api.github.com/users/" ++ toString username ++ "/repos")
           publicHeaders VUndef
           (VObj [("sort", default (VStr "updated") sort);
                  ("per_page", default (VNum 30) per_page);
                  ("type", VStr "owner")])).
  End WithEnv.
End githubOAuthAgent.

(** ** Regular expressions

    The regular-expression literals of the sources, as syntax trees, and
    the backtracking matcher of the language for the constructs they
    use.  The matcher goes through the code points of the subject: no
    literal has the [u] flag, and the classes it uses tell apart only
    ASCII characters and white space. *)

Module Regex.

#[warnings="-register-all"]
  Inductive CharClass : Type :=
  | CChar (c : ascii)                 (* one character *)
  | CSpace                            (* \s *)
  | CNot (excluded : list CharClass). (* [^...] over simple items *)

Inductive t : Type :=
  | Empty
  | Char (c : ascii)
  | Seq (r1 r2 : t)
  | Alt (r1 r2 : t)
  | Opt (r : t)                       (* r? *)
  | Star (cls : CharClass)            (* c* *)
  | Plus (cls : CharClass)            (* c+ *)
  | WordBoundary.                     (* \b *)

  (** The characters of a literal text, in sequence. *)
Fixpoint lit (s : string) : t :=
    match s with
    | EmptyString => Empty
    | String c EmptyString => Char c
    | String c s' => Seq (Char c) (lit s')
    end.

  (** [a|b|c|...] *)
Fixpoint alts (rs : list t) : t :=
    match rs with
    | [] => Empty
    | [r] => r
    | r :: rest => Alt r (alts rest)
    end.

  (** The code point a UTF-8 sequence encodes. *)
Definition codePointOf (chunk : string) : N :=
    let byte (a : ascii) : N := N_of_ascii a in
    (match chunk with
     | String a EmptyString => byte a
     | String a (String b EmptyString) =>
         (byte a - 192) * 64 + (byte b - 128)
     | String a (String b (String c EmptyString)) =>
         (byte a - 224) * 4096 + (byte b - 128) * 64 + (byte c - 128)
     | String a (String b (String c (String d _))) =>
         (byte a - 240) * 262144 + (byte b - 128) * 4096
         + (byte c - 128) * 64 + (byte d - 128)
     | EmptyString => 0
     end)%N.

  (** White space and line terminators: what [\s] matches and [trim]
      removes. *)
Definition isWhiteSpace (chunk : string) : bool :=
    let n := codePointOf chunk in
    (((9 <=? n) && (n <=? 13)) || (n =? 32) || (n =? 160) || (n =? 5760)
     || ((8192 <=? n) && (n <=? 8202)) || (n =? 8232) || (n =? 8233)
     || (n =? 8239) || (n =? 8287) || (n =? 12288) || (n =? 65279))%N.

  (** [\w]: an ASCII letter, digit or underscore. *)
Definition isWordChar (chunk : string) : bool :=
    match chunk with
    | String a EmptyString =>
        let n := nat_of_ascii a in
        (((48 <=? n) && (n <=? 57)) || ((65 <=? n) && (n <=? 90))
         || ((97 <=? n) && (n <=? 122)) || (n =? 95))%nat
    | _ => false
    end.

  (** Canonical form of a character under the [i] flag: an ASCII letter
      in upper case; a character outside ASCII never folds onto one. *)
Definition upper (a : ascii) : ascii :=
    let n := nat_of_ascii a in
    if ((97 <=? n) && (n <=? 122))%nat then ascii_of_nat (n - 32) else a.

Definition charMatches (ignoreCase : bool) (c : ascii) (chunk : string) : bool :=
    match chunk with
    | String a EmptyString =>
        if ignoreCase then Ascii.eqb (upper a) (upper c) else Ascii.eqb a c
    | _ => false
    end.

Fixpoint classMatches (ignoreCase : bool) (cls : CharClass) (chunk : string) : bool :=
    match cls with
    | CChar c => charMatches ignoreCase c chunk
    | CSpace => isWhiteSpace chunk
    | CNot excluded => negb (existsb (fun x => classMatches ignoreCase x chunk) excluded)
    end.

  (** The state of a match: the character before the position, if any,
      and what is left of the subject. *)
Definition Pos : Type := option string * list string.

  (** A greedy star over one-character items: take the longest run, give
      characters back until the rest of the pattern matches. *)
Fixpoint star (ignoreCase : bool) (cls : CharClass) (prev : option string)
    (input : list string) (k : Pos -> option Pos) : option Pos :=
    match input with
    | c :: rest =>
        if classMatches ignoreCase cls c then
          match star ignoreCase cls (Some c) rest k with
          | Some p => Some p
          | None => k (prev, input)
          end
        else k (prev, input)
    | [] => k (prev, input)
    end.

Definition atWordBoundary (prev : option string) (input : list string) : bool :=
    let before := match prev with Some c => isWordChar c | None => false end in
    let after := match input with c :: _ => isWordChar c | [] => false end in
    xorb before after.

  (** [run r p k]: match [r] at [p], then the rest of the pattern [k];
      the result is the position after the whole match. *)
Fixpoint run (ignoreCase : bool) (r : t) (p : Pos) (k : Pos -> option Pos) : option Pos :=
    match r with
    | Empty => k p
    | Char c =>
        match snd p with
        | x :: rest => if charMatches ignoreCase c x then k (Some x, rest) else None
        | [] => None
        end
    | Seq r1 r2 => run ignoreCase r1 p (fun p' => run ignoreCase r2 p' k)
    | Alt r1 r2 =>
        match run ignoreCase r1 p k with
        | Some q => Some q
        | None => run ignoreCase r2 p k
        end
    | Opt r1 =>
        match run ignoreCase r1 p k with
        | Some q => Some q
        | None => k p
        end
    | Star cls => star ignoreCase cls (fst p) (snd p) k
    | Plus cls =>
        match snd p with
        | x :: rest =>
            if classMatches ignoreCase cls x then star ignoreCase cls (Some x) rest k
            else None
        | [] => None
        end
    | WordBoundary => if atWordBoundary (fst p) (snd p) then k p else None
    end.

  (** A match that starts at the position: the matched characters. *)
Definition matchAt (ignoreCase : bool) (r : t) (prev : option string)
    (input : list string) : option (list string) :=
    match run ignoreCase r (prev, input) Some with
    | Some (_, rest) => Some (take (length input - length rest) input)
    | None => None
    end.

  (** [regex.test(s)] for a regex without the [g] flag: is there a match
      at some position, the leftmost first. *)
Fixpoint testFrom (ignoreCase : bool) (r : t) (prev : option string)
    (input : list string) : bool :=
    match matchAt ignoreCase r prev input with
    | Some _ => true
    | None =>
        match input with
        | c :: rest => testFrom ignoreCase r (Some c) rest
        | [] => false
        end
    end.

Definition test (ignoreCase : bool) (r : t) (s : string) : bool :=
    testFrom ignoreCase r None (codePoints s).

  (** The successive matches of a regex with the [g] flag: after a match
      the search resumes at its end ([skip] counts the characters of the
      match still to pass), one character further after an empty match. *)
Fixpoint matchesFrom (ignoreCase : bool) (r : t) (prev : option string)
    (input : list string) (skip : nat) : list (list string) :=
    match input with
    | [] =>
        match skip, matchAt ignoreCase r prev [] with
        | 0, Some m => [m]
        | _, _ => []
        end
    | c :: rest =>
        match skip with
        | S n => matchesFrom ignoreCase r (Some c) rest n
        | 0 =>
            match matchAt ignoreCase r prev input with
            | Some m => m :: matchesFrom ignoreCase r (Some c) rest (length m - 1)
            | None => matchesFrom ignoreCase r (Some c) rest 0
            end
        end
    end.

  (** [s.match(regex)] with the [g] flag; [null] is the empty list here,
      as every caller writes [|| []]. *)
Definition matchAll (ignoreCase : bool) (r : t) (s : string) : list string :=
    map (fun m => String.concat "" m) (matchesFrom ignoreCase r None (codePoints s) 0).

  (** [s.replace(regex, replacement)] with the [g] flag and a replacement
      without [$]. *)
Fixpoint replaceFrom (ignoreCase : bool) (r : t) (replacement : string)
    (prev : option string) (input : list string) (skip : nat) : string :=
    match input with
    | [] =>
        match skip, matchAt ignoreCase r prev [] with
        | 0, Some _ => replacement
        | _, _ => ""
        end
    | c :: rest =>
        match skip with
        | S n => replaceFrom ignoreCase r replacement (Some c) rest n
        | 0 =>
            match matchAt ignoreCase r prev input with
            | Some [] => replacement ++ c ++ replaceFrom ignoreCase r replacement (Some c) rest 0
            | Some m => replacement ++ replaceFrom ignoreCase r replacement (Some c) rest (length m - 1)
            | None => c ++ replaceFrom ignoreCase r replacement (Some c) rest 0
            end
        end
    end.

Definition replaceAll (ignoreCase : bool) (r : t) (replacement s : string) : string :=
    replaceFrom ignoreCase r replacement None (codePoints s) 0.

  (** [s.trim()] *)
Fixpoint dropSpaces (l : list string) : list string :=
    match l with
    | c :: rest => if isWhiteSpace c then dropSpaces rest else l
    | [] => []
    end.

Definition trim (s : string) : string :=
    String.concat "" (rev (dropSpaces (rev (dropSpaces (codePoints s))))).
End Regex.

(** ** agents/geminiReporter.ts *)

Module geminiReporter.

Definition MODELS : list string :=
    ["gemini-2.5-flash"; "gemini-2.5-flash-lite"; "gemini-3-flash"].
Definition MAX_RETRIES : nat := 3.
Definition BASE_DELAY_MS : Z := 5000.

Record GeminiResult : Type := mkGeminiResult {
    gr_success : bool;
    gr_text : string;
    gr_model : string
  }.

Record Metadata : Type := mkMetadata {
    md_model : string;
    md_generatedAt : string;
    md_dataSource : JS
  }.

Record ReportResult : Type := mkReportResult {
    rr_success : bool;
    rr_report : option string;
    rr_error : option string;
    rr_metadata : option Metadata
  }.

Record SummaryResult : Type := mkSummaryResult {
    sr_success : bool;
    sr_summary : option string;
    sr_error : option string
  }.

  (** How an iteration of a loop ends. *)
Inductive Control (A : Type) : Type :=
  | Return (a : A)
  | Continue
  | Break.
  Arguments Return {A} a.
  Arguments Continue {A}.
  Arguments Break {A}.

Definition reportHead : string :=
    "You are a social media analytics expert. Analyze the following Instagram post data and generate a comprehensive report.

## Scraped Instagram Data
```json
".

Definition reportInstructions : string :=
    "
```

## Instructions
Provide a detailed analytical report covering:

1. **Post Overview** – What type of content is it (photo/video/reel)? Who posted it? When?
2. **Engagement Metrics** – Likes, comments, views. How do these numbers compare generally?
3. **Engagement Rate Analysis** – Based on the available metrics, assess the engagement quality.
4. **Content Analysis** – Analyze the caption, hashtags, and tone.
5. **Performance Insights** – Is this a high-performing post? What signals indicate that?
6. **Recommendations** – Actionable suggestions to improve future content based on this data.
7. **Website links in the profile** - If the profile has any website links, show it to the user, if the user asks like " ++ dq ++ "does the porfile has any website links?" ++ dq ++ " or " ++ dq ++ "Show all the website links in the profile" ++ dq ++ ".

## Strict Guidelines
1. Show the genuine likes, comments and views count wihout any estimation, prediction, or assumption.
2. The content analysis also contains that whether the post either video and photo will grow in the current trend


".

Definition reportTail : string :=
    "

Be specific, data-driven, and insightful. Format the report in clean markdown.".

Definition additionalRequest : string :=
    "
## Additional User Request
".

Definition quickHead : string :=
    "Summarize this Instagram post data in 3-4 concise bullet points covering engagement, content type, and key takeaway:

".

  Section WithEnv.
    Context (E : Env).

    (** [await model.generateContent(prompt)] and [result.response.text()]:
        the call is recorded, then it answers. *)
Definition generate (modelName prompt : string) : M string :=
      fun w =>
        (generateContent E (trace w) modelName prompt,
         mkWorld (tokenStore w) (trace w ++ [EvGenerate modelName prompt])).

    (** [await new Promise(r => setTimeout(r, delay))] *)
Definition sleep (delay : Z) : M unit := emit (EvSleep delay).

Definition is429 (errMsg : string) : bool :=
      includes errMsg "429" || includes errMsg "Too Many Requests" || includes errMsg "quota".

    (** The inner loop of [callGeminiWithRetry], entered with [attempt]
        and [remaining] iterations to go before [attempt <= MAX_RETRIES]
        fails; [None] when the loop is left without a result. *)
Fixpoint attemptLoop (prompt modelName : string) (remaining attempt : nat)
      : M (option GeminiResult) :=
      match remaining with
      | 0 => ret None
      | S remaining' =>
          let! step :=
            try_catch
              (let! text := generate modelName prompt in
               ret (Return (mkGeminiResult true text modelName)))
              (fun error =>
                 let errMsg := errMessage error in
                 if is429 errMsg && (attempt <? MAX_RETRIES)%nat then
                   let delay := (BASE_DELAY_MS * Z.of_nat attempt)%Z in
                   sleep delay ;; ret Continue
                 else if is429 errMsg then ret Break
                 else throw error) in
          match step with
          | Return result => ret (Some result)
          | Continue => attemptLoop prompt modelName remaining' (S attempt)
          | Break => ret None
          end
      end.

    (** The outer loop, over the models left to try. *)
Fixpoint modelLoop (prompt : string) (models : list string) : M GeminiResult :=
      match models with
      | [] =>
          throw (Error "All Gemini models exhausted their quota. Please wait or upgrade your plan.")
      | modelName :: rest =>
          let! found := attemptLoop prompt modelName MAX_RETRIES 1 in
          match found with
          | Some result => ret result
          | None => modelLoop prompt rest
          end
      end.

Definition callGeminiWithRetry (prompt : string) : M GeminiResult :=
      modelLoop prompt MODELS.

    (** [{ ...data }] then [delete cleanData.rawData] *)
Definition withoutRawData (data : list (string * JS)) : list (string * JS) :=
      List.filter (fun kv => negb (String.eqb (fst kv) "rawData")) data.

Definition buildPrompt (data : list (string * JS)) (userQuery : string) : string :=
      let cleanData := withoutRawData data in
      reportHead ++ JSON_stringify E (VObj cleanData) ++ reportInstructions
      ++ (if String.eqb userQuery "" then "" else additionalRequest ++ userQuery ++ nl)
      ++ reportTail.

Definition generateReport (scrapedData : list (string * JS)) (userQuery : string)
      : M ReportResult :=
      let prompt := buildPrompt scrapedData userQuery in
      try_catch
        (let! r := callGeminiWithRetry prompt in
         let! generatedAt := gets (fun w => nowISO E (trace w)) in
         ret (mkReportResult true (Some (gr_text r)) None
                (Some (mkMetadata (gr_model r) generatedAt
                         (orElse (default VUndef (assoc "url" scrapedData)) (VStr "unknown"))))))
        (fun error =>
           let errMsg := errMessage error in
           ret (mkReportResult false None (Some errMsg) None)).

Definition generateQuickSummary (scrapedData : list (string * JS)) : M SummaryResult :=
      let cleanData := withoutRawData scrapedData in
      let prompt := quickHead ++ JSON_stringify E (VObj cleanData) in
      try_catch
        (let! r := callGeminiWithRetry prompt in
         ret (mkSummaryResult true (Some (gr_text r)) None))
        (fun error =>
           let errMsg := errMessage error in
           ret (mkSummaryResult false None (Some errMsg))).
  End WithEnv.
End geminiReporter.

(** ** agents/githubAgent.ts *)

Module githubAgent.
  Import githubOAuthAgent.

Definition MODEL_CHAIN : list string :=
    ["gemini-2.5-flash"; "gemini-2.5-flash-lite"; "gemini-3-flash"].

  (** [rawData] of a result: a response body, or the list [pushProject]
      returns. *)
Inductive Payload : Type :=
  | Json (v : JS)
  | Pushed (results : list PushResult).

Record GitHubAgentResult : Type := mkResult {
    success : bool;
    action : option string;
    summary : option string;
    rawData : option Payload;
    error : option string;
    needsAuth : option bool;
    authUrl : option string;
    message : option string
  }.

  (** [{ success: false, error }] *)
Definition failure (msg : string) : GitHubAgentResult :=
    mkResult false None None None (Some msg) None None None.

  (** [{ success: false, needsAuth: true, authUrl, message }] *)
Definition authRequired (url msg : string) : GitHubAgentResult :=
    mkResult false None None None None (Some true) (Some url) (Some msg).

  (** How the [switch] of [runGitHubAgent] is left: by a [return], or by
      a [break] with [result] and [summary] assigned. *)
Inductive Step : Type :=
  | Returned (r : GitHubAgentResult)
  | Assigned (result : Payload) (summary : string).

Definition PUBLIC_ACTIONS : list string := ["list_user_repos"; "get_user_profile"].

  (** [PUBLIC_ACTIONS.includes(v)] *)
Definition isPublicAction (v : JS) : bool :=
    existsb (isStr v) PUBLIC_ACTIONS.

Definition parsePromptHead : string :=
    "You are a GitHub assistant. Parse the user's request into JSON.

Actions you can perform:
- star_repo: Star a repository (needs owner, repo)
- create_issue: Create an issue (needs owner, repo, title, body)
- create_pr: Create PR (needs owner, repo, title, head, base)
- list_repos: List MY (authenticated user's) repos (no params needed)
- list_user_repos: List ANOTHER user's public repos (needs username). Use this when user provides a GitHub profile link or mentions another person's username.
- get_user_profile: Get ANOTHER user's public GitHub profile (needs username). Use this when user asks about someone else's profile.
- get_repo: Get repo info (needs owner, repo)
- list_issues: List issues (needs owner, repo)
- delete_repo: Delete a repo (needs owner, repo) — only use if user explicitly says " ++ dq ++ "delete" ++ dq ++ " and understands the consequences
- create_repo: Create a new repo (needs name, description, private)
- push_project: Push/create files in a repo (needs owner, repo, files as array of {path, content})
- get_profile: Get MY (authenticated user's) GitHub profile (no params needed)

IMPORTANT: If user provides a GitHub URL like https://github.com/USERNAME, extract the USERNAME. If they ask about another person's repos/profile, use list_user_repos or get_user_profile (these don't need auth).

Respond ONLY with JSON, no markdown:
{" ++ dq ++ "action" ++ dq ++ ":" ++ dq ++ "action_name" ++ dq ++ "," ++ dq ++ "params" ++ dq ++ ":{" ++ dq ++ "owner" ++ dq ++ ":" ++ dq ++ dq ++ "," ++ dq ++ "repo" ++ dq ++ ":" ++ dq ++ dq ++ "," ++ dq ++ "title" ++ dq ++ ":" ++ dq ++ dq ++ "," ++ dq ++ "body" ++ dq ++ ":" ++ dq ++ dq ++ "," ++ dq ++ "name" ++ dq ++ ":" ++ dq ++ dq ++ "," ++ dq ++ "description" ++ dq ++ ":" ++ dq ++ dq ++ "," ++ dq ++ "private" ++ dq ++ ":false," ++ dq ++ "head" ++ dq ++ ":" ++ dq ++ dq ++ "," ++ dq ++ "base" ++ dq ++ ":" ++ dq ++ "main" ++ dq ++ "," ++ dq ++ "files" ++ dq ++ ":[]," ++ dq ++ "username" ++ dq ++ ":" ++ dq ++ dq ++ "}}

User: " ++ dq.

  (** [userPrompt.replace] of every double quote by a backslash and a
      double quote. *)
Definition escapeQuotes (userPrompt : string) : string :=
    Regex.replaceAll false (Regex.lit dq) ("\" ++ dq) userPrompt.

Definition parsePrompt (userPrompt : string) : string :=
    parsePromptHead ++ escapeQuotes userPrompt ++ dq.

  (** [/```json\n?/g] and [/```\n?/g] *)
Definition fenceJson : Regex.t := Regex.Seq (Regex.lit "```json") (Regex.Opt (Regex.lit nl)).
Definition fence : Regex.t := Regex.Seq (Regex.lit "```") (Regex.Opt (Regex.lit nl)).

  (** [text.replace(/```json\n?/g, '').replace(/```\n?/g, '').trim()] *)
Definition stripFences (text : string) : string :=
    Regex.trim (Regex.replaceAll false fence "" (Regex.replaceAll false fenceJson "" text)).

  (** [v.length === 0] *)
Definition isZero (v : JS) : bool :=
    match v with
    | VNum 0 => true
    | _ => false
    end.

  Section WithEnv.
    Context (E : Env).

    Local Abbreviation str := toString.
    Local Abbreviation prop := (getProp E).

    (** The loop of [callGemini]: any failure moves on to the next
        model. *)
Fixpoint callGeminiLoop (prompt : string) (models : list string) : M string :=
      match models with
      | [] => throw (Error "All Gemini models failed")
      | model :: rest =>
          let! answer :=
            try_catch
              (let! text := geminiReporter.generate E model prompt in ret (Some text))
              (fun _ => ret None) in
          match answer with
          | Some text => ret text
          | None => callGeminiLoop prompt rest
          end
      end.

Definition callGemini (prompt : string) : M string :=
      callGeminiLoop prompt MODEL_CHAIN.

    (** *** The summaries of the actions *)

Definition summaryProfile (result : JS) : Exc string :=
      exc_bind (prop "result" result "login") (fun login =>
      exc_bind (prop "result" result "name") (fun name =>
      exc_bind (prop "result" result "public_repos") (fun public_repos =>
      exc_bind (prop "result" result "followers") (fun followers =>
      exc_bind (prop "result" result "html_url") (fun html_url =>
      Ret ("👤 **" ++ str login ++ "** (" ++ str (orElse name (VStr "No name")) ++ ")" ++ nl ++
           "   📦 " ++ str public_repos ++ " repos | 👥 " ++ str followers ++ " followers" ++ nl ++
           "   🔗 " ++ str html_url)))))).

Definition lineRepo (i : nat) (r : JS) : Exc string :=
      exc_bind (prop "r" r "name") (fun name =>
      exc_bind (prop "r" r "private") (fun private =>
      exc_bind (prop "r" r "description") (fun description =>
      exc_bind (prop "r" r "stargazers_count") (fun stargazers_count =>
      exc_bind (prop "r" r "forks_count") (fun forks_count =>
      exc_bind (prop "r" r "html_url") (fun html_url =>
      Ret ("   " ++ pretty (i + 1)%nat ++ ". **" ++ str name ++ "** "
           ++ (if truthy private then "🔒" else "🌐") ++ " — "
           ++ str (orElse description (VStr "No description")) ++ nl ++
           "      ⭐ " ++ str stargazers_count ++ " | 🍴 " ++ str forks_count
           ++ " | 🔗 " ++ str html_url))))))).

Definition summaryRepos (result : JS) : Exc string :=
      exc_bind (prop "result" result "length") (fun len =>
      exc_bind (arrayMap E "result" result lineRepo) (fun rows =>
      Ret ("📦 Your repositories (latest " ++ str len ++ "):" ++ nl ++ join nl rows))).

Definition linePublicRepo (i : nat) (r : JS) : Exc string :=
      exc_bind (prop "r" r "name") (fun name =>
      exc_bind (prop "r" r "description") (fun description =>
      exc_bind (prop "r" r "stargazers_count") (fun stargazers_count =>
      exc_bind (prop "r" r "forks_count") (fun forks_count =>
      exc_bind (prop "r" r "language") (fun language =>
      exc_bind (prop "r" r "html_url") (fun html_url =>
      Ret ("   " ++ pretty (i + 1)%nat ++ ". **" ++ str name ++ "** 🌐 — "
           ++ str (orElse description (VStr "No description")) ++ nl ++
           "      ⭐ " ++ str stargazers_count ++ " | 🍴 " ++ str forks_count
           ++ " | 🔤 " ++ str (orElse language (VStr "N/A"))
           ++ " | 🔗 " ++ str html_url))))))).

Definition summaryPublicRepos (username result : JS) : Exc string :=
      exc_bind (prop "result" result "length") (fun len =>
      if isZero len then
        Ret ("📦 **" ++ str username ++ "** has no public repositories.")
      else
        exc_bind (arrayMap E "result" result linePublicRepo) (fun rows =>
        Ret ("📦 Public repos of **" ++ str username ++ "** (" ++ str len ++ "):" ++ nl
             ++ join nl rows))).

Definition summaryPublicProfile (result : JS) : Exc string :=
      exc_bind (prop "result" result "login") (fun login =>
      exc_bind (prop "result" result "name") (fun name =>
      exc_bind (prop "result" result "bio") (fun bio =>
      exc_bind (prop "result" result "public_repos") (fun public_repos =>
      exc_bind (prop "result" result "followers") (fun followers =>
      exc_bind (prop "result" result "following") (fun following =>
      exc_bind (prop "result" result "location") (fun location =>
      exc_bind (prop "result" result "company") (fun company =>
      exc_bind (prop "result" result "html_url") (fun html_url =>
      Ret ("👤 **" ++ str login ++ "** (" ++ str (orElse name (VStr "No name")) ++ ")" ++ nl ++
           "   📝 " ++ str (orElse bio (VStr "No bio")) ++ nl ++
           "   📦 " ++ str public_repos ++ " public repos | 👥 " ++ str followers
           ++ " followers | 👣 " ++ str following ++ " following" ++ nl ++
           "   📍 " ++ str (orElse location (VStr "N/A")) ++ " | 🏢 "
           ++ str (orElse company (VStr "N/A")) ++ nl ++
           "   🔗 " ++ str html_url)))))))))).

Definition summaryCreatedRepo (result : JS) : Exc string :=
      exc_bind (prop "result" result "full_name") (fun full_name =>
      exc_bind (prop "result" result "private") (fun private =>
      exc_bind (prop "result" result "html_url") (fun html_url =>
      exc_bind (prop "result" result "clone_url") (fun clone_url =>
      Ret ("✅ Repository created!" ++ nl ++
           "   📦 **" ++ str full_name ++ "** "
           ++ (if truthy private then "🔒 Private" else "🌐 Public") ++ nl ++
           "   🔗 " ++ str html_url ++ nl ++
           "   📡 Clone: " ++ str clone_url))))).

Definition summaryStarred (owner repo : JS) : string :=
      "⭐ Done! Starred **" ++ str owner ++ "/" ++ str repo ++ "**".

Definition summaryCreatedIssue (result : JS) : Exc string :=
      exc_bind (prop "result" result "number") (fun number =>
      exc_bind (prop "result" result "title") (fun title =>
      exc_bind (prop "result" result "html_url") (fun html_url =>
      Ret ("✅ Issue created!" ++ nl ++
           "   📝 #" ++ str number ++ ": **" ++ str title ++ "**" ++ nl ++
           "   🔗 " ++ str html_url)))).

Definition lineIssue (i : nat) (iss : JS) : Exc string :=
      exc_bind (prop "iss" iss "number") (fun number =>
      exc_bind (prop "iss" iss "title") (fun title =>
      exc_bind (prop "iss" iss "user") (fun user =>
      exc_bind (prop "iss.user" user "login") (fun login =>
      Ret ("   " ++ pretty (i + 1)%nat ++ ". #" ++ str number ++ " — **" ++ str title
           ++ "** (by " ++ str login ++ ")"))))).

Definition summaryIssues (owner repo result : JS) : Exc string :=
      exc_bind (prop "result" result "length") (fun len =>
      if isZero len then
        Ret ("✅ No open issues in **" ++ str owner ++ "/" ++ str repo ++ "**")
      else
        exc_bind (arrayMap E "result" result lineIssue) (fun rows =>
        Ret ("📋 Open issues in **" ++ str owner ++ "/" ++ str repo ++ "** (" ++ str len ++ "):"
             ++ nl ++ join nl rows))).

Definition summaryRepo (result : JS) : Exc string :=
      exc_bind (prop "result" result "full_name") (fun full_name =>
      exc_bind (prop "result" result "description") (fun description =>
      exc_bind (prop "result" result "stargazers_count") (fun stargazers_count =>
      exc_bind (prop "result" result "forks_count") (fun forks_count =>
      exc_bind (prop "result" result "watchers_count") (fun watchers_count =>
      exc_bind (prop "result" result "language") (fun language =>
      exc_bind (prop "result" result "html_url") (fun html_url =>
      Ret ("📦 **" ++ str full_name ++ "**" ++ nl ++
           "   📝 " ++ str (orElse description (VStr "No description")) ++ nl ++
           "   ⭐ " ++ str stargazers_count ++ " | 🍴 " ++ str forks_count
           ++ " | 👁️ " ++ str watchers_count ++ nl ++
           "   🔤 Language: " ++ str (orElse language (VStr "N/A")) ++ nl ++
           "   🔗 " ++ str html_url)))))))).

Definition summaryCreatedPR (result : JS) : Exc string :=
      exc_bind (prop "result" result "number") (fun number =>
      exc_bind (prop "result" result "title") (fun title =>
      exc_bind (prop "result" result "head") (fun head =>
      exc_bind (prop "result.head" head "ref") (fun headRef =>
      exc_bind (prop "result" result "base") (fun base =>
      exc_bind (prop "result.base" base "ref") (fun baseRef =>
      exc_bind (prop "result" result "html_url") (fun html_url =>
      Ret ("✅ Pull Request created!" ++ nl ++
           "   🔀 #" ++ str number ++ ": **" ++ str title ++ "**" ++ nl ++
           "   📌 " ++ str headRef ++ " → " ++ str baseRef ++ nl ++
           "   🔗 " ++ str html_url)))))))).

Definition linePushed (r : PushResult) : string :=
      "   " ++ (if pr_success r then "✅" else "❌") ++ " " ++ str (pr_path r).

Definition summaryPushed (owner repo : JS) (result : list PushResult) : string :=
      let succeeded := length (List.filter (fun r => pr_success r) result) in
      "📤 Pushed " ++ pretty succeeded ++ "/" ++ pretty (length result)
      ++ " files to **" ++ str owner ++ "/" ++ str repo ++ "**" ++ nl
      ++ join nl (map linePushed result).

    (** *** The dispatcher *)

    (** [const { k, ... } = intent.params]: the first property read
        throws when [intent.params] is [undefined] or [null]. *)
Definition param (params : JS) (k : string) : M JS :=
      lift (getProp E "intent.params" params k).

    (** The [switch (intent.action)] of step 3. *)
Definition executeAction (action params : JS) (userId : string) : M Step :=
      if isStr action "get_profile" then
        let! result := getUser E userId in
        let! summary := lift (summaryProfile result) in
        ret (Assigned (Json result) summary)
      else if isStr action "list_repos" then
        let! result := listRepos E userId None (Some (VNum 10)) in
        let! summary := lift (summaryRepos result) in
        ret (Assigned (Json result) summary)
      else if isStr action "list_user_repos" then
        let! username := param params "username" in
        if negb (truthy username) then
          ret (Returned (failure "Username is required. Provide a GitHub username or profile URL."))
        else
          let! result := listPublicRepos E username None None in
          let! summary := lift (summaryPublicRepos username result) in
          ret (Assigned (Json result) summary)
      else if isStr action "get_user_profile" then
        let! username := param params "username" in
        if negb (truthy username) then
          ret (Returned (failure "Username is required."))
        else
          let! result := getPublicUser E username in
          let! summary := lift (summaryPublicProfile result) in
          ret (Assigned (Json result) summary)
      else if isStr action "create_repo" then
        let! name := param params "name" in
        let! description := param params "description" in
        let! isPrivate := param params "private" in
        let! result :=
          createRepo E name (withDefault description (VStr ""))
            (withDefault isPrivate (VBool false)) VUndef userId in
        let! summary := lift (summaryCreatedRepo result) in
        ret (Assigned (Json result) summary)
      else if isStr action "star_repo" then
        let! owner := param params "owner" in
        let! repo := param params "repo" in
        let! result := starRepo E owner repo userId in
        ret (Assigned (Json result) (summaryStarred owner repo))
      else if isStr action "create_issue" then
        let! owner := param params "owner" in
        let! repo := param params "repo" in
        let! title := param params "title" in
        let! body := param params "body" in
        let! result :=
          createIssue E owner repo title (withDefault body (VStr "")) (VArr []) userId in
        let! summary := lift (summaryCreatedIssue result) in
        ret (Assigned (Json result) summary)
      else if isStr action "list_issues" then
        let! owner := param params "owner" in
        let! repo := param params "repo" in
        let! result := listIssues E owner repo userId in
        let! summary := lift (summaryIssues owner repo result) in
        ret (Assigned (Json result) summary)
      else if isStr action "get_repo" then
        let! owner := param params "owner" in
        let! repo := param params "repo" in
        let! result := getRepo E owner repo userId in
        let! summary := lift (summaryRepo result) in
        ret (Assigned (Json result) summary)
      else if isStr action "create_pr" then
        let! owner := param params "owner" in
        let! repo := param params "repo" in
        let! title := param params "title" in
        let! head := param params "head" in
        let! base := param params "base" in
        let! body := param params "body" in
        let! result :=
          createPullRequest E owner repo title head (withDefault base (VStr "main"))
            (withDefault body (VStr "")) userId in
        let! summary := lift (summaryCreatedPR result) in
        ret (Assigned (Json result) summary)
      else if isStr action "push_project" then
        let! owner := param params "owner" in
        let! repo := param params "repo" in
        let! files := param params "files" in
        let! result := pushProject E owner repo files "Push from Agentic Workflow" userId in
        ret (Assigned (Pushed result) (summaryPushed owner repo result))
      else
        ret (Returned (failure
          ("Unknown action: " ++ str action
           ++ ". Try: list repos, create repo, star repo, create issue, etc."))).

    (** Steps 2 and 3 of [runGitHubAgent], for a parsed [intent]. *)
Definition dispatch (intent : JS) (userId : string) : M GitHubAgentResult :=
      let! action := lift (getProp E "intent" intent "action") in
      let! connected := gets (isConnected userId) in
      if negb (isPublicAction action) && negb connected then
        let authUrl := getAuthorizationUrl E userId in
        ret (authRequired authUrl
               ("This action requires GitHub authorization." ++ nl ++ "🔗 " ++ authUrl))
      else
        try_catch
          (let! params := lift (getProp E "intent" intent "params") in
           let! step := executeAction action params userId in
           match step with
           | Returned r => ret r
           | Assigned result summary =>
               ret (mkResult true (Some (str action)) (Some summary) (Some result)
                      None None None None)
           end)
          (fun error =>
             let errMsg := errMessage error in
             if includes errMsg "token expired" || includes errMsg "not connected" then
               let authUrl := getAuthorizationUrl E userId in
               ret (authRequired authUrl
                      ("Session expired. Please reconnect:" ++ nl ++ "🔗 " ++ authUrl))
             else ret (failure errMsg)).

    (** Step 1 of [runGitHubAgent]: the intent, or the result to return
        when it cannot be had. *)
Definition parseIntent (userPrompt : string) : M (GitHubAgentResult + JS) :=
      try_catch
        (let! text := callGemini (parsePrompt userPrompt) in
         let cleaned := stripFences text in
         let! intent := lift (JSON_parse E cleaned) in
         let! _ := lift (getProp E "intent" intent "action") in
         ret (inr intent))
        (fun error =>
           let errMsg := errMessage error in
           ret (inl (failure ("Failed to understand request: " ++ errMsg)))).

Definition runGitHubAgent (userPrompt userId : string) : M GitHubAgentResult :=
      let! parsed := parseIntent userPrompt in
      match parsed with
      | inl result => ret result
      | inr intent => dispatch intent userId
      end.
  End WithEnv.
End githubAgent.

(** ** agents/intentParser.ts *)

Module intentParser.
  Import Regex.

Record ParsedIntent : Type := mkParsedIntent {
    success : bool;
    platform : JS;
    urls : JS;
    action : JS;
    userQuery : JS;
    error : option string;
    fallback : option bool
  }.

Definition promptHead : string :=
    "You are an intent-parsing assistant for a multi-platform AI agent that supports Instagram and GitHub.

The user will give you a natural language request. Your job is to extract:

1. **platform** – One of: " ++ dq ++ "instagram" ++ dq ++ ", " ++ dq ++ "github" ++ dq ++ ", " ++ dq ++ "crypto" ++ dq ++ ", " ++ dq ++ "unknown" ++ dq ++ ".
   - If user mentions GitHub, repos, repository, issues, PRs, pull requests, starring, fork, commit, push, code → " ++ dq ++ "github" ++ dq ++ "
   - If user mentions Instagram, posts, reels, stories, or includes instagram.com links → " ++ dq ++ "instagram" ++ dq ++ "
   - If user mentions crypto, bitcoin, ethereum, coin, token, price, market cap,
     BTC, ETH, SOL, or any other cryptocurrency → " ++ dq ++ "crypto" ++ dq ++ "

2. **urls** – Any Instagram URLs found in the prompt (array of strings). Only look for instagram.com links.
3. **action** – For Instagram: " ++ dq ++ "analyze" ++ dq ++ ", " ++ dq ++ "quick" ++ dq ++ ", " ++ dq ++ "compare" ++ dq ++ ", " ++ dq ++ "custom" ++ dq ++ ". For GitHub: " ++ dq ++ "github_action" ++ dq ++ ". For Crypto: " ++ dq ++ "crypto_action" ++ dq ++ ".
4. **userQuery** – The user's full request as-is (string). Do NOT leave empty for GitHub actions.

Respond ONLY with valid JSON, no markdown, no explanation. Examples:
{" ++ dq ++ "platform" ++ dq ++ ":" ++ dq ++ "instagram" ++ dq ++ "," ++ dq ++ "urls" ++ dq ++ ":[" ++ dq ++ "https://www.instagram.com/p/ABC123/" ++ dq ++ "]," ++ dq ++ "action" ++ dq ++ ":" ++ dq ++ "analyze" ++ dq ++ "," ++ dq ++ "userQuery" ++ dq ++ ":" ++ dq ++ dq ++ "}
{" ++ dq ++ "platform" ++ dq ++ ":" ++ dq ++ "github" ++ dq ++ "," ++ dq ++ "urls" ++ dq ++ ":[]," ++ dq ++ "action" ++ dq ++ ":" ++ dq ++ "github_action" ++ dq ++ "," ++ dq ++ "userQuery" ++ dq ++ ":" ++ dq ++ "star the repo facebook/react" ++ dq ++ "}
{" ++ dq ++ "platform" ++ dq ++ ":" ++ dq ++ "github" ++ dq ++ "," ++ dq ++ "urls" ++ dq ++ ":[]," ++ dq ++ "action" ++ dq ++ ":" ++ dq ++ "github_action" ++ dq ++ "," ++ dq ++ "userQuery" ++ dq ++ ":" ++ dq ++ "list all my repos" ++ dq ++ "}

User prompt: " ++ dq.

Definition prompt (userPrompt : string) : string :=
    promptHead ++ githubAgent.escapeQuotes userPrompt ++ dq.

  (** The literal with the flags [gi]: [https?:\/\/(?:www\.)?instagram\.com\/]
      and then one or more characters that are neither white space nor
      one of the double quote, the single quote, [<] and [>]. *)
Definition instaRegex : Regex.t :=
    Seq (lit "http") (Seq (Opt (lit "s")) (Seq (lit "://") (Seq (Opt (lit "www."))
      (Seq (lit "instagram.com/")
         (Plus (CNot [CSpace; CChar (ascii_of_nat 34); CChar "'"; CChar "<"; CChar ">"])))))).

  (** [/\b(github|repo|repository|repos|repositories|issue|issues|pull\s*request|PR|star|fork|commit|push|branch)\b/i] *)
Definition githubKeywords : Regex.t :=
    Seq WordBoundary
      (Seq (alts [lit "github"; lit "repo"; lit "repository"; lit "repos"; lit "repositories";
                  lit "issue"; lit "issues";
                  Seq (lit "pull") (Seq (Star CSpace) (lit "request"));
                  lit "PR"; lit "star"; lit "fork"; lit "commit"; lit "push"; lit "branch"])
         WordBoundary).

  (** [/\b(crypto|bitcoin|btc|ethereum|eth|solana|sol|coin|token|price|market\s*cap|dogecoin|doge|xrp|cardano|ada)\b/i] *)
Definition cryptoKeywords : Regex.t :=
    Seq WordBoundary
      (Seq (alts [lit "crypto"; lit "bitcoin"; lit "btc"; lit "ethereum"; lit "eth";
                  lit "solana"; lit "sol"; lit "coin"; lit "token"; lit "price";
                  Seq (lit "market") (Seq (Star CSpace) (lit "cap"));
                  lit "dogecoin"; lit "doge"; lit "xrp"; lit "cardano"; lit "ada"])
         WordBoundary).

  (** The [catch] block of [parseUserIntent]: the regex fallback. *)
Definition fallbackIntent (userPrompt errMsg : string) : ParsedIntent :=
    let instaUrls := matchAll true instaRegex userPrompt in
    let isGitHub := test true githubKeywords userPrompt in
    let isCrypto := test true cryptoKeywords userPrompt in
    if (0 <? length instaUrls)%nat then
      mkParsedIntent true (VStr "instagram") (VArr (map VStr instaUrls)) (VStr "analyze")
        (VStr userPrompt) None (Some true)
    else if isGitHub then
      mkParsedIntent true (VStr "github") (VArr []) (VStr "github_action")
        (VStr userPrompt) None (Some true)
    else if isCrypto then
      mkParsedIntent true (VStr "crypto") (VArr []) (VStr "crypto_action")
        (VStr userPrompt) None (Some true)
    else
      mkParsedIntent false (VStr "unknown") (VArr []) VNull (VStr userPrompt)
        (Some errMsg) None.

  Section WithEnv.
    Context (E : Env).

    (** The [try] block of [parseUserIntent]: the generative path. *)
Definition generativeIntent (userPrompt : string) : M ParsedIntent :=
      let! r := geminiReporter.callGeminiWithRetry E (prompt userPrompt) in
      let cleaned := githubAgent.stripFences (geminiReporter.gr_text r) in
      let! parsed := lift (JSON_parse E cleaned) in
      let! platform := lift (getProp E "parsed" parsed "platform") in
      let! urls := lift (getProp E "parsed" parsed "urls") in
      let! action := lift (getProp E "parsed" parsed "action") in
      let! userQuery := lift (getProp E "parsed" parsed "userQuery") in
      ret (mkParsedIntent true
             (orElse platform (VStr "unknown"))
             (orElse urls (VArr []))
             (orElse action (VStr "analyze"))
             (orElse userQuery (VStr userPrompt))
             None None).

Definition parseUserIntent (userPrompt : string) : M ParsedIntent :=
      try_catch
        (generativeIntent userPrompt)
        (fun error =>
           let errMsg := errMessage error in
           ret (fallbackIntent userPrompt errMsg)).
  End WithEnv.
End intentParser.

(** ** agents/cryptoAgent.ts *)

Module cryptoAgent.

Record CryptoAgentResult : Type := mkResult {
    success : bool;
    action : option string;
    data : option JS;
    analysis : option string;
    error : option string
  }.

Definition failure (msg : string) : CryptoAgentResult :=
    mkResult false None None None (Some msg).

Definition CMC_BASE : string := "https://pro-api.coinmarketcap.com/v1".

Definition parsePromptHead : string :=
    "You are a crypto assistant. Parse the user's request into JSON.

Actions you can perform:
- get_price: Get current price/quote for specific coin(s) (needs symbols as comma-separated, e.g. " ++ dq ++ "BTC,ETH" ++ dq ++ ")
- top_coins: Get top coins by market cap (needs limit, default 10)
- analyze: Get price + AI analysis for specific coin(s) (needs symbols)
- market_overview: Get top 10 coins + AI analysis (no params needed)

Respond ONLY with valid JSON, no markdown:
{" ++ dq ++ "action" ++ dq ++ ":" ++ dq ++ "action_name" ++ dq ++ "," ++ dq ++ "params" ++ dq ++ ":{" ++ dq ++ "symbols" ++ dq ++ ":" ++ dq ++ "BTC" ++ dq ++ "," ++ dq ++ "limit" ++ dq ++ ":10," ++ dq ++ "query" ++ dq ++ ":" ++ dq ++ "user's extra question if any" ++ dq ++ "}}

Examples:
User: " ++ dq ++ "What's the price of Bitcoin?" ++ dq ++ " → {" ++ dq ++ "action" ++ dq ++ ":" ++ dq ++ "get_price" ++ dq ++ "," ++ dq ++ "params" ++ dq ++ ":{" ++ dq ++ "symbols" ++ dq ++ ":" ++ dq ++ "BTC" ++ dq ++ "," ++ dq ++ "query" ++ dq ++ ":" ++ dq ++ dq ++ "}}
User: " ++ dq ++ "Analyze ETH and SOL" ++ dq ++ "        → {" ++ dq ++ "action" ++ dq ++ ":" ++ dq ++ "analyze" ++ dq ++ "," ++ dq ++ "params" ++ dq ++ ":{" ++ dq ++ "symbols" ++ dq ++ ":" ++ dq ++ "ETH,SOL" ++ dq ++ "," ++ dq ++ "query" ++ dq ++ ":" ++ dq ++ dq ++ "}}
User: " ++ dq ++ "Top 20 cryptos" ++ dq ++ "             → {" ++ dq ++ "action" ++ dq ++ ":" ++ dq ++ "top_coins" ++ dq ++ "," ++ dq ++ "params" ++ dq ++ ":{" ++ dq ++ "limit" ++ dq ++ ":20," ++ dq ++ "query" ++ dq ++ ":" ++ dq ++ dq ++ "}}
User: " ++ dq ++ "How's the crypto market?" ++ dq ++ "   → {" ++ dq ++ "action" ++ dq ++ ":" ++ dq ++ "market_overview" ++ dq ++ "," ++ dq ++ "params" ++ dq ++ ":{" ++ dq ++ "limit" ++ dq ++ ":10," ++ dq ++ "query" ++ dq ++ ":" ++ dq ++ dq ++ "}}
User: " ++ dq ++ "Is Dogecoin a good buy?" ++ dq ++ "    → {" ++ dq ++ "action" ++ dq ++ ":" ++ dq ++ "analyze" ++ dq ++ "," ++ dq ++ "params" ++ dq ++ ":{" ++ dq ++ "symbols" ++ dq ++ ":" ++ dq ++ "DOGE" ++ dq ++ "," ++ dq ++ "query" ++ dq ++ ":" ++ dq ++ "Is it a good buy?" ++ dq ++ "}}

User: " ++ dq.

Definition analysisHead : string :=
    "You are a cryptocurrency market analyst. Analyze the following real-time market data and provide insights.

## Market Data
```json
".

Definition analysisInstructions : string :=
    "
```

## Instructions
1. **Price Overview** – Current price, rank, market cap.
2. **Momentum** – 1h / 24h / 7d % changes. Bullish or bearish?
3. **Volume Analysis** – Is trading volume healthy relative to market cap?
4. **Key Takeaway** – One-liner verdict for each coin.


".

Definition analysisTail : string :=
    "

Be specific, data-driven, no speculation. Use clean markdown.".

Definition additionalRequest : string :=
    nl ++ "## Additional User Request" ++ nl.

Definition parsePrompt (userPrompt : string) : string :=
    parsePromptHead ++ githubAgent.escapeQuotes userPrompt ++ dq.

  Section WithEnv.
    Context (E : Env).

    Local Abbreviation str := toString.
    Local Abbreviation prop := (getProp E).

Definition cmcHeaders : list (string * string) :=
      [("X-CMC_PRO_API_KEY", envString (COINMARKETCAP_APIKEY E))].

    (** [symbols.toUpperCase()]: only a string has the method. *)
Definition upperCase (symbols : JS) : Exc JS :=
      match symbols with
      | VStr s => Ret (VStr (toUpperCase E s))
      | _ => Throw (Error (typeErrorMessage E "symbols.toUpperCase"))
      end.

    (** [v.toLocaleString(undefined, { maximumFractionDigits: 2 })] *)
Definition localeString (what : string) (v : JS) : Exc string :=
      match v with
      | VUndef | VNull => Throw (Error (typeErrorMessage E (what ++ ".toLocaleString")))
      | _ => Ret (toLocaleString2 E v)
      end.

    (** [v.toFixed(2)]: only a number has the method. *)
Definition fixed2 (what : string) (v : JS) : Exc string :=
      match v with
      | VNum _ | VReal _ => Ret (toFixed2 E v)
      | _ => Throw (Error (typeErrorMessage E (what ++ ".toFixed")))
      end.

    (** [Object.entries(v)], the values: the fields of an object are
        kept in the order the engine enumerates them. *)
Definition entryValues (v : JS) : Exc (list JS) :=
      match v with
      | VUndef | VNull => Throw (Error (typeErrorMessage E "Object.entries"))
      | VObj fields => Ret (map snd fields)
      | VArr l => Ret l
      | VStr s => Ret (map VStr (codePoints s))
      | VBool _ | VNum _ | VReal _ => Ret []
      end.

    (** The quote built from one [coin] of a response. *)
Definition quoteOf (coin : JS) : Exc JS :=
      exc_bind (prop "coin" coin "quote") (fun quote =>
      exc_bind (prop "coin.quote" quote "USD") (fun q =>
      exc_bind (prop "coin" coin "symbol") (fun symbol =>
      exc_bind (prop "coin" coin "name") (fun name =>
      exc_bind (prop "q" q "price") (fun price =>
      exc_bind (prop "q" q "volume_24h") (fun volume_24h =>
      exc_bind (prop "q" q "percent_change_1h") (fun percent_change_1h =>
      exc_bind (prop "q" q "percent_change_24h") (fun percent_change_24h =>
      exc_bind (prop "q" q "percent_change_7d") (fun percent_change_7d =>
      exc_bind (prop "q" q "market_cap") (fun market_cap =>
      exc_bind (prop "coin" coin "cmc_rank") (fun cmc_rank =>
      Ret (VObj [("symbol", symbol); ("name", name); ("price", price);
                 ("volume_24h", volume_24h);
                 ("percent_change_1h", percent_change_1h);
                 ("percent_change_24h", percent_change_24h);
                 ("percent_change_7d", percent_change_7d);
                 ("market_cap", market_cap); ("rank", cmc_rank)])))))))))))).

Fixpoint quotesOf (coins : list JS) : Exc (list JS) :=
      match coins with
      | [] => Ret []
      | coin :: rest =>
          exc_bind (quoteOf coin) (fun q =>
          exc_bind (quotesOf rest) (fun qs => Ret (q :: qs)))
      end.

Definition getQuotes (symbols : JS) : M (list JS) :=
      let! upper := lift (upperCase symbols) in
      let! body :=
        githubOAuthAgent.axiosCall E
          (mkRequest "GET" (CMC_BASE ++ "/cryptocurrency/quotes/latest") cmcHeaders VUndef
             (VObj [("symbol", upper); ("convert", VStr "USD")])) in
      let! coins := lift (exc_bind (prop "data" body "data") entryValues) in
      lift (quotesOf coins).

Definition getTopCoins (limit : JS) : M (list JS) :=
      let! body :=
        githubOAuthAgent.axiosCall E
          (mkRequest "GET" (CMC_BASE ++ "/cryptocurrency/listings/latest") cmcHeaders VUndef
             (VObj [("limit", withDefault limit (VNum 10)); ("convert", VStr "USD")])) in
      let! coins := lift (prop "data" body "data") in
      match coins with
      | VArr l => lift (quotesOf l)
      | VUndef | VNull => throw (Error (typeErrorMessage E "data.data.map"))
      | _ => throw (Error (typeErrorMessage E "data.data.map is not a function"))
      end.

Definition analyzeWithGemini (quotes : list JS) (userQuery : JS) : M string :=
      let prompt :=
        analysisHead ++ JSON_stringify E (VArr quotes) ++ analysisInstructions
        ++ (if truthy userQuery
            then additionalRequest ++ str userQuery ++ nl
            else "")
        ++ analysisTail in
      let! r := geminiReporter.callGeminiWithRetry E prompt in
      ret (geminiReporter.gr_text r).

    (** The line [get_price] prints for a quote; only whether it can be
        built matters. *)
Definition priceLine (q : JS) : Exc string :=
      exc_bind (prop "q" q "name") (fun name =>
      exc_bind (prop "q" q "symbol") (fun symbol =>
      exc_bind (prop "q" q "price") (fun price =>
      exc_bind (localeString "q.price" price) (fun priceText =>
      exc_bind (prop "q" q "percent_change_24h") (fun change =>
      exc_bind (fixed2 "q.percent_change_24h" change) (fun changeText =>
      Ret ("   📈 " ++ str name ++ " (" ++ str symbol ++ "): $" ++ priceText
           ++ " | 24h: " ++ changeText ++ "%"))))))).

    (** A line of the summary of [top_coins]. *)
Definition coinLine (i : nat) (q : JS) : Exc string :=
      exc_bind (prop "q" q "name") (fun name =>
      exc_bind (prop "q" q "symbol") (fun symbol =>
      exc_bind (prop "q" q "price") (fun price =>
      exc_bind (localeString "q.price" price) (fun priceText =>
      exc_bind (prop "q" q "market_cap") (fun market_cap =>
      exc_bind (prop "q" q "percent_change_24h") (fun change =>
      exc_bind (fixed2 "q.percent_change_24h" change) (fun changeText =>
      Ret (pretty (i + 1)%nat ++ ". **" ++ str name ++ "** (" ++ str symbol ++ ") — $"
           ++ priceText ++ " | MCap: $" ++ billionsFixed2 E market_cap
           ++ "B | 24h: " ++ changeText ++ "%")))))))).

    (** The [switch (intent.action)] of step 2. *)
Definition executeAction (action params : JS) : M CryptoAgentResult :=
      if isStr action "get_price" then
        let! symbols := lift (prop "intent.params" params "symbols") in
        let! quotes := getQuotes symbols in
        let! _ := lift (exc_mapi (fun _ q => priceLine q) 0 quotes) in
        ret (mkResult true (Some "get_price") (Some (VArr quotes)) None None)
      else if isStr action "top_coins" then
        let! limit := lift (prop "intent.params" params "limit") in
        let limit := orElse limit (VNum 10) in
        let! quotes := getTopCoins limit in
        let! rows := lift (exc_mapi coinLine 0 quotes) in
        let summary := join nl rows in
        ret (mkResult true (Some "top_coins") (Some (VArr quotes)) (Some summary) None)
      else if isStr action "analyze" then
        let! symbols := lift (prop "intent.params" params "symbols") in
        let! quotes := getQuotes symbols in
        let! query := lift (prop "intent.params" params "query") in
        let! analysis := analyzeWithGemini quotes (orElse query (VStr "")) in
        ret (mkResult true (Some "analyze") (Some (VArr quotes)) (Some analysis) None)
      else if isStr action "market_overview" then
        let! limit := lift (prop "intent.params" params "limit") in
        let! quotes := getTopCoins (orElse limit (VNum 10)) in
        let! query := lift (prop "intent.params" params "query") in
        let! overview :=
          analyzeWithGemini quotes (orElse query (VStr "Give a market overview")) in
        ret (mkResult true (Some "market_overview") (Some (VArr quotes)) (Some overview) None)
      else
        ret (failure ("Unknown action: " ++ str action)).

    (** Step 1 of [runCryptoAgent]. *)
Definition parseIntent (userPrompt : string) : M (CryptoAgentResult + JS) :=
      try_catch
        (let! r := geminiReporter.callGeminiWithRetry E (parsePrompt userPrompt) in
         let cleaned := githubAgent.stripFences (geminiReporter.gr_text r) in
         let! intent := lift (JSON_parse E cleaned) in
         let! _ := lift (prop "intent" intent "action") in
         ret (inr intent))
        (fun err => ret (inl (failure ("Failed to parse intent: " ++ errMessage err)))).

    (** Step 2 of [runCryptoAgent], for a parsed [intent]. *)
Definition dispatch (intent : JS) : M CryptoAgentResult :=
      try_catch
        (let! action := lift (prop "intent" intent "action") in
         let! params := lift (prop "intent" intent "params") in
         executeAction action params)
        (fun err => ret (failure ("CoinMarketCap API error: " ++ errMessage err))).

Definition runCryptoAgent (userPrompt : string) : M CryptoAgentResult :=
      let! parsed := parseIntent userPrompt in
      match parsed with
      | inl result => ret result
      | inr intent => dispatch intent
      end.
  End WithEnv.
End cryptoAgent.

(** ** Vocabulary of the theorems *)

(** The axios requests of a trace, in order. *)
Definition httpRequests (tr : list Event) : list Request :=
  omap (fun ev => match ev with EvHttp req => Some req | _ => None end) tr.

(** Exactly one of three propositions holds. *)
Definition exactlyOne (P Q R : Prop) : Prop :=
  (P /\ ~ Q /\ ~ R) \/ (~ P /\ Q /\ ~ R) \/ (~ P /\ ~ Q /\ R).

(** The outcome states of an Action Result, for the result record of the
    GitHub dispatcher: [ok] carries the action, the summary and the
    payload; [needsAuthorization] carries the authorization URL;
    [failed] carries the error message. *)
Module GitHubOutcome.
  Import githubAgent.

Definition ok (r : GitHubAgentResult) : Prop :=
    success r = true /\ is_Some (action r) /\ is_Some (summary r) /\ is_Some (rawData r).

Definition needsAuthorization (r : GitHubAgentResult) : Prop :=
    success r = false /\ needsAuth r = Some true /\ is_Some (authUrl r).

Definition failed (r : GitHubAgentResult) : Prop :=
    success r = false /\ needsAuth r = None /\ is_Some (error r).

  (** The actions the [switch] of [runGitHubAgent] has a case for. *)
Definition HANDLED_ACTIONS : list string :=
    ["get_profile"; "list_repos"; "list_user_repos"; "get_user_profile"; "create_repo";
     "star_repo"; "create_issue"; "list_issues"; "get_repo"; "create_pr"; "push_project"].

Definition isHandled (v : JS) : bool := existsb (isStr v) HANDLED_ACTIONS.
End GitHubOutcome.

(** The same for the result record of the crypto dispatcher, which has
    no field for an authorization request. *)
Module CryptoOutcome.
  Import cryptoAgent.

Definition ok (r : CryptoAgentResult) : Prop :=
    success r = true /\ is_Some (action r) /\ is_Some (data r) /\ error r = None.

Definition needsAuthorization (r : CryptoAgentResult) : Prop := False.

Definition failed (r : CryptoAgentResult) : Prop :=
    success r = false /\ is_Some (error r).
End CryptoOutcome.

Module Schedule.
  Import geminiReporter.

  (** [j] attempts of one model from attempt number [attempt] on, with
      the wait after each attempt but the last. *)
Fixpoint ladder (modelName prompt : string) (attempt j : nat) : list Event :=
    match j with
    | 0 => []
    | 1 => [EvGenerate modelName prompt]
    | S j' =>
        EvGenerate modelName prompt
        :: EvSleep (BASE_DELAY_MS * Z.of_nat attempt)
        :: ladder modelName prompt (S attempt) j'
    end.

  (** What a run over [models] does when every attempt is rate limited. *)
Definition schedule (prompt : string) (models : list string) : list Event :=
    flat_map (fun modelName => ladder modelName prompt 1 MAX_RETRIES) models.

  (** Every generative call of [tr], made after the history [h], was
      answered by a failure with a rate-limit signature. *)
Fixpoint allRateLimited (E : Env) (h tr : list Event) : Prop :=
    match tr with
    | [] => True
    | ev :: rest =>
        match ev with
        | EvGenerate modelName prompt =>
            exists e, generateContent E h modelName prompt = Throw e
                      /\ is429 (errMessage e) = true
        | _ => True
        end
        /\ allRateLimited E (h ++ [ev]) rest
    end.

  (** Every generative call of [tr], made after the history [h], failed. *)
Fixpoint allFailed (E : Env) (h tr : list Event) : Prop :=
    match tr with
    | [] => True
    | ev :: rest =>
        match ev with
        | EvGenerate modelName prompt =>
            exists e, generateContent E h modelName prompt = Throw e
        | _ => True
        end
        /\ allFailed E (h ++ [ev]) rest
    end.
  (** One attempt of each of [models], in order. *)
Definition calls (prompt : string) (models : list string) : list Event :=
    map (fun modelName => EvGenerate modelName prompt) models.

  (** The error of a run whose every attempt was rate limited. *)
Definition exhausted : Thrown :=
    Error "All Gemini models exhausted their quota. Please wait or upgrade your plan.".

  (** What a run of the inner loop over [plan] does and returns. *)
Definition attemptsOutcome (E : Env) (prompt modelName : string) (w : World)
    (plan : list Event) (found : Exc (option GeminiResult)) (w' : World) : Prop :=
    tokenStore w' = tokenStore w
    /\ ((found = Ret None
         /\ trace w' = (trace w ++ plan)%list
         /\ allRateLimited E (trace w) plan)
        \/ (exists body,
              (body ++ [EvGenerate modelName prompt])%list `prefix_of` plan
              /\ trace w' = (trace w ++ body ++ [EvGenerate modelName prompt])%list
              /\ allRateLimited E (trace w) body
              /\ match generateContent E (trace w ++ body)%list modelName prompt with
                 | Ret text => found = Ret (Some (mkGeminiResult true text modelName))
                 | Throw e => is429 (errMessage e) = false /\ found = Throw e
                 end)).

  (** What a run of the outer loop over [plan] does and returns. *)
Definition runOutcome (E : Env) (prompt : string) (w : World) (plan : list Event)
    (res : Exc GeminiResult) (w' : World) : Prop :=
    tokenStore w' = tokenStore w
    /\ ((res = Throw exhausted
         /\ trace w' = (trace w ++ plan)%list
         /\ allRateLimited E (trace w) plan)
        \/ (exists body modelName,
              (body ++ [EvGenerate modelName prompt])%list `prefix_of` plan
              /\ trace w' = (trace w ++ body ++ [EvGenerate modelName prompt])%list
              /\ allRateLimited E (trace w) body
              /\ match generateContent E (trace w ++ body)%list modelName prompt with
                 | Ret text => res = Ret (mkGeminiResult true text modelName)
                 | Throw e => is429 (errMessage e) = false /\ res = Throw e
                 end)).
End Schedule.

Module Push.
  Import githubOAuthAgent.

  (** A [FileEntry]: [{ path, content }] with two strings. *)
Definition fileEntry (entry : string * string) : JS :=
    VObj [("path", VStr (fst entry)); ("content", VStr (snd entry))].

  (** [created?.html_url] *)
Definition htmlUrl (created : JS) : JS :=
    match created with
    | VObj fields => default VUndef (assoc "html_url" fields)
    | _ => VUndef
    end.

  (** One file written on its own, in the words of the specification:
      the entry of the result list for it, and the state after it.  The
      write has succeeded when [createOrUpdateFile] returned a response
      body. *)
Definition writeOne (E : Env) (owner repo : JS) (message userId : string)
    (entry : string * string) (w : World) : PushResult * World :=
    match createOrUpdateFile E owner repo (VStr (fst entry)) (VStr (snd entry))
            message userId w with
    | (Ret body, w') =>
        match getProp E "result" body "content" with
        | Ret created => (mkPushResult (VStr (fst entry)) true (htmlUrl created) None, w')
        | Throw e => (mkPushResult (VStr (fst entry)) false VUndef (Some (errMessage e)), w')
        end
    | (Throw e, w') =>
        (mkPushResult (VStr (fst entry)) false VUndef (Some (errMessage e)), w')
    end.

  (** The files written one after the other, each from the state the
      one before left. *)
Fixpoint writeAll (E : Env) (owner repo : JS) (message userId : string)
    (entries : list (string * string)) (w : World) : list PushResult * World :=
    match entries with
    | [] => ([], w)
    | entry :: rest =>
        let '(r, w1) := writeOne E owner repo message userId entry w in
        let '(rs, w2) := writeAll E owner repo message userId rest w1 in
        (r :: rs, w2)
    end.
End Push.

(** ** Concrete environments, for the examples *)

Module Examples.

Definition pushJson : string :=
    "{" ++ dq ++ "action" ++ dq ++ ":" ++ dq ++ "push_project" ++ dq ++ "," ++ dq ++ "params" ++ dq ++ ":{" ++ dq ++ "owner" ++ dq ++ ":" ++ dq ++ "octo" ++ dq ++ "," ++ dq ++ "repo" ++ dq ++ ":" ++ dq ++ "demo" ++ dq ++ "," ++ dq ++ "files" ++ dq ++ ":[{" ++ dq ++ "path" ++ dq ++ ":" ++ dq ++ "a.txt" ++ dq ++ "," ++ dq ++ "content" ++ dq ++ ":" ++ dq ++ "one" ++ dq ++ "},{" ++ dq ++ "path" ++ dq ++ ":" ++ dq ++ "b.txt" ++ dq ++ "," ++ dq ++ "content" ++ dq ++ ":" ++ dq ++ "two" ++ dq ++ "},{" ++ dq ++ "path" ++ dq ++ ":" ++ dq ++ "c.txt" ++ dq ++ "," ++ dq ++ "content" ++ dq ++ ":" ++ dq ++ "three" ++ dq ++ "}]}}".

Definition starJson : string :=
    "{" ++ dq ++ "action" ++ dq ++ ":" ++ dq ++ "star_repo" ++ dq ++ "," ++ dq ++ "params" ++ dq ++ ":{" ++ dq ++ "owner" ++ dq ++ ":" ++ dq ++ "facebook" ++ dq ++ "," ++ dq ++ "repo" ++ dq ++ ":" ++ dq ++ "react" ++ dq ++ "}}".

Definition deleteJson : string :=
    "{" ++ dq ++ "action" ++ dq ++ ":" ++ dq ++ "delete_repo" ++ dq ++ "," ++ dq ++ "params" ++ dq ++ ":{" ++ dq ++ "owner" ++ dq ++ ":" ++ dq ++ "octo" ++ dq ++ "," ++ dq ++ "repo" ++ dq ++ ":" ++ dq ++ "demo" ++ dq ++ "}}".

Definition unknownJson : string :=
    "{" ++ dq ++ "platform" ++ dq ++ ":" ++ dq ++ "unknown" ++ dq ++ "," ++ dq ++ "urls" ++ dq ++ ":[]," ++ dq ++ "action" ++ dq ++ ":null," ++ dq ++ "userQuery" ++ dq ++ ":" ++ dq ++ dq ++ "}".

Definition priceJson : string :=
    "{" ++ dq ++ "action" ++ dq ++ ":" ++ dq ++ "get_price" ++ dq ++ "," ++ dq ++ "params" ++ dq ++ ":{" ++ dq ++ "symbols" ++ dq ++ ":" ++ dq ++ "BTC" ++ dq ++ "," ++ dq ++ "query" ++ dq ++ ":" ++ dq ++ dq ++ "}}".

Definition pushIntent : JS :=
    VObj [("action", VStr "push_project");
          ("params",
            VObj [("owner", VStr "octo"); ("repo", VStr "demo");
                  ("files",
                    VArr [VObj [("path", VStr "a.txt"); ("content", VStr "one")];
                          VObj [("path", VStr "b.txt"); ("content", VStr "two")];
                          VObj [("path", VStr "c.txt"); ("content", VStr "three")]])])].

Definition starIntent : JS :=
    VObj [("action", VStr "star_repo");
          ("params", VObj [("owner", VStr "facebook"); ("repo", VStr "react")])].

Definition deleteIntent : JS :=
    VObj [("action", VStr "delete_repo");
          ("params", VObj [("owner", VStr "octo"); ("repo", VStr "demo")])].

Definition unknownIntent : JS :=
    VObj [("platform", VStr "unknown"); ("urls", VArr []); ("action", VNull);
          ("userQuery", VStr "")].

Definition priceIntent : JS :=
    VObj [("action", VStr "get_price");
          ("params", VObj [("symbols", VStr "BTC"); ("query", VStr "")])].

  (** [JSON.parse] on the texts above; any other text is refused here. *)
Definition parseJson (text : string) : Exc JS :=
    if String.eqb text pushJson then Ret pushIntent
    else if String.eqb text starJson then Ret starIntent
    else if String.eqb text deleteJson then Ret deleteIntent
    else if String.eqb text unknownJson then Ret unknownIntent
    else if String.eqb text priceJson then Ret priceIntent
    else Throw (Error "Unexpected token in JSON").

  (** [Buffer.from(s).toString('base64')] on the three file contents. *)
Definition base64 (v : JS) : Exc string :=
    if isStr v "one" then Ret "b25l"
    else if isStr v "two" then Ret "dHdv"
    else if isStr v "three" then Ret "dGhyZWU="
    else Throw (Error "The first argument must be of type string").

  (** An environment whose generative service answers [reply] and whose
      HTTP side is [http]. *)
Definition env (generate : list Event -> string -> string -> Exc string)
    (http : list Event -> Request -> HttpResult) : Env :=
    mkEnv generate http parseJson (fun _ => "{}") base64
      (fun _ => "2026-01-01T00:00:00.000Z")
      (Some "client-id") (Some "http://localhost:3000/auth/github/callback")
      (Some "cmc-key")
      (fun what => "Cannot read properties: " ++ what)
      (fun s => s) (fun v => toString v) (fun v => toString v) (fun v => toString v).

Definition replies (text : string) : list Event -> string -> string -> Exc string :=
    fun _ _ _ => Ret text.

Definition token : TokenData :=
    mkTokenData (VStr "gho_expired") (VStr "bearer") (VStr "repo,user") None.

  (** No credential, nothing called yet. *)
Definition fresh : World := mkWorld [] [].

  (** A credential for [octocat], nothing called yet. *)
Definition connected : World :=
    mkWorld [("octocat", mkTokenData (VStr "gho_expired") (VStr "bearer") (VStr "repo,user")
                           (Some "2026-01-01T00:00:00.000Z"))] [].

  (** GitHub answers every request with 401. *)
Definition http401 : list Event -> Request -> HttpResult :=
    fun _ _ => HttpFail (Some 401%Z) "Request failed with status code 401".

  (** GitHub has none of the files and refuses to create [b.txt]. *)
Definition httpSecondFails : list Event -> Request -> HttpResult :=
    fun _ req =>
      if String.eqb (req_method req) "GET" then
        HttpFail (Some 404%Z) "Request failed with status code 404"
      else if includes (req_url req) "b.txt" then
        HttpFail (Some 422%Z) "Request failed with status code 422"
      else HttpOk (VObj [("content", VObj [("html_url", VStr (req_url req))])]).

  (** The first model fails outright, the second answers. *)
Definition firstModelBroken : list Event -> string -> string -> Exc string :=
    fun _ modelName _ =>
      if String.eqb modelName "gemini-2.5-flash" then Throw (Error "fetch failed")
      else Ret starJson.

  (** The first two models are rate limited, the third answers. *)
Definition twoModelsLimited : list Event -> string -> string -> Exc string :=
    fun _ modelName _ =>
      if String.eqb modelName "gemini-3-flash" then Ret unknownJson
      else Throw (Error "[429 Too Many Requests] quota exceeded").

  (** The generative service is down. *)
Definition generativeDown : list Event -> string -> string -> Exc string :=
    fun _ _ _ => Throw (Error "fetch failed").
End Examples.


(** ** agents/instagramScraper.ts *)

Module instagramScraper.

  (** The two libraries the scraper calls, and what it reads from a page
      it fetched.  The calls of the Apify client are not recorded in the
      trace; the request for the page is. *)
Record Services : Type := mkServices {
    (** [client.actor(id).call(input)]: the run *)
    actorCall : list Event -> string -> JS -> Exc JS;
    (** [client.dataset(id).listItems()], its [items] *)
    listItems : list Event -> JS -> Exc (list JS);
    (** [cheerio.load(page)] and the [content] of a [meta] property *)
    metaContent : JS -> string -> Exc (option string);
    (** the counts and the user name the regular expressions and
        [parseCount] find in the description *)
    likesIn : string -> JS;
    commentsIn : string -> JS;
    usernameIn : string -> JS
  }.

Definition ACTOR : string := "nH2AHrwxeTRJoN5hX".

Definition USER_AGENT : string :=
    "Mozilla/5.0 (Windows NT 10.0; Win64; x64) AppleWebKit/537.36".

  (** The object both scrapers return from their [catch]. *)
Definition failed (errMsg : string) : list (string * JS) :=
    [("error", VStr errMsg); ("likes", VNum 0); ("comments", VNum 0); ("views", VNum 0);
     ("username", VStr ""); ("photoUrl", VStr ""); ("videoUrl", VStr "");
     ("thumbnailUrl", VStr ""); ("isVideo", VBool false); ("success", VBool false)].

  (** [a || b || ... || last] *)
Definition firstOf (alternatives : list JS) (last : JS) : JS :=
    fold_right orElse last alternatives.

  Section WithEnv.
    Context (E : Env) (services : Services).

    (** The object [getInstagramDataApify] builds from the first item. *)
Definition apifyData (postUrl : string) (data : JS) : Exc (list (string * JS)) :=
      exc_bind (getProp E "data" data "type") (fun type =>
      let get k := match getProp E "data" data k with
                   | Ret v => v
                   | Throw _ => VUndef
                   end in
      let isVideo :=
        firstOf [VBool (isStr type "Video"); VBool (isStr type "Reel");
                 VBool (isStr (get "__typename") "GraphVideo"); get "videoUrl"]
          (get "videoPlayCount") in
      Ret [("likes", firstOf [get "likesCount"; get "likes"] (VNum 0));
           ("comments", firstOf [get "commentsCount"; get "comments"] (VNum 0));
           ("views", firstOf [get "videoViewCount"; get "playCount"; get "viewCount";
                              get "plays"; get "videoPlayCount"] (VNum 0));
           ("username", firstOf [get "ownerUsername"; get "username"] (VStr ""));
           ("caption", firstOf [get "caption"; get "text"] (VStr ""));
           ("photoUrl",
            if negb (truthy isVideo)
            then firstOf [get "displayUrl"; get "imageUrl"; get "thumbnailUrl"] (VStr "")
            else VStr "");
           ("videoUrl",
            if truthy isVideo
            then firstOf [get "videoUrl"; get "videoPlayUrl"] (VStr "")
            else VStr "");
           ("thumbnailUrl", firstOf [get "thumbnailUrl"; get "displayUrl"] (VStr ""));
           ("timestamp", firstOf [get "timestamp"; get "takenAt"] (VStr ""));
           ("url", orElse (get "url") (VStr postUrl));
           ("type", firstOf [type; get "__typename"] (VStr "unknown"));
           ("isVideo", isVideo);
           ("success", VBool true);
           ("rawData", data)]).

Definition getInstagramDataApify (postUrl : string) : M (list (string * JS)) :=
      try_catch
        (let input := VObj [("username", VArr [VStr postUrl]); ("resultsLimit", VNum 1)] in
         let! called := gets (fun w => actorCall services (trace w) ACTOR input) in
         let! run := lift called in
         let! datasetId := lift (getProp E "run" run "defaultDatasetId") in
         let! listed := gets (fun w => listItems services (trace w) datasetId) in
         let! items := lift listed in
         match items with
         | [] => throw (Error "No data returned from Apify")
         | data :: _ => lift (apifyData postUrl data)
         end)
        (fun error => ret (failed (errMessage error))).

    (** The object [getInstagramDataCheerio] builds from a page. *)
Definition cheerioData (page : JS) : Exc (list (string * JS)) :=
      exc_bind (metaContent services page "og:description") (fun description =>
      exc_bind (metaContent services page "og:image") (fun ogImage =>
      exc_bind (metaContent services page "og:video") (fun ogVideo =>
      exc_bind (metaContent services page "og:type") (fun ogType =>
      let description := default "" description in
      let ogImage := default "" ogImage in
      let ogVideo := default "" ogVideo in
      let ogType := default "" ogType in
      let isVideo := String.eqb ogType "video" || negb (String.eqb ogVideo "") in
      Ret [("likes", likesIn services description);
           ("comments", commentsIn services description);
           ("views", VNum 0);
           ("username", usernameIn services description);
           ("photoUrl", VStr (if negb isVideo then ogImage else ""));
           ("videoUrl", VStr (if isVideo then ogVideo else ""));
           ("thumbnailUrl", VStr ogImage);
           ("isVideo", VBool isVideo);
           ("success", VBool true);
           ("note", VStr "Fallback method - views not available")])))).

Definition pageRequest (postUrl : string) : Request :=
      mkRequest "GET" postUrl [("User-Agent", USER_AGENT)] VUndef VUndef.

Definition getInstagramDataCheerio (postUrl : string) : M (list (string * JS)) :=
      try_catch
        (let! page := githubOAuthAgent.axiosCall E (pageRequest postUrl) in
         lift (cheerioData page))
        (fun error => ret (failed (errMessage error))).

    (** [obj.k] of an object literal *)
Definition field (obj : list (string * JS)) (k : string) : JS :=
      default VUndef (assoc k obj).

Definition getInstagramData (postUrl : string) : M (list (string * JS)) :=
      let! apifyResult := getInstagramDataApify postUrl in
      if truthy (field apifyResult "success") then ret apifyResult
      else getInstagramDataCheerio postUrl.
  End WithEnv.
End instagramScraper.

(** ** workflow.ts *)

Module workflow.
  Import instagramScraper geminiReporter.

Record WorkflowOptions : Type := mkWorkflowOptions {
    mode : option string;
    userQuery : option string
  }.

Record WorkflowResult : Type := mkWorkflowResult {
    success : bool;
    step : option string;
    error : JS;
    url : option string;
    metrics : option (list (string * JS));
    media : option (list (string * JS));
    report : option string;
    metadata : option Metadata;
    completedAt : option string;
    scrapedData : option (list (string * JS))
  }.

  (** [{ success: false, step, error }], with the scraped data when the
      analysis failed. *)
Definition stopped (at_ : string) (error : JS) (scraped : option (list (string * JS)))
    : WorkflowResult :=
    mkWorkflowResult false (Some at_) error None None None None None None scraped.

Definition optionalString (s : option string) : JS :=
    match s with
    | Some text => VStr text
    | None => VUndef
    end.

  Section WithEnv.
    Context (E : Env) (services : Services).

    (** The analysis of step 2, as [(success, error, text, metadata)]. *)
Definition analyse (quick : bool) (scraped : list (string * JS)) (userQuery : string)
      : M (bool * option string * option string * option Metadata) :=
      if quick then
        let! r := generateQuickSummary E scraped in
        ret (sr_success r, sr_error r, sr_summary r, None)
      else
        let! r := generateReport E scraped userQuery in
        ret (rr_success r, rr_error r, rr_report r, rr_metadata r).

Definition runAnalysisWorkflow (postUrl : string) (options : WorkflowOptions)
      : M WorkflowResult :=
      let mode := default "full" (mode options) in
      let userQuery := default "" (userQuery options) in
      let! scraped := getInstagramData E services postUrl in
      if negb (truthy (field scraped "success")) then
        ret (stopped "scraping" (field scraped "error") None)
      else
        let! analysisResult := analyse (String.eqb mode "quick") scraped userQuery in
        let '(ok, failure, text, meta) := analysisResult in
        if negb ok then
          ret (stopped "analysis" (optionalString failure) (Some scraped))
        else
          let! now := gets (fun w => nowISO E (trace w)) in
          ret (mkWorkflowResult true None VUndef (Some postUrl)
                 (Some [("username", field scraped "username");
                        ("likes", field scraped "likes");
                        ("comments", field scraped "comments");
                        ("views", field scraped "views");
                        ("type", VStr (if truthy (field scraped "isVideo")
                                       then "Video/Reel" else "Photo"));
                        ("caption", field scraped "caption")])
                 (Some [("photoUrl", field scraped "photoUrl");
                        ("videoUrl", field scraped "videoUrl");
                        ("thumbnailUrl", field scraped "thumbnailUrl")])
                 text meta (Some now) None).
  End WithEnv.
End workflow.
(** * Theorems *)

(** ** The token store *)

Section JSMapFacts.
  Context {V : Type}.
  Implicit Types (k : string) (v : V) (m : JSMap.t V).

Lemma JSMap_get_set_eq k v m : JSMap.get k (JSMap.set k v m) = Some v.
  Proof.
    unfold JSMap.get. induction m as [|[k' v'] m IH]; simpl.
    - by rewrite String.eqb_refl.
    - destruct (String.eqb k k') eqn:Hk; simpl.
      + by rewrite String.eqb_refl.
      + by rewrite Hk.
  Qed.

Lemma JSMap_get_set_ne k k' v m :
    k <> k' -> JSMap.get k' (JSMap.set k v m) = JSMap.get k' m.
  Proof.
    intros Hne. unfold JSMap.get. induction m as [|[k0 v0] m IH]; simpl.
    - destruct (String.eqb_spec k' k); congruence.
    - destruct (String.eqb_spec k k0) as [->|Hk0]; simpl.
      + destruct (String.eqb_spec k' k0); congruence.
      + destruct (String.eqb_spec k' k0); congruence.
  Qed.

Lemma JSMap_get_delete_eq k m : JSMap.get k (JSMap.delete k m) = None.
  Proof.
    unfold JSMap.get, JSMap.delete. induction m as [|[k' v'] m IH]; simpl; [done|].
    destruct (String.eqb_spec k k') as [->|Hk]; simpl; [done|].
    destruct (String.eqb_spec k k'); congruence.
  Qed.

Lemma JSMap_get_delete_ne k k' m :
    k <> k' -> JSMap.get k' (JSMap.delete k m) = JSMap.get k' m.
  Proof.
    intros Hne. unfold JSMap.get, JSMap.delete.
    induction m as [|[k0 v0] m IH]; simpl; [done|].
    destruct (String.eqb_spec k k0) as [->|Hk0]; simpl.
    - destruct (String.eqb_spec k' k0); congruence.
    - destruct (String.eqb_spec k' k0); congruence.
  Qed.
End JSMapFacts.

(** C10.  Authorization State round trip and isolation: after
    [storeToken(id, t)] the identity is connected and [getToken(id)] is
    [t] with [connectedAt] set; after [disconnect(id)] it is not connected
    and [getToken(id)] is undefined; neither touches the record of another
    identity. *)
Theorem token_store_round_trip (E : Env) (id : string) (t : TokenData) (w : World) :
  (githubOAuthAgent.isConnected id (githubOAuthAgent.storeToken E id t w) = true
   /\ exists r,
        githubOAuthAgent.getToken id (githubOAuthAgent.storeToken E id t w) = Some r
        /\ accessToken r = accessToken t
        /\ tokenType r = tokenType t
        /\ scope r = scope t
        /\ connectedAt r = Some (nowISO E (trace w)))
  /\ (githubOAuthAgent.isConnected id (githubOAuthAgent.disconnect id w) = false
      /\ githubOAuthAgent.getToken id (githubOAuthAgent.disconnect id w) = None)
  /\ (forall other, other <> id ->
        githubOAuthAgent.getToken other (githubOAuthAgent.storeToken E id t w)
        = githubOAuthAgent.getToken other w
        /\ githubOAuthAgent.getToken other (githubOAuthAgent.disconnect id w)
           = githubOAuthAgent.getToken other w).
Proof.
  unfold githubOAuthAgent.isConnected, githubOAuthAgent.getToken,
    githubOAuthAgent.storeToken, githubOAuthAgent.disconnect, JSMap.has; simpl.
  repeat split.
  - by rewrite JSMap_get_set_eq.
  - eexists. split; [apply JSMap_get_set_eq|]. by simpl.
  - by rewrite JSMap_get_delete_eq.
  - apply JSMap_get_delete_eq.
  - apply JSMap_get_set_ne. congruence.
  - apply JSMap_get_delete_ne. congruence.
Qed.

Lemma token_store_round_trip_witness :
  "bob" <> "alice"
  /\ githubOAuthAgent.getToken "bob"
       (githubOAuthAgent.storeToken (Examples.env Examples.generativeDown Examples.http401)
          "alice" Examples.token Examples.connected)
     = githubOAuthAgent.getToken "bob" Examples.connected.
Proof.
  split; [discriminate|].
  apply (proj2 (proj2 (token_store_round_trip
                         (Examples.env Examples.generativeDown Examples.http401)
                         "alice" Examples.token Examples.connected))
           "bob" ltac:(discriminate)).
Defined.

(** ** The retry loop of the generative-text client *)

Section RetryLoop.
  Import geminiReporter Schedule.
  Context (E : Env) (prompt : string).

Lemma allRateLimited_app h a b :
    allRateLimited E h (a ++ b)%list
    <-> allRateLimited E h a /\ allRateLimited E (h ++ a)%list b.
  Proof.
    revert h. induction a as [|ev a IH]; intros h; simpl.
    - rewrite app_nil_r. tauto.
    - rewrite IH. rewrite <- app_assoc. simpl. tauto.
  Qed.

Lemma allRateLimited_inv h pre modelName p post :
    allRateLimited E h (pre ++ EvGenerate modelName p :: post)%list ->
    exists e, generateContent E (h ++ pre)%list modelName p = Throw e
              /\ is429 (errMessage e) = true.
  Proof.
    rewrite allRateLimited_app. simpl. tauto.
  Qed.

Lemma ladder_step modelName attempt j :
    ladder modelName prompt attempt (S (S j))
    = EvGenerate modelName prompt
      :: EvSleep (BASE_DELAY_MS * Z.of_nat attempt)
      :: ladder modelName prompt (S attempt) (S j).
  Proof. reflexivity. Qed.

Lemma ladder_head modelName attempt j :
    [EvGenerate modelName prompt] `prefix_of` ladder modelName prompt attempt (S j).
  Proof.
    destruct j as [|j]; [by exists []|].
    rewrite ladder_step. by eexists.
  Qed.

Lemma attemptLoop_run modelName remaining attempt w :
    attempt + remaining = S MAX_RETRIES -> 1 <= remaining ->
    attemptsOutcome E prompt modelName w (ladder modelName prompt attempt remaining)
      (attemptLoop E prompt modelName remaining attempt w).1
      (attemptLoop E prompt modelName remaining attempt w).2.
  Proof.
    revert attempt w. induction remaining as [|remaining IH]; intros attempt w Hsum Hpos; [lia|].
    remember (ladder modelName prompt attempt (S remaining)) as plan eqn:Hplan.
    unfold attemptsOutcome. simpl attemptLoop.
    unfold bind, try_catch, generate, ret, throw, sleep, emit. simpl.
    destruct (generateContent E (trace w) modelName prompt) as [text|e] eqn:Hgen; simpl.
    - split; [done|]. right. exists []. simpl. rewrite app_nil_r, Hgen.
      split; [subst plan; apply ladder_head|done].
    - destruct (is429 (errMessage e)) eqn:H429; simpl.
      + destruct (attempt <? MAX_RETRIES)%nat eqn:Hlt; simpl.
        * apply Nat.ltb_lt in Hlt.
          destruct remaining as [|remaining']; [unfold MAX_RETRIES in *; lia|].
          set (w1 := mkWorld (tokenStore w)
                       ((trace w ++ [EvGenerate modelName prompt])
                          ++ [EvSleep (BASE_DELAY_MS * Z.of_nat attempt)])).
          assert (Htrace1 : trace w1
                            = (trace w ++ [EvGenerate modelName prompt;
                                           EvSleep (BASE_DELAY_MS * Z.of_nat attempt)])%list)
            by (subst w1; simpl; by rewrite <- app_assoc).
          specialize (IH (S attempt) w1 ltac:(lia) ltac:(lia)).
          destruct IH as [Hstore IH]. rewrite Htrace1 in IH.
          split; [done|]. rewrite ladder_step in Hplan. subst plan.
          destruct IH as [(Hnone & Htr & Hall)|(body & Hpre & Htr & Hall & Hlast)].
          -- left. split; [done|]. split.
             ++ rewrite Htr. by rewrite <- !app_assoc.
             ++ cbn [allRateLimited]. split; [eauto|]. split; [done|].
                by rewrite <- !app_assoc.
          -- right.
             exists (EvGenerate modelName prompt
                     :: EvSleep (BASE_DELAY_MS * Z.of_nat attempt) :: body).
             split; [|split; [|split]].
             ++ simpl. by do 2 apply prefix_cons.
             ++ rewrite Htr. by rewrite <- !app_assoc.
             ++ cbn [allRateLimited]. split; [eauto|]. split; [done|].
                by rewrite <- !app_assoc.
             ++ rewrite <- !app_assoc in Hlast. exact Hlast.
        * apply Nat.ltb_ge in Hlt.
          assert (remaining = 0) as -> by (unfold MAX_RETRIES in *; lia).
          subst plan. split; [done|]. left. simpl. eauto 10.
      + split; [done|]. right. exists []. simpl. rewrite app_nil_r, Hgen.
        split; [subst plan; apply ladder_head|done].
  Qed.

Lemma modelLoop_run models w :
    runOutcome E prompt w (schedule prompt models)
      (modelLoop E prompt models w).1 (modelLoop E prompt models w).2.
  Proof.
    revert w. induction models as [|modelName rest IH]; intros w.
    - unfold runOutcome. simpl. rewrite app_nil_r. split; [done|]. by left.
    - cbn [modelLoop schedule flat_map]. unfold bind.
      pose proof (attemptLoop_run modelName MAX_RETRIES 1 w eq_refl ltac:(unfold MAX_RETRIES; lia))
        as [Hstore Hrun].
      destruct (attemptLoop E prompt modelName MAX_RETRIES 1 w) as [found w1].
      cbn [fst snd] in Hstore, Hrun.
      destruct Hrun as [(-> & Htr & Hall)|(body & Hpre & Htr & Hall & Hlast)].
      + specialize (IH w1). destruct IH as [Hstore' IH].
        fold (schedule prompt rest).
        split; [congruence|]. rewrite Htr in IH.
        destruct IH as [(Hres & Htr' & Hall')|(body' & m' & Hpre' & Htr' & Hall' & Hlast')].
        * left. split; [done|]. split; [by rewrite Htr', <- app_assoc|].
          apply allRateLimited_app. by split.
        * right. exists (ladder modelName prompt 1 MAX_RETRIES ++ body')%list, m'.
          split; [|split; [|split]].
          -- rewrite <- app_assoc. by apply prefix_app.
          -- by rewrite Htr', <- !app_assoc.
          -- apply allRateLimited_app. by split.
          -- by rewrite <- app_assoc in Hlast'.
      + fold (schedule prompt rest).
        assert (Hpre' : (body ++ [EvGenerate modelName prompt])%list
                        `prefix_of` (ladder modelName prompt 1 MAX_RETRIES
                                       ++ schedule prompt rest)%list)
          by (by apply prefix_app_r).
        destruct (generateContent E (trace w ++ body)%list modelName prompt)
          as [text|e] eqn:Hgen.
        * subst found. cbn. split; [done|]. right. exists body, modelName.
          by rewrite Hgen.
        * destruct Hlast as [H429 ->]. cbn. split; [done|]. right.
          exists body, modelName. by rewrite Hgen.
  Qed.

Lemma snoc_split {A : Type} (pre post body : list A) (x y : A) :
    (pre ++ x :: post = body ++ [y])%list ->
    (post = [] /\ pre = body /\ x = y)
    \/ (exists post', post = (post' ++ [y])%list /\ body = (pre ++ x :: post')%list).
  Proof.
    intros Heq. destruct post as [|p post _] using rev_ind.
    - left. apply app_inj_tail in Heq as [-> ->]. done.
    - right. exists post.
      replace (pre ++ x :: post ++ [p])%list with ((pre ++ x :: post) ++ [p])%list in Heq
        by (by rewrite <- app_assoc).
      apply app_inj_tail in Heq as [<- ->]. done.
  Qed.

  (** A failure without a rate-limit signature ends the run. *)
Lemma modelLoop_other_failure models w pre modelName post e :
    trace (modelLoop E prompt models w).2
    = (trace w ++ pre ++ EvGenerate modelName prompt :: post)%list ->
    generateContent E (trace w ++ pre)%list modelName prompt = Throw e ->
    is429 (errMessage e) = false ->
    post = [] /\ (modelLoop E prompt models w).1 = Throw e.
  Proof.
    intros Htrace Hgen H429.
    destruct (modelLoop_run models w) as [_ Hrun].
    destruct Hrun as [(_ & Htr & Hall)|(body & m & _ & Htr & Hall & Hlast)].
    - rewrite Htrace in Htr. apply app_inv_head in Htr. rewrite <- Htr in Hall.
      apply allRateLimited_inv in Hall as (e' & He' & H429').
      rewrite Hgen in He'. congruence.
    - rewrite Htrace in Htr. apply app_inv_head in Htr.
      apply snoc_split in Htr as [(-> & -> & Hm)|(post' & -> & ->)].
      + inversion Hm; subst. rewrite Hgen in Hlast. by destruct Hlast.
      + apply allRateLimited_inv in Hall as (e' & He' & H429').
        rewrite Hgen in He'. congruence.
  Qed.
End RetryLoop.

(** ** The single-attempt fallback of the GitHub agent *)

Section CallGemini.
  Import githubAgent Schedule.
  Context (E : Env) (prompt : string).

Lemma allFailed_app h a b :
    allFailed E h (a ++ b)%list <-> allFailed E h a /\ allFailed E (h ++ a)%list b.
  Proof.
    revert h. induction a as [|ev a IH]; intros h; simpl.
    - rewrite app_nil_r. tauto.
    - rewrite IH. rewrite <- app_assoc. simpl. tauto.
  Qed.

Lemma callGeminiLoop_run models w :
    tokenStore (callGeminiLoop E prompt models w).2 = tokenStore w
    /\ (((callGeminiLoop E prompt models w).1 = Throw (Error "All Gemini models failed")
         /\ trace (callGeminiLoop E prompt models w).2 = (trace w ++ calls prompt models)%list
         /\ allFailed E (trace w) (calls prompt models))
        \/ (exists tried modelName rest text,
              models = (tried ++ modelName :: rest)%list
              /\ trace (callGeminiLoop E prompt models w).2
                 = (trace w ++ calls prompt tried ++ [EvGenerate modelName prompt])%list
              /\ allFailed E (trace w) (calls prompt tried)
              /\ generateContent E (trace w ++ calls prompt tried)%list modelName prompt = Ret text
              /\ (callGeminiLoop E prompt models w).1 = Ret text)).
  Proof.
    revert w. induction models as [|modelName rest IH]; intros w.
    - simpl. rewrite app_nil_r. split; [done|]. by left.
    - cbn [callGeminiLoop]. unfold bind, try_catch, geminiReporter.generate, ret. cbn [fst snd].
      destruct (generateContent E (trace w) modelName prompt) as [text|e] eqn:Hgen; cbn.
      + split; [done|]. right. exists [], modelName, rest, text. simpl.
        by rewrite app_nil_r.
      + set (w1 := mkWorld (tokenStore w) (trace w ++ [EvGenerate modelName prompt])).
        destruct (IH w1) as [Hstore Hrun]. split; [done|].
        destruct Hrun as [(Hres & Htr & Hall)|(tried & m & rest' & text & -> & Htr & Hall & Hlast & Hres)].
        * left. split; [done|]. split; [by rewrite Htr; simpl; rewrite <- app_assoc|].
          simpl. eauto.
        * right. exists (modelName :: tried), m, rest', text.
          split; [done|]. split; [by rewrite Htr; simpl; rewrite <- app_assoc|].
          split; [simpl; eauto|]. split; [|done].
          simpl in Hlast |- *. by rewrite <- app_assoc in Hlast.
  Qed.
End CallGemini.

(** C2.  The generative-text client goes through the model chain in
    order; a model is attempted at most three times, a rate-limited
    attempt is followed by a wait of 5000 ms times its number and a new
    attempt of the same model, and the next model comes after the third;
    when every attempt was rate limited the call fails with the
    exhaustion error.  With the first two models always rate limited and
    the third answering, the call returns the third model's text after
    three attempts of each of the first two. *)
Theorem callGeminiWithRetry_policy (E : Env) (prompt : string) (w : World) :
  let run := geminiReporter.callGeminiWithRetry E prompt w in
  let plan := Schedule.schedule prompt geminiReporter.MODELS in
  let call := fun modelName => EvGenerate modelName prompt in
  plan = [call "gemini-2.5-flash"; EvSleep 5000; call "gemini-2.5-flash"; EvSleep 10000;
          call "gemini-2.5-flash";
          call "gemini-2.5-flash-lite"; EvSleep 5000; call "gemini-2.5-flash-lite";
          EvSleep 10000; call "gemini-2.5-flash-lite";
          call "gemini-3-flash"; EvSleep 5000; call "gemini-3-flash"; EvSleep 10000;
          call "gemini-3-flash"]
  /\ tokenStore run.2 = tokenStore w
  /\ ((run.1 = Throw (Error "All Gemini models exhausted their quota. Please wait or upgrade your plan.")
       /\ trace run.2 = (trace w ++ plan)%list
       /\ Schedule.allRateLimited E (trace w) plan)
      \/ (exists body modelName,
            (body ++ [call modelName])%list `prefix_of` plan
            /\ trace run.2 = (trace w ++ body ++ [call modelName])%list
            /\ Schedule.allRateLimited E (trace w) body
            /\ match generateContent E (trace w ++ body)%list modelName prompt with
               | Ret text => run.1 = Ret (geminiReporter.mkGeminiResult true text modelName)
               | Throw e => geminiReporter.is429 (errMessage e) = false /\ run.1 = Throw e
               end))
  /\ (forall text,
        (forall h, exists e, generateContent E h "gemini-2.5-flash" prompt = Throw e
                             /\ geminiReporter.is429 (errMessage e) = true) ->
        (forall h, exists e, generateContent E h "gemini-2.5-flash-lite" prompt = Throw e
                             /\ geminiReporter.is429 (errMessage e) = true) ->
        (forall h, generateContent E h "gemini-3-flash" prompt = Ret text) ->
        run.1 = Ret (geminiReporter.mkGeminiResult true text "gemini-3-flash")
        /\ trace run.2
           = (trace w ++
              [call "gemini-2.5-flash"; EvSleep 5000; call "gemini-2.5-flash"; EvSleep 10000;
               call "gemini-2.5-flash";
               call "gemini-2.5-flash-lite"; EvSleep 5000; call "gemini-2.5-flash-lite";
               EvSleep 10000; call "gemini-2.5-flash-lite";
               call "gemini-3-flash"])%list).
Proof.
  intros run plan call. split; [reflexivity|].
  destruct (modelLoop_run E prompt geminiReporter.MODELS w) as [Hstore Hrun].
  split; [exact Hstore|]. split; [exact Hrun|].
  intros text HA HB HC. subst run.
  unfold geminiReporter.callGeminiWithRetry, geminiReporter.MODELS.
  cbn [geminiReporter.modelLoop geminiReporter.attemptLoop geminiReporter.MAX_RETRIES].
  unfold bind, try_catch, geminiReporter.generate, geminiReporter.sleep, emit, ret.
  cbn [fst snd trace tokenStore].
  repeat
    (match goal with
     | |- context [generateContent E ?h "gemini-2.5-flash" prompt] =>
         destruct (HA h) as (? & -> & ->)
     | |- context [generateContent E ?h "gemini-2.5-flash-lite" prompt] =>
         destruct (HB h) as (? & -> & ->)
     end; cbn).
  rewrite HC. cbn. split; [done|].
  by rewrite <- !app_assoc.
Qed.

Lemma callGeminiWithRetry_policy_witness :
  (geminiReporter.callGeminiWithRetry
     (Examples.env Examples.twoModelsLimited Examples.http401) "hello" Examples.fresh).1
  = Ret (geminiReporter.mkGeminiResult true Examples.unknownJson "gemini-3-flash").
Proof.
  refine (proj1 (proj2 (proj2 (proj2
            (callGeminiWithRetry_policy
               (Examples.env Examples.twoModelsLimited Examples.http401)
               "hello" Examples.fresh)))
          Examples.unknownJson _ _ _)).
  - intros h. eexists. split; reflexivity.
  - intros h. eexists. split; reflexivity.
  - intros h. reflexivity.
Defined.

(** C3, as the code has it.  In [callGeminiWithRetry] a failure without a
    rate-limit signature is the last thing the call does: it is thrown to
    the caller and no later attempt or model is tried.  The GitHub agent's
    [callGemini] has no such rule: it tries each model of the chain once,
    goes on to the next model after any failure, and fails with its own
    error only when every model failed. *)
Theorem non_rate_limit_failure_propagates (E : Env) (prompt : string) (w : World) :
  (forall pre modelName post e,
      trace (geminiReporter.callGeminiWithRetry E prompt w).2
      = (trace w ++ pre ++ EvGenerate modelName prompt :: post)%list ->
      generateContent E (trace w ++ pre)%list modelName prompt = Throw e ->
      geminiReporter.is429 (errMessage e) = false ->
      post = [] /\ (geminiReporter.callGeminiWithRetry E prompt w).1 = Throw e)
  /\ (let run := githubAgent.callGemini E prompt w in
      tokenStore run.2 = tokenStore w
      /\ ((run.1 = Throw (Error "All Gemini models failed")
           /\ trace run.2 = (trace w ++ Schedule.calls prompt githubAgent.MODEL_CHAIN)%list
           /\ Schedule.allFailed E (trace w) (Schedule.calls prompt githubAgent.MODEL_CHAIN))
          \/ (exists tried modelName rest text,
                githubAgent.MODEL_CHAIN = (tried ++ modelName :: rest)%list
                /\ trace run.2
                   = (trace w ++ Schedule.calls prompt tried ++ [EvGenerate modelName prompt])%list
                /\ Schedule.allFailed E (trace w) (Schedule.calls prompt tried)
                /\ generateContent E (trace w ++ Schedule.calls prompt tried)%list
                     modelName prompt = Ret text
                /\ run.1 = Ret text))).
Proof.
  split.
  - intros pre modelName post e. apply modelLoop_other_failure.
  - apply callGeminiLoop_run.
Qed.

Lemma non_rate_limit_failure_propagates_witness :
  (geminiReporter.callGeminiWithRetry
     (Examples.env Examples.firstModelBroken Examples.http401) "hello" Examples.fresh).1
  = Throw (Error "fetch failed").
Proof.
  refine (proj2 (proj1 (non_rate_limit_failure_propagates
                          (Examples.env Examples.firstModelBroken Examples.http401)
                          "hello" Examples.fresh)
                   [] "gemini-2.5-flash" [] (Error "fetch failed") _ _ _));
    reflexivity.
Defined.

(** C3 as stated fails for the GitHub agent's intent-parsing call: the
    first model fails with an error that has no rate-limit signature, and
    [callGemini] does not throw it but asks the second model and returns
    its answer. *)
Lemma callGemini_tries_next_model :
  generateContent (Examples.env Examples.firstModelBroken Examples.http401) []
    "gemini-2.5-flash" "hello" = Throw (Error "fetch failed")
  /\ geminiReporter.is429 "fetch failed" = false
  /\ (githubAgent.callGemini (Examples.env Examples.firstModelBroken Examples.http401)
        "hello" Examples.fresh).1 = Ret Examples.starJson
  /\ (githubAgent.callGemini (Examples.env Examples.firstModelBroken Examples.http401)
        "hello" Examples.fresh).1 <> Throw (Error "fetch failed")
  /\ trace (githubAgent.callGemini (Examples.env Examples.firstModelBroken Examples.http401)
              "hello" Examples.fresh).2
     = [EvGenerate "gemini-2.5-flash" "hello"; EvGenerate "gemini-2.5-flash-lite" "hello"].
Proof.
  repeat split; try reflexivity. discriminate.
Qed.

(** ** Reasoning about computations *)

Section Computations.
  Context {A : Type}.

  (** Every value [m] returns satisfies [Q]. *)
Definition ensures (m : M A) (Q : A -> Prop) : Prop :=
    forall w a w', m w = (Ret a, w') -> Q a.

  (** [m] returns a value from every state. *)
Definition returns (m : M A) : Prop :=
    forall w, exists a w', m w = (Ret a, w').

  (** [m] leaves the token store alone and sends no HTTP request. *)
Definition quiet (m : M A) : Prop :=
    forall w, tokenStore (m w).2 = tokenStore w
              /\ httpRequests (trace (m w).2) = httpRequests (trace w).

Lemma ensures_ret (a : A) (Q : A -> Prop) : Q a -> ensures (ret a) Q.
  Proof. intros HQ w a' w' [= <- _]. done. Qed.

Lemma ensures_throw (e : Thrown) (Q : A -> Prop) : ensures (throw e) Q.
  Proof. intros w a' w' [=]. Qed.

Lemma ensures_lift (r : Exc A) (Q : A -> Prop) :
    (forall a, r = Ret a -> Q a) -> ensures (lift r) Q.
  Proof. intros HQ w a w' [= -> _]. by apply HQ. Qed.

Lemma ensures_weaken (m : M A) (P Q : A -> Prop) :
    ensures m P -> (forall a, P a -> Q a) -> ensures m Q.
  Proof. intros Hm HPQ w a w' Hrun. eauto. Qed.

Lemma ensures_try_catch (m : M A) (h : Thrown -> M A) (Q : A -> Prop) :
    ensures m Q -> (forall e, ensures (h e) Q) -> ensures (try_catch m h) Q.
  Proof.
    intros Hm Hh w a w'. unfold try_catch.
    destruct (m w) as [[a1|e] w1] eqn:Hrun.
    - intros [= <- <-]. eauto.
    - intros Hrun'. by eapply Hh.
  Qed.

Lemma returns_ret (a : A) : returns (ret a).
  Proof. intros w. by exists a, w. Qed.

Lemma returns_try_catch (m : M A) (h : Thrown -> M A) :
    (forall e, returns (h e)) -> returns (try_catch m h).
  Proof.
    intros Hh w. unfold try_catch. destruct (m w) as [[a|e] w1]; [by eauto|].
    apply Hh.
  Qed.

Lemma quiet_ret (a : A) : quiet (ret a).
  Proof. by intros w. Qed.

Lemma quiet_throw (e : Thrown) : quiet (@throw A e).
  Proof. by intros w. Qed.

Lemma quiet_lift (r : Exc A) : quiet (lift r).
  Proof. by intros w. Qed.

Lemma quiet_try_catch (m : M A) (h : Thrown -> M A) :
    quiet m -> (forall e, quiet (h e)) -> quiet (try_catch m h).
  Proof.
    intros Hm Hh w. unfold try_catch. specialize (Hm w).
    destruct (m w) as [[a|e] w1]; [done|]. cbn [snd] in Hm.
    destruct Hm as [Hs0 Ht0]. destruct (Hh e w1) as [Hs Ht]. split; congruence.
  Qed.
End Computations.

Lemma ensures_bind {A B : Type} (m : M A) (k : A -> M B) (Q : B -> Prop) :
  (forall a, ensures (k a) Q) -> ensures (bind m k) Q.
Proof.
  intros Hk w b w'. unfold bind. destruct (m w) as [[a|e] w1]; [|done].
  apply Hk.
Qed.

Lemma ensures_bind_with {A B : Type} (m : M A) (k : A -> M B) (P : A -> Prop)
  (Q : B -> Prop) :
  ensures m P -> (forall a, P a -> ensures (k a) Q) -> ensures (bind m k) Q.
Proof.
  intros Hm Hk w b w'. unfold bind. destruct (m w) as [[a|e] w1] eqn:Hrun; [|done].
  apply Hk. eauto.
Qed.

Lemma quiet_bind {A B : Type} (m : M A) (k : A -> M B) :
  quiet m -> (forall a, quiet (k a)) -> quiet (bind m k).
Proof.
  intros Hm Hk w. unfold bind. specialize (Hm w).
  destruct (m w) as [[a|e] w1]; [|done]. cbn [snd] in Hm.
  destruct Hm as [Hs0 Ht0]. destruct (Hk a w1) as [Hs Ht]. split; congruence.
Qed.

Lemma httpRequests_app (a b : list Event) :
  httpRequests (a ++ b) = (httpRequests a ++ httpRequests b)%list.
Proof. apply omap_app. Qed.

Lemma httpRequests_calls (prompt : string) (models : list string) :
  httpRequests (Schedule.calls prompt models) = [].
Proof. by induction models. Qed.

(** ** The GitHub dispatcher *)

Section Dispatcher.
  Import githubOAuthAgent githubAgent.
  Context (E : Env).

Lemma callGemini_quiet (prompt : string) : quiet (callGemini E prompt).
  Proof.
    intros w.
    destruct (callGeminiLoop_run E prompt MODEL_CHAIN w) as [Hstore Hrun].
    split; [done|]. unfold callGemini.
    destruct Hrun as [(_ & -> & _)|(tried & m & rest & text & _ & -> & _)].
    - by rewrite httpRequests_app, httpRequests_calls, app_nil_r.
    - rewrite !httpRequests_app, httpRequests_calls. simpl. by rewrite app_nil_r.
  Qed.

Lemma parseIntent_quiet (userPrompt : string) : quiet (parseIntent E userPrompt).
  Proof.
    apply quiet_try_catch; [|intros e; apply quiet_ret].
    apply quiet_bind; [apply callGemini_quiet|]. intros text.
    apply quiet_bind; [apply quiet_lift|]. intros intent.
    apply quiet_bind; [apply quiet_lift|]. intros _. apply quiet_ret.
  Qed.

Lemma parseIntent_returns (userPrompt : string) : returns (parseIntent E userPrompt).
  Proof. apply returns_try_catch. intros e. apply returns_ret. Qed.

  (** What [parseIntent] hands over: a failure to return, or an intent
      whose [action] can be read. *)
Lemma parseIntent_ensures (userPrompt : string) :
    ensures (parseIntent E userPrompt)
      (fun parsed => match parsed with
                     | inl r => exists msg, r = failure msg
                     | inr intent => exists action, getProp E "intent" intent "action" = Ret action
                     end).
  Proof.
    apply ensures_try_catch.
    - apply ensures_bind. intros text. apply ensures_bind. intros intent.
      apply ensures_bind_with with (P := fun action =>
        getProp E "intent" intent "action" = Ret action).
      + by apply ensures_lift.
      + intros action Haction. apply ensures_ret. eauto.
    - intros e. apply ensures_ret. eauto.
  Qed.

Lemma runGitHubAgent_parsed (userPrompt userId : string) (w w1 : World) (intent : JS) :
    parseIntent E userPrompt w = (Ret (inr intent), w1) ->
    runGitHubAgent E userPrompt userId w = dispatch E intent userId w1.
  Proof. intros Hparse. unfold runGitHubAgent, bind. by rewrite Hparse. Qed.

Lemma parseIntent_world (userPrompt : string) (w w1 : World) parsed :
    parseIntent E userPrompt w = (parsed, w1) ->
    tokenStore w1 = tokenStore w /\ httpRequests (trace w1) = httpRequests (trace w).
  Proof. intros Hparse. pose proof (parseIntent_quiet userPrompt w) as H. by rewrite Hparse in H. Qed.
End Dispatcher.

(** C1.  With no Credential Record for the identity, an intent whose
    action is outside [list_user_repos] and [get_user_profile] gets the
    needs-authorization result with the authorization URL generated for
    that identity, and the dispatch sends no HTTP request: no GitHub
    operation is invoked. *)
Theorem gated_action_needs_authorization
  (E : Env) (userPrompt userId : string) (w w1 : World) (intent action : JS) :
  githubAgent.parseIntent E userPrompt w = (Ret (inr intent), w1) ->
  getProp E "intent" intent "action" = Ret action ->
  githubAgent.isPublicAction action = false ->
  githubOAuthAgent.isConnected userId w = false ->
  let url := githubOAuthAgent.getAuthorizationUrl E userId in
  githubAgent.runGitHubAgent E userPrompt userId w
  = (Ret (githubAgent.authRequired url
            ("This action requires GitHub authorization." ++ nl ++ "🔗 " ++ url)), w1)
  /\ GitHubOutcome.needsAuthorization
       (githubAgent.authRequired url
          ("This action requires GitHub authorization." ++ nl ++ "🔗 " ++ url))
  /\ String.prefix "https://github.com/login/oauth/authorize?" url = true
  /\ httpRequests (trace w1) = httpRequests (trace w)
  /\ githubOAuthAgent.isConnected userId w1 = false.
Proof.
  intros Hparse Haction Hpublic Hconn url.
  destruct (parseIntent_world E _ _ _ _ Hparse) as [Hstore Hhttp].
  assert (Hconn1 : githubOAuthAgent.isConnected userId w1 = false)
    by (unfold githubOAuthAgent.isConnected in *; by rewrite Hstore).
  split; [|split; [|split; [|split]]]; [| |done|done|done].
  - rewrite (runGitHubAgent_parsed E _ _ _ _ _ Hparse).
    unfold githubAgent.dispatch, bind, lift, gets. rewrite Haction.
    cbv beta iota. by rewrite Hpublic, Hconn1.
  - unfold GitHubOutcome.needsAuthorization. cbn. eauto.
Qed.

Lemma gated_action_needs_authorization_witness :
  GitHubOutcome.needsAuthorization
    (githubAgent.authRequired
       (githubOAuthAgent.getAuthorizationUrl
          (Examples.env (Examples.replies Examples.starJson) Examples.http401) "octocat")
       ("This action requires GitHub authorization." ++ nl ++ "🔗 "
        ++ githubOAuthAgent.getAuthorizationUrl
             (Examples.env (Examples.replies Examples.starJson) Examples.http401) "octocat")).
Proof.
  refine (proj1 (proj2 (gated_action_needs_authorization
            (Examples.env (Examples.replies Examples.starJson) Examples.http401)
            "star the repo facebook/react" "octocat" Examples.fresh
            (mkWorld [] [EvGenerate "gemini-2.5-flash"
                           (githubAgent.parsePrompt "star the repo facebook/react")])
            Examples.starIntent (VStr "star_repo") _ _ _ _)));
    vm_compute; reflexivity.
Defined.

(** ** Unknown actions, and the three outcome states *)

Ltac ensures_steps :=
  repeat first
    [ apply ensures_ret
    | apply ensures_throw
    | apply ensures_bind; intros ?
    | match goal with
      | |- ensures (if ?c then _ else _) _ => destruct c
      | |- ensures (match ?x with _ => _ end) _ => destruct x
      end ].

Lemma getProp_total (E : Env) (what what' : string) (v a : JS) (k k' : string) :
  getProp E what v k = Ret a -> exists b, getProp E what' v k' = Ret b.
Proof.
  destruct v; simpl; intros H; try discriminate; eauto.
  destruct (assoc k' fields); eauto.
Qed.

Section Outcomes.
  Import githubOAuthAgent githubAgent.
  Context (E : Env).

  (** The results [runGitHubAgent] builds. *)
Definition wellFormed (r : GitHubAgentResult) : Prop :=
    (exists msg, r = failure msg)
    \/ (exists url msg, r = authRequired url msg)
    \/ (exists a s p, r = mkResult true (Some a) (Some s) (Some p) None None None None).

Lemma wellFormed_one_outcome (r : GitHubAgentResult) :
    wellFormed r ->
    exactlyOne (GitHubOutcome.ok r) (GitHubOutcome.needsAuthorization r) (GitHubOutcome.failed r).
  Proof.
    unfold exactlyOne, GitHubOutcome.ok, GitHubOutcome.needsAuthorization, GitHubOutcome.failed.
    intros [(msg & ->)|[(url & msg & ->)|(a & s & p & ->)]]; cbn.
    - right. right. split; [|split]; [intros (? & _); done|intros (_ & ? & _); done|eauto].
    - right. left. split; [|split]; [intros (? & _); done|eauto|intros (_ & ? & _); done].
    - left. split; [|split]; [eauto 10|intros (? & _); done|intros (? & _); done].
  Qed.

Lemma executeAction_returned (action params : JS) (userId : string) :
    ensures (executeAction E action params userId)
      (fun step => match step with
                   | Returned r => exists msg, r = failure msg
                   | Assigned _ _ => True
                   end).
  Proof. unfold executeAction. ensures_steps; eauto. Qed.

Lemma executeAction_unknown (action params : JS) (userId : string) (w : World) :
    GitHubOutcome.isHandled action = false ->
    executeAction E action params userId w
    = (Ret (Returned (failure
              ("Unknown action: " ++ toString action
               ++ ". Try: list repos, create repo, star repo, create issue, etc."))), w).
  Proof.
    unfold GitHubOutcome.isHandled, GitHubOutcome.HANDLED_ACTIONS. cbn [existsb].
    intros H. repeat (apply orb_false_iff in H as [? H]).
    unfold executeAction.
    repeat match goal with
           | Hs : isStr action _ = false |- _ => rewrite Hs; clear Hs
           end.
    reflexivity.
  Qed.

Lemma unhandled_not_public (action : JS) :
    GitHubOutcome.isHandled action = false -> isPublicAction action = false.
  Proof.
    unfold GitHubOutcome.isHandled, GitHubOutcome.HANDLED_ACTIONS, isPublicAction, PUBLIC_ACTIONS.
    cbn [existsb]. intros H. repeat (apply orb_false_iff in H as [? H]).
    repeat match goal with
           | Hs : isStr action _ = false |- _ => rewrite Hs; clear Hs
           end.
    reflexivity.
  Qed.

  (** The body of step 3 returns, and returns a well-formed result. *)
Lemma dispatch_returns (intent action : JS) (userId : string) :
    getProp E "intent" intent "action" = Ret action ->
    returns (dispatch E intent userId)
    /\ ensures (dispatch E intent userId) wellFormed.
  Proof.
    intros Haction. unfold dispatch.
    split.
    - intros w. unfold bind at 1, lift. rewrite Haction. unfold bind at 1, gets.
      destruct (negb (isPublicAction action) && negb (isConnected userId w));
        [by apply returns_ret|].
      apply returns_try_catch. intros e.
      destruct (includes _ _ || includes _ _); apply returns_ret.
    - apply ensures_bind_with with (P := fun a => a = action).
      { apply ensures_lift. congruence. }
      intros ? ->. apply ensures_bind. intros connected.
      destruct (negb (isPublicAction action) && negb connected).
      { apply ensures_ret. right. left. eauto. }
      apply ensures_try_catch.
      + apply ensures_bind. intros params.
        eapply ensures_bind_with; [apply executeAction_returned|].
        intros [r|result summary] Hstep; apply ensures_ret.
        * left. exact Hstep.
        * right. right. eauto.
      + intros e. destruct (includes _ _ || includes _ _); apply ensures_ret.
        * right. left. eauto.
        * left. eauto.
  Qed.

Lemma runGitHubAgent_returns (userPrompt userId : string) (w : World) :
    exists r w', runGitHubAgent E userPrompt userId w = (Ret r, w') /\ wellFormed r.
  Proof.
    destruct (parseIntent_returns E userPrompt w) as (parsed & w1 & Hparse).
    pose proof (parseIntent_ensures E userPrompt w parsed w1 Hparse) as Hshape.
    unfold runGitHubAgent, bind. rewrite Hparse.
    destruct parsed as [r|intent].
    - exists r, w1. split; [done|]. by left.
    - destruct Hshape as (action & Haction).
      destruct (dispatch_returns intent action userId Haction) as [Hret Hens].
      destruct (Hret w1) as (r & w' & Hrun). exists r, w'. split; [done|]. eauto.
  Qed.
End Outcomes.

Section CryptoOutcomes.
  Import cryptoAgent.
  Context (E : Env).

Lemma crypto_failure_failed (msg : string) : CryptoOutcome.failed (failure msg).
  Proof. unfold CryptoOutcome.failed. cbn. eauto. Qed.

Lemma crypto_one_outcome (r : CryptoAgentResult) :
    CryptoOutcome.ok r \/ CryptoOutcome.failed r ->
    exactlyOne (CryptoOutcome.ok r) (CryptoOutcome.needsAuthorization r) (CryptoOutcome.failed r).
  Proof.
    unfold exactlyOne, CryptoOutcome.needsAuthorization.
    intros [Hok|Hfailed].
    - left. split; [done|]. split; [tauto|]. destruct Hok as (? & _). intros (? & _). congruence.
    - right. right. split; [|split]; [|tauto|done].
      destruct Hfailed as (? & _). intros (? & _). congruence.
  Qed.

Lemma executeAction_outcome (action params : JS) :
    ensures (executeAction E action params)
      (fun r => CryptoOutcome.ok r \/ CryptoOutcome.failed r).
  Proof.
    unfold executeAction.
    ensures_steps; try (right; apply crypto_failure_failed);
      left; unfold CryptoOutcome.ok; cbn; eauto 10.
  Qed.

Lemma runCryptoAgent_returns (userPrompt : string) (w : World) :
    exists r w', runCryptoAgent E userPrompt w = (Ret r, w')
                 /\ (CryptoOutcome.ok r \/ CryptoOutcome.failed r).
  Proof.
    assert (Hparse : returns (parseIntent E userPrompt)).
    { apply returns_try_catch. intros e. apply returns_ret. }
    assert (Hshape : ensures (parseIntent E userPrompt)
                       (fun parsed => match parsed with
                                      | inl r => CryptoOutcome.failed r
                                      | inr _ => True
                                      end)).
    { apply ensures_try_catch; [ensures_steps; done|].
      intros e. apply ensures_ret. apply crypto_failure_failed. }
    destruct (Hparse w) as (parsed & w1 & Hrun).
    specialize (Hshape w parsed w1 Hrun).
    unfold runCryptoAgent, bind. rewrite Hrun. destruct parsed as [r|intent].
    - exists r, w1. split; [done|]. by right.
    - assert (Hret : returns (dispatch E intent)).
      { apply returns_try_catch. intros e. apply returns_ret. }
      assert (Hens : ensures (dispatch E intent)
                       (fun r => CryptoOutcome.ok r \/ CryptoOutcome.failed r)).
      { apply ensures_try_catch.
        - apply ensures_bind. intros action. apply ensures_bind. intros params.
          apply executeAction_outcome.
        - intros e. apply ensures_ret. right. apply crypto_failure_failed. }
      destruct (Hret w1) as (r & w' & Hrun'). exists r, w'. split; [done|]. eauto.
  Qed.
End CryptoOutcomes.

(** C8.  Whatever the prompt, the identity and the answers of the
    services, [runGitHubAgent] and [runCryptoAgent] return a result, they
    do not throw, and the result is in exactly one of the states ok,
    needs-authorization and failed. *)
Theorem dispatch_resolves_to_one_outcome (E : Env) (userPrompt userId : string) (w : World) :
  (exists r w',
      githubAgent.runGitHubAgent E userPrompt userId w = (Ret r, w')
      /\ exactlyOne (GitHubOutcome.ok r) (GitHubOutcome.needsAuthorization r)
           (GitHubOutcome.failed r))
  /\ (exists r w',
        cryptoAgent.runCryptoAgent E userPrompt w = (Ret r, w')
        /\ exactlyOne (CryptoOutcome.ok r) (CryptoOutcome.needsAuthorization r)
             (CryptoOutcome.failed r)).
Proof.
  split.
  - destruct (runGitHubAgent_returns E userPrompt userId w) as (r & w' & Hrun & Hwf).
    exists r, w'. split; [done|]. by apply wellFormed_one_outcome.
  - destruct (runCryptoAgent_returns E userPrompt w) as (r & w' & Hrun & Hout).
    exists r, w'. split; [done|]. by apply crypto_one_outcome.
Qed.

(** ** The multi-file push *)

Section PushProject.
  Import githubOAuthAgent githubAgent Push.
  Context (E : Env) (owner repo : JS) (message userId : string).

Lemma optProp_htmlUrl (created : JS) : optProp E created "html_url" = Ret (htmlUrl created).
  Proof. destruct created; try reflexivity. simpl. by destruct (assoc "html_url" fields). Qed.

  (** The loop, with its accumulator, is [writeAll]. *)
Lemma pushLoop_writeAll (entries : list (string * string)) (results : list PushResult)
    (w : World) :
    pushLoop E owner repo message userId (map fileEntry entries) results w
    = (Ret (results ++ (writeAll E owner repo message userId entries w).1)%list,
       (writeAll E owner repo message userId entries w).2).
  Proof.
    revert results w. induction entries as [|entry rest IH]; intros results w.
    - simpl. by rewrite app_nil_r.
    - cbn [map pushLoop writeAll]. unfold writeOne.
      unfold bind at 1. unfold try_catch.
      unfold bind at 1, lift at 1. cbn [getProp fileEntry assoc String.eqb Ascii.eqb Bool.eqb].
      unfold bind at 1, lift at 1.
      unfold bind at 1.
      destruct (createOrUpdateFile E owner repo (VStr entry.1) (VStr entry.2) message userId w)
        as [[body|e] w1].
      + unfold bind at 1, lift at 1.
        destruct (getProp E "result" body "content") as [created|e].
        * unfold bind at 1, lift at 1. rewrite optProp_htmlUrl. unfold ret at 1.
          rewrite IH.
          destruct (writeAll E owner repo message userId rest w1) as [rs w2].
          by rewrite <- app_assoc.
        * unfold bind at 1, lift at 1, ret at 1. rewrite IH.
          destruct (writeAll E owner repo message userId rest w1) as [rs w2].
          by rewrite <- app_assoc.
      + unfold bind at 1, lift at 1, ret at 1. rewrite IH.
        destruct (writeAll E owner repo message userId rest w1) as [rs w2].
        by rewrite <- app_assoc.
  Qed.

Lemma pushProject_writeAll (entries : list (string * string)) (w : World) :
    pushProject E owner repo (VArr (map fileEntry entries)) message userId w
    = (Ret (writeAll E owner repo message userId entries w).1,
       (writeAll E owner repo message userId entries w).2).
  Proof.
    unfold pushProject, bind, lift. cbn [getProp iterate]. by rewrite pushLoop_writeAll.
  Qed.

Lemma writeOne_path (entry : string * string) (w : World) :
    pr_path (writeOne E owner repo message userId entry w).1 = VStr entry.1.
  Proof.
    unfold writeOne.
    destruct (createOrUpdateFile E owner repo (VStr entry.1) (VStr entry.2) message userId w)
      as [[body|e] w1]; [|done].
    by destruct (getProp E "result" body "content").
  Qed.

Lemma writeAll_paths (entries : list (string * string)) (w : World) :
    map pr_path (writeAll E owner repo message userId entries w).1
    = map (fun entry => VStr entry.1) entries.
  Proof.
    revert w. induction entries as [|entry rest IH]; intros w; [done|].
    cbn [writeAll map].
    pose proof (writeOne_path entry w) as Hpath.
    destruct (writeOne E owner repo message userId entry w) as [r w1].
    specialize (IH w1).
    destruct (writeAll E owner repo message userId rest w1) as [rs w2].
    cbn in *. by rewrite Hpath, IH.
  Qed.
End PushProject.

(** C5.  For every list of files, [pushProject] writes the files one
    after the other in the order given, each from the state the one before
    left; a file that fails is recorded and the rest is still written; the
    call returns one entry per file, in the same order; and the dispatcher
    answers ok with a summary that counts the entries that succeeded over
    the number of files.  For three files of which the second is refused,
    the flags are true, false, true and the summary says 2/3. *)
Theorem pushProject_per_file_results
  (E : Env) (owner repo : JS) (entries : list (string * string))
  (message userId : string) (w : World) :
  let files := VArr (map Push.fileEntry entries) in
  let written := Push.writeAll E owner repo message userId entries w in
  let pushed := Push.writeAll E owner repo "Push from Agentic Workflow" userId entries w in
  githubOAuthAgent.pushProject E owner repo files message userId w = (Ret written.1, written.2)
  /\ length written.1 = length entries
  /\ map githubOAuthAgent.pr_path written.1 = map (fun entry => VStr entry.1) entries
  /\ (forall intent params,
        getProp E "intent" intent "action" = Ret (VStr "push_project") ->
        getProp E "intent" intent "params" = Ret params ->
        getProp E "intent.params" params "owner" = Ret owner ->
        getProp E "intent.params" params "repo" = Ret repo ->
        getProp E "intent.params" params "files" = Ret files ->
        githubOAuthAgent.isConnected userId w = true ->
        githubAgent.dispatch E intent userId w
        = (Ret (githubAgent.mkResult true (Some "push_project")
                  (Some (githubAgent.summaryPushed owner repo pushed.1))
                  (Some (githubAgent.Pushed pushed.1)) None None None None),
           pushed.2))
  /\ githubAgent.summaryPushed owner repo pushed.1
     = "📤 Pushed "
       ++ pretty (length (List.filter githubOAuthAgent.pr_success pushed.1))
       ++ "/" ++ pretty (length entries)
       ++ " files to **" ++ toString owner ++ "/" ++ toString repo ++ "**" ++ nl
       ++ join nl (map githubAgent.linePushed pushed.1)
  /\ match githubAgent.runGitHubAgent
             (Examples.env (Examples.replies Examples.pushJson) Examples.httpSecondFails)
             "push a.txt, b.txt and c.txt to octo/demo" "octocat" Examples.connected with
     | (Ret r, _) =>
         githubAgent.success r = true
         /\ githubAgent.summary r
            = Some ("📤 Pushed 2/3 files to **octo/demo**" ++ nl
                    ++ "   ✅ a.txt" ++ nl ++ "   ❌ b.txt" ++ nl ++ "   ✅ c.txt")
         /\ match githubAgent.rawData r with
            | Some (githubAgent.Pushed results) =>
                map githubOAuthAgent.pr_success results = [true; false; true]
            | _ => False
            end
     | (Throw _, _) => False
     end.
Proof.
  intros files written pushed.
  assert (Hlen : forall msg, length (Push.writeAll E owner repo msg userId entries w).1
                             = length entries).
  { intros msg.
    rewrite <- (length_map githubOAuthAgent.pr_path), writeAll_paths. apply length_map. }
  split; [apply pushProject_writeAll|].
  split; [apply Hlen|].
  split; [apply writeAll_paths|].
  split; [|split].
  - intros intent params Haction Hparams Howner Hrepo Hfiles Hconn.
    unfold githubAgent.dispatch, bind, lift, gets. rewrite Haction. cbv beta iota.
    rewrite Hconn, andb_false_r.
    unfold try_catch, bind, lift. rewrite Hparams. cbv beta iota.
    unfold githubAgent.executeAction.
    cbn [isStr String.eqb Ascii.eqb Bool.eqb].
    unfold githubAgent.param, bind, lift. rewrite Howner, Hrepo, Hfiles. cbv beta iota.
    subst files. rewrite pushProject_writeAll. reflexivity.
  - subst pushed. unfold githubAgent.summaryPushed.
    by rewrite (Hlen "Push from Agentic Workflow").
  - vm_compute. repeat split.
Qed.

Lemma pushProject_per_file_results_witness :
  (githubAgent.dispatch
     (Examples.env (Examples.replies Examples.pushJson) Examples.httpSecondFails)
     Examples.pushIntent "octocat" Examples.connected).1
  = Ret (githubAgent.mkResult true (Some "push_project")
           (Some (githubAgent.summaryPushed (VStr "octo") (VStr "demo")
                    (Push.writeAll
                       (Examples.env (Examples.replies Examples.pushJson)
                          Examples.httpSecondFails)
                       (VStr "octo") (VStr "demo") "Push from Agentic Workflow" "octocat"
                       [("a.txt", "one"); ("b.txt", "two"); ("c.txt", "three")]
                       Examples.connected).1))
           (Some (githubAgent.Pushed
                    (Push.writeAll
                       (Examples.env (Examples.replies Examples.pushJson)
                          Examples.httpSecondFails)
                       (VStr "octo") (VStr "demo") "Push from Agentic Workflow" "octocat"
                       [("a.txt", "one"); ("b.txt", "two"); ("c.txt", "three")]
                       Examples.connected).1))
           None None None None).
Proof.
  refine (f_equal fst
            (proj1 (proj2 (proj2 (proj2
               (pushProject_per_file_results
                  (Examples.env (Examples.replies Examples.pushJson) Examples.httpSecondFails)
                  (VStr "octo") (VStr "demo")
                  [("a.txt", "one"); ("b.txt", "two"); ("c.txt", "three")]
                  "Push from Agentic Workflow" "octocat" Examples.connected))))
               Examples.pushIntent
               (VObj [("owner", VStr "octo"); ("repo", VStr "demo");
                      ("files",
                        VArr [VObj [("path", VStr "a.txt"); ("content", VStr "one")];
                              VObj [("path", VStr "b.txt"); ("content", VStr "two")];
                              VObj [("path", VStr "c.txt"); ("content", VStr "three")]])])
               _ _ _ _ _ _));
    reflexivity.
Defined.

(** C4 at a failing input.  The identity has a credential, the intent is
    [push_project] with three files, and GitHub answers 401.  The
    credential is deleted, as the claim says; but the failure of the
    first request is swallowed by the [catch] of [createOrUpdateFile], and
    the failures that follow are kept by the per-file [catch] of
    [pushProject], so the dispatcher answers ok with 0/3 files pushed
    instead of the needs-authorization result. *)
Theorem expired_token_during_push_reports_ok :
  match githubAgent.runGitHubAgent
          (Examples.env (Examples.replies Examples.pushJson) Examples.http401)
          "push a.txt, b.txt and c.txt to octo/demo" "octocat" Examples.connected with
  | (Ret r, w') =>
      githubOAuthAgent.isConnected "octocat" Examples.connected = true
      /\ githubOAuthAgent.isConnected "octocat" w' = false
      /\ githubAgent.success r = true
      /\ githubAgent.needsAuth r = None
      /\ githubAgent.authUrl r = None
      /\ githubAgent.summary r
         = Some ("📤 Pushed 0/3 files to **octo/demo**" ++ nl
                 ++ "   ❌ a.txt" ++ nl ++ "   ❌ b.txt" ++ nl ++ "   ❌ c.txt")
      /\ match githubAgent.rawData r with
         | Some (githubAgent.Pushed results) =>
             map githubOAuthAgent.pr_error results
             = [Some "GitHub not connected. Please connect your GitHub account first.";
                Some "GitHub not connected. Please connect your GitHub account first.";
                Some "GitHub not connected. Please connect your GitHub account first."]
         | _ => False
         end
      /\ map req_url (httpRequests (trace w'))
         = ["https://api.github.com/repos/octo/demo/contents/a.txt"]
  | (Throw _, _) => False
  end.
Proof. vm_compute. repeat split. Qed.

(** ** The intent classifier *)

Section Classifier.
  Import intentParser.
  Context (E : Env).

Lemma parseUserIntent_fallback (userPrompt : string) (w w1 : World) (e : Thrown) :
    generativeIntent E userPrompt w = (Throw e, w1) ->
    parseUserIntent E userPrompt w = (Ret (fallbackIntent userPrompt (errMessage e)), w1).
  Proof. intros Hgen. unfold parseUserIntent, try_catch. by rewrite Hgen. Qed.

Lemma parseUserIntent_generative (userPrompt : string) (w w1 : World) (g : ParsedIntent) :
    generativeIntent E userPrompt w = (Ret g, w1) ->
    parseUserIntent E userPrompt w = (Ret g, w1).
  Proof. intros Hgen. unfold parseUserIntent, try_catch. by rewrite Hgen. Qed.

Lemma truthy_orElse (a d : JS) : truthy d = true -> truthy (orElse a d) = true.
  Proof. intros Hd. unfold orElse. by destruct (truthy a) eqn:Ha. Qed.

Lemma truthy_not_null (v : JS) : truthy v = true -> v <> VNull.
  Proof. by intros Hv ->. Qed.

  (** On the generative path the action is the model's, or [analyze]. *)
Lemma generativeIntent_action (userPrompt : string) :
    ensures (generativeIntent E userPrompt)
      (fun g => success g = true /\ truthy (action g) = true /\ fallback g = None).
  Proof.
    unfold generativeIntent. ensures_steps. cbn.
    split; [done|]. split; [|done]. by apply truthy_orElse.
  Qed.

  (** What the generative path returns is built from the answer of the
      model: each field is the field of the parsed answer when that is
      truthy, and its default otherwise. *)
Lemma generativeIntent_run (userPrompt : string) (w w1 : World) (g : ParsedIntent) :
    generativeIntent E userPrompt w = (Ret g, w1) ->
    exists r parsed modelPlatform modelUrls modelAction modelQuery,
      geminiReporter.callGeminiWithRetry E (prompt userPrompt) w = (Ret r, w1)
      /\ JSON_parse E (githubAgent.stripFences (geminiReporter.gr_text r)) = Ret parsed
      /\ getProp E "parsed" parsed "platform" = Ret modelPlatform
      /\ getProp E "parsed" parsed "urls" = Ret modelUrls
      /\ getProp E "parsed" parsed "action" = Ret modelAction
      /\ getProp E "parsed" parsed "userQuery" = Ret modelQuery
      /\ g = mkParsedIntent true
               (orElse modelPlatform (VStr "unknown"))
               (orElse modelUrls (VArr []))
               (orElse modelAction (VStr "analyze"))
               (orElse modelQuery (VStr userPrompt))
               None None.
  Proof.
    unfold generativeIntent, bind, lift, ret. cbv zeta.
    destruct (geminiReporter.callGeminiWithRetry E (prompt userPrompt) w) as [[r|e] w0];
      [|done].
    destruct (JSON_parse E _) as [parsed|e] eqn:Hparsed; [|done].
    destruct (getProp E "parsed" parsed "platform") as [modelPlatform|e] eqn:Hplatform; [|done].
    destruct (getProp E "parsed" parsed "urls") as [modelUrls|e] eqn:Hurls; [|done].
    destruct (getProp E "parsed" parsed "action") as [modelAction|e] eqn:Haction; [|done].
    destruct (getProp E "parsed" parsed "userQuery") as [modelQuery|e] eqn:Hquery; [|done].
    intros [= <- <-]. eauto 15.
  Qed.

Lemma fallbackIntent_cases (userPrompt errMsg : string) :
    let r := fallbackIntent userPrompt errMsg in
    let found := Regex.matchAll true instaRegex userPrompt in
    let isGitHub := Regex.test true githubKeywords userPrompt in
    let isCrypto := Regex.test true cryptoKeywords userPrompt in
    (found <> [] ->
     platform r = VStr "instagram" /\ action r = VStr "analyze"
     /\ fallback r = Some true /\ urls r = VArr (map VStr found))
    /\ (found = [] -> isGitHub = true ->
        platform r = VStr "github" /\ action r = VStr "github_action"
        /\ fallback r = Some true /\ urls r = VArr [])
    /\ (found = [] -> isGitHub = false -> isCrypto = true ->
        platform r = VStr "crypto" /\ action r = VStr "crypto_action"
        /\ fallback r = Some true /\ urls r = VArr [])
    /\ (found = [] -> isGitHub = false -> isCrypto = false ->
        platform r = VStr "unknown" /\ action r = VNull
        /\ success r = false /\ error r = Some errMsg).
  Proof.
    intros r found isGitHub isCrypto. subst r. unfold fallbackIntent.
    fold found isGitHub isCrypto.
    destruct found as [|url rest] eqn:Hfound; cbn [length Nat.ltb Nat.leb].
    - split; [done|]. repeat split; intros; subst;
        repeat match goal with
               | H : ?x = true |- context [if ?x then _ else _] => rewrite H
               | H : ?x = false |- context [if ?x then _ else _] => rewrite H
               end; reflexivity.
    - split; [done|]. repeat split; discriminate.
  Qed.
End Classifier.



(** C7, as the code has it.  The classifier always returns an intent.  On
    the fallback path an intent whose platform is unknown has a null
    action (and is marked as not understood).  On the generative path
    the action is never null: it is the action of the answer the model
    gave when that is truthy and [analyze] otherwise, whatever the
    platform; and the platform is the one of the answer when that is
    truthy and unknown otherwise. *)
Theorem unknown_platform_action
  (E : Env) (userPrompt : string) (w : World) :
  (exists r w1, intentParser.parseUserIntent E userPrompt w = (Ret r, w1))
  /\ (forall e w1,
        intentParser.generativeIntent E userPrompt w = (Throw e, w1) ->
        exists r,
          intentParser.parseUserIntent E userPrompt w = (Ret r, w1)
          /\ (intentParser.platform r = VStr "unknown" ->
              intentParser.action r = VNull /\ intentParser.success r = false))
  /\ (forall g w1,
        intentParser.generativeIntent E userPrompt w = (Ret g, w1) ->
        intentParser.parseUserIntent E userPrompt w = (Ret g, w1)
        /\ intentParser.action g <> VNull
        /\ exists answer parsed modelPlatform modelAction,
             geminiReporter.callGeminiWithRetry E (intentParser.prompt userPrompt) w
             = (Ret answer, w1)
             /\ JSON_parse E (githubAgent.stripFences (geminiReporter.gr_text answer))
                = Ret parsed
             /\ getProp E "parsed" parsed "platform" = Ret modelPlatform
             /\ getProp E "parsed" parsed "action" = Ret modelAction
             /\ (truthy modelAction = true -> intentParser.action g = modelAction)
             /\ (truthy modelAction = false -> intentParser.action g = VStr "analyze")
             /\ (truthy modelPlatform = true -> intentParser.platform g = modelPlatform)
             /\ (truthy modelPlatform = false -> intentParser.platform g = VStr "unknown")).
Proof.
  split; [|split].
  - apply returns_try_catch. intros e. apply returns_ret.
  - intros e w1 Hgen. eexists. split; [by apply parseUserIntent_fallback|].
    destruct (fallbackIntent_cases userPrompt (errMessage e)) as (Hinsta & Hgh & Hcr & Hun).
    destruct (Regex.matchAll true intentParser.instaRegex userPrompt) as [|url rest] eqn:Hfound.
    + destruct (Regex.test true intentParser.githubKeywords userPrompt) eqn:Hg.
      { destruct (Hgh eq_refl eq_refl) as (-> & _). discriminate. }
      destruct (Regex.test true intentParser.cryptoKeywords userPrompt) eqn:Hc.
      { destruct (Hcr eq_refl eq_refl eq_refl) as (-> & _). discriminate. }
      destruct (Hun eq_refl eq_refl eq_refl) as (_ & -> & -> & _). done.
    + destruct (Hinsta ltac:(discriminate)) as (-> & _). discriminate.
  - intros g w1 Hgen.
    destruct (generativeIntent_action E userPrompt w g w1 Hgen) as (_ & Htruthy & _).
    split; [by apply parseUserIntent_generative|].
    split; [by apply truthy_not_null|].
    destruct (generativeIntent_run E userPrompt w w1 g Hgen)
      as (answer & parsed & modelPlatform & modelUrls & modelAction & modelQuery
          & Hanswer & Hparsed & Hplatform & _ & Haction & _ & ->).
    exists answer, parsed, modelPlatform, modelAction.
    split; [done|]. split; [done|]. split; [done|]. split; [done|].
    cbn [intentParser.action intentParser.platform]. unfold orElse.
    repeat split; intros ->; reflexivity.
Qed.

Lemma unknown_platform_action_witness :
  intentParser.parseUserIntent
    (Examples.env (Examples.replies Examples.unknownJson) Examples.http401)
    "what is the weather" Examples.fresh
  = (Ret (intentParser.mkParsedIntent true (VStr "unknown") (VArr []) (VStr "analyze")
            (VStr "what is the weather") None None),
     mkWorld []
       [EvGenerate "gemini-2.5-flash" (intentParser.prompt "what is the weather")]).
Proof.
  refine (proj1
            (proj2 (proj2 (unknown_platform_action
                             (Examples.env (Examples.replies Examples.unknownJson)
                                Examples.http401)
                             "what is the weather" Examples.fresh))
               (intentParser.mkParsedIntent true (VStr "unknown") (VArr []) (VStr "analyze")
                  (VStr "what is the weather") None None)
               (mkWorld []
                  [EvGenerate "gemini-2.5-flash" (intentParser.prompt "what is the weather")])
               _));
    vm_compute; reflexivity.
Defined.

(** C7 as stated fails on the generative path: the model answers with
    the platform unknown and a null action, and the classifier returns
    the platform unknown with the action [analyze]. *)
Lemma unknown_platform_with_action :
  JSON_parse (Examples.env (Examples.replies Examples.unknownJson) Examples.http401)
    Examples.unknownJson
  = Ret (VObj [("platform", VStr "unknown"); ("urls", VArr []); ("action", VNull);
               ("userQuery", VStr "")])
  /\ match intentParser.parseUserIntent
             (Examples.env (Examples.replies Examples.unknownJson) Examples.http401)
             "what is the weather" Examples.fresh with
     | (Ret r, _) =>
         intentParser.platform r = VStr "unknown"
         /\ intentParser.action r = VStr "analyze"
         /\ intentParser.action r <> VNull
     | (Throw _, _) => False
     end.
Proof. split; [reflexivity|]. vm_compute. repeat split. discriminate. Qed.

(** ** Authenticated calls *)

Section AuthenticatedCalls.
  Import githubOAuthAgent.
  Context (E : Env).

  (** The request [githubAPI] builds for an identity whose token is
      [tokenData]. *)
Definition requestOf (tokenData : TokenData) (endpoint : string) (options : Options)
    : Request :=
    mkRequest (default "GET" (opt_method options)) ("https://api.github.com" ++ endpoint)
      [("Authorization", "Bearer " ++ toString (accessToken tokenData));
       ("Accept", "application/vnd.github.v3+json");
       ("User-Agent", "AgenticWorkflow-App")]
      (default VNull (opt_data options)) (default (VObj []) (opt_params options)).

Lemma githubAPI_run (endpoint : string) (options : Options) (userId : string) (w : World) :
    githubAPI E endpoint options userId w
    = match getToken userId w with
      | None =>
          (Throw (Error "GitHub not connected. Please connect your GitHub account first."), w)
      | Some tokenData =>
          let req := requestOf tokenData endpoint options in
          match axios E (trace w) req with
          | HttpOk data => (Ret data, mkWorld (tokenStore w) (trace w ++ [EvHttp req]))
          | HttpFail status message =>
              if decide (status = Some 401%Z) then
                (Throw (Error "GitHub token expired. Please reconnect your GitHub account."),
                 mkWorld (JSMap.delete userId (tokenStore w)) (trace w ++ [EvHttp req]))
              else
                (Throw (AxiosError message status),
                 mkWorld (tokenStore w) (trace w ++ [EvHttp req]))
          end
      end.
  Proof.
    unfold githubAPI, bind, gets. cbv beta iota.
    destruct (getToken userId w) as [tokenData|]; [|reflexivity].
    unfold try_catch, axiosCall, requestOf. cbv zeta.
    destruct (axios E (trace w) _) as [data|status message]; [reflexivity|].
    cbn [errStatus]. destruct (decide (status = Some 401%Z)); reflexivity.
  Qed.
End AuthenticatedCalls.

(** X1.  An authenticated call for an identity without a token throws the
    not-connected error and sends nothing.  With a token it sends exactly
    one request, to the GitHub API endpoint asked for, with that
    identity's token as bearer, and returns the response body when there
    is one. *)
Theorem githubAPI_sends_the_identity_token
  (E : Env) (endpoint : string) (options : githubOAuthAgent.Options)
  (userId : string) (w : World) :
  let run := githubOAuthAgent.githubAPI E endpoint options userId w in
  (githubOAuthAgent.getToken userId w = None ->
   run = (Throw (Error "GitHub not connected. Please connect your GitHub account first."), w))
  /\ (forall tokenData,
        githubOAuthAgent.getToken userId w = Some tokenData ->
        exists req,
          trace run.2 = (trace w ++ [EvHttp req])%list
          /\ req_url req = "https://api.github.com" ++ endpoint
          /\ assoc "Authorization" (req_headers req)
             = Some ("Bearer " ++ toString (accessToken tokenData))
          /\ forall data, axios E (trace w) req = HttpOk data ->
                          run.1 = Ret data /\ tokenStore run.2 = tokenStore w).
Proof.
  intros run. subst run. rewrite githubAPI_run. split.
  - by intros ->.
  - intros tokenData ->. exists (requestOf tokenData endpoint options). cbv zeta.
    destruct (axios E (trace w) _) as [data|status message] eqn:Hanswer.
    + split; [reflexivity|]. split; [reflexivity|]. split; [reflexivity|].
      intros data' [= <-]. done.
    + destruct (decide (status = Some 401%Z));
        (split; [reflexivity|]; split; [reflexivity|]; split; [reflexivity|]);
        intros data' [=].
Qed.

Lemma githubAPI_sends_the_identity_token_witness :
  githubOAuthAgent.githubAPI (Examples.env Examples.generativeDown Examples.http401)
    "/user" githubOAuthAgent.noOptions "octocat" Examples.fresh
  = (Throw (Error "GitHub not connected. Please connect your GitHub account first."),
     Examples.fresh).
Proof.
  exact (proj1 (githubAPI_sends_the_identity_token
                  (Examples.env Examples.generativeDown Examples.http401)
                  "/user" githubOAuthAgent.noOptions "octocat" Examples.fresh)
           eq_refl).
Defined.

(** X2.  When GitHub answers 401 to an authenticated call, the token of
    the calling identity is deleted, the token of every other identity is
    kept, and the call throws the token-expired error.  On any other
    failure the error of the request is thrown as it is and no token is
    deleted. *)
Theorem githubAPI_failure
  (E : Env) (endpoint : string) (options : githubOAuthAgent.Options)
  (userId : string) (w : World) (tokenData : TokenData)
  (status : option Z) (message : string) :
  githubOAuthAgent.getToken userId w = Some tokenData ->
  axios E (trace w) (requestOf tokenData endpoint options) = HttpFail status message ->
  let run := githubOAuthAgent.githubAPI E endpoint options userId w in
  (status = Some 401%Z ->
   run.1 = Throw (Error "GitHub token expired. Please reconnect your GitHub account.")
   /\ githubOAuthAgent.isConnected userId run.2 = false
   /\ forall other, other <> userId ->
        githubOAuthAgent.getToken other run.2 = githubOAuthAgent.getToken other w)
  /\ (status <> Some 401%Z ->
      run.1 = Throw (AxiosError message status)
      /\ tokenStore run.2 = tokenStore w).
Proof.
  intros Htoken Hanswer run. subst run. rewrite githubAPI_run, Htoken. cbv zeta.
  rewrite Hanswer. split; intros Hstatus.
  - rewrite decide_True by done. cbn [fst snd].
    unfold githubOAuthAgent.isConnected, githubOAuthAgent.getToken, JSMap.has. cbn [tokenStore].
    split; [done|]. split; [by rewrite JSMap_get_delete_eq|].
    intros other Hother. apply JSMap_get_delete_ne. congruence.
  - rewrite decide_False by done. done.
Qed.

Lemma githubAPI_failure_witness :
  githubOAuthAgent.isConnected "octocat"
    (githubOAuthAgent.githubAPI (Examples.env Examples.generativeDown Examples.http401)
       "/user" githubOAuthAgent.noOptions "octocat" Examples.connected).2
  = false.
Proof.
  refine (proj1 (proj2 (proj1 (githubAPI_failure
            (Examples.env Examples.generativeDown Examples.http401)
            "/user" githubOAuthAgent.noOptions "octocat" Examples.connected
            (mkTokenData (VStr "gho_expired") (VStr "bearer") (VStr "repo,user")
               (Some "2026-01-01T00:00:00.000Z"))
            (Some 401%Z) "Request failed with status code 401" eq_refl eq_refl)
          eq_refl))).
Defined.

(** ** A rejected credential during a dispatch *)

Section ExpiredToken.
  Import githubOAuthAgent githubAgent.
  Context (E : Env) (message : string).
  Hypothesis rejected : forall h req, axios E h req = HttpFail (Some 401%Z) message.

Lemma getProp_defined (what : string) (v : JS) (k : string) :
    v <> VUndef -> v <> VNull -> exists b, getProp E what v k = Ret b.
  Proof.
    intros Hu Hn. destruct v; try done; simpl; eauto.
    destruct (assoc k fields); eauto.
  Qed.

Lemma githubAPI_rejected (endpoint : string) (options : Options) (userId : string)
    (w : World) (tokenData : TokenData) :
    getToken userId w = Some tokenData ->
    githubAPI E endpoint options userId w
    = (Throw (Error "GitHub token expired. Please reconnect your GitHub account."),
       mkWorld (JSMap.delete userId (tokenStore w))
         (trace w ++ [EvHttp (requestOf tokenData endpoint options)])).
  Proof.
    intros Htoken. rewrite githubAPI_run, Htoken. cbv zeta. rewrite rejected.
    by rewrite decide_True.
  Qed.

  (** The actions that make one authenticated call. *)
Definition SINGLE_CALL_ACTIONS : list string :=
    ["get_profile"; "list_repos"; "create_repo"; "star_repo"; "create_issue";
     "list_issues"; "get_repo"; "create_pr"].

Lemma executeAction_rejected (action : string) (params : JS) (userId : string)
    (w : World) (tokenData : TokenData) :
    In action SINGLE_CALL_ACTIONS ->
    params <> VUndef -> params <> VNull ->
    getToken userId w = Some tokenData ->
    exists req,
      executeAction E (VStr action) params userId w
      = (Throw (Error "GitHub token expired. Please reconnect your GitHub account."),
         mkWorld (JSMap.delete userId (tokenStore w)) (trace w ++ [EvHttp req])).
  Proof.
    intros Hin Hu Hn Htoken.
    unfold SINGLE_CALL_ACTIONS in Hin. cbn [In] in Hin.
    repeat (destruct Hin as [<-|Hin]); try done;
      unfold executeAction; cbn [isStr String.eqb Ascii.eqb Bool.eqb];
      unfold param, bind, lift;
      repeat match goal with
             | |- context [getProp E ?what params ?k] =>
                 let b := fresh "b" in
                 let Hb := fresh "Hb" in
                 destruct (getProp_defined what params k Hu Hn) as [b Hb]; rewrite Hb;
                 cbv beta iota
             end;
      unfold getUser, listRepos, createRepo, starRepo, createIssue, listIssues, getRepo,
        createPullRequest, bind;
      rewrite (githubAPI_rejected _ _ _ _ _ Htoken); eauto.
  Qed.
End ExpiredToken.

(** X3.  For each of the eight actions that make one authenticated call
    (get_profile, list_repos, create_repo, star_repo, create_issue,
    list_issues, get_repo, create_pr): when the identity has a credential
    and GitHub answers 401, the dispatch sends one request, deletes the
    credential of that identity and of no other, and returns the
    needs-authorization result asking to reconnect. *)
Theorem expired_token_needs_authorization
  (E : Env) (message action userId : string) (intent params : JS) (w : World) :
  (forall h req, axios E h req = HttpFail (Some 401%Z) message) ->
  getProp E "intent" intent "action" = Ret (VStr action) ->
  getProp E "intent" intent "params" = Ret params ->
  In action SINGLE_CALL_ACTIONS ->
  params <> VUndef -> params <> VNull ->
  githubOAuthAgent.isConnected userId w = true ->
  let run := githubAgent.dispatch E intent userId w in
  let url := githubOAuthAgent.getAuthorizationUrl E userId in
  run.1 = Ret (githubAgent.authRequired url
                 ("Session expired. Please reconnect:" ++ nl ++ "🔗 " ++ url))
  /\ githubOAuthAgent.isConnected userId run.2 = false
  /\ length (httpRequests (trace run.2)) = S (length (httpRequests (trace w)))
  /\ forall other, other <> userId ->
       githubOAuthAgent.getToken other run.2 = githubOAuthAgent.getToken other w.
Proof.
  intros Hrejected Haction Hparams Hin Hu Hn Hconn run url.
  assert (Htoken : exists tokenData, githubOAuthAgent.getToken userId w = Some tokenData).
  { unfold githubOAuthAgent.isConnected, JSMap.has in Hconn.
    unfold githubOAuthAgent.getToken.
    destruct (JSMap.get userId (tokenStore w)); [eauto|done]. }
  destruct Htoken as [tokenData Htoken].
  destruct (executeAction_rejected E message Hrejected action params userId w tokenData
              Hin Hu Hn Htoken) as [req Hexec].
  assert (Hrun : run
                 = (Ret (githubAgent.authRequired url
                           ("Session expired. Please reconnect:" ++ nl ++ "🔗 " ++ url)),
                    mkWorld (JSMap.delete userId (tokenStore w)) (trace w ++ [EvHttp req]))).
  { subst run. unfold githubAgent.dispatch, bind, lift, gets. rewrite Haction. cbv beta iota.
    rewrite Hconn, andb_false_r. unfold try_catch, bind, lift. rewrite Hparams.
    cbv beta iota. rewrite Hexec. reflexivity. }
  rewrite Hrun. cbn [fst snd trace tokenStore].
  unfold githubOAuthAgent.isConnected, githubOAuthAgent.getToken, JSMap.has. cbn [tokenStore].
  split; [done|]. split; [by rewrite JSMap_get_delete_eq|]. split.
  - rewrite httpRequests_app, length_app. simpl. lia.
  - intros other Hother. apply JSMap_get_delete_ne. congruence.
Qed.

Lemma expired_token_needs_authorization_witness :
  githubOAuthAgent.isConnected "octocat"
    (githubAgent.dispatch (Examples.env (Examples.replies Examples.starJson) Examples.http401)
       Examples.starIntent "octocat" Examples.connected).2
  = false.
Proof.
  refine (proj1 (proj2 (expired_token_needs_authorization
            (Examples.env (Examples.replies Examples.starJson) Examples.http401)
            "Request failed with status code 401" "star_repo" "octocat"
            Examples.starIntent
            (VObj [("owner", VStr "facebook"); ("repo", VStr "react")])
            Examples.connected
            (fun _ _ => eq_refl) eq_refl eq_refl _ _ _ eq_refl)));
    [cbn; tauto|discriminate|discriminate].
Defined.

(** ** The ungated actions *)

Lemma prefix_append (s t : string) : String.prefix s (s ++ t) = true.
Proof.
  induction s as [|a s IH]; simpl; [by destruct t|].
  destruct (ascii_dec a a); [exact IH|done].
Qed.

Lemma append_assoc (s t u : string) : (s ++ t) ++ u = s ++ t ++ u.
Proof.
  induction s as [|a s IH]; [reflexivity|].
  change (String a ((s ++ t) ++ u) = String a (s ++ t ++ u)). by rewrite IH.
Qed.

Lemma prefix_refl (s : string) : String.prefix s s = true.
Proof.
  induction s as [|a s IH]; simpl; [done|].
  destruct (ascii_dec a a); [exact IH|done].
Qed.

Section PublicActions.
  Import githubOAuthAgent githubAgent.
  Context (E : Env).

  (** The request of a public call. *)
Definition publicRequest (action : string) (username : JS) : Request :=
    if String.eqb action "list_user_repos" then
      mkRequest "GET" ("https://api.github.com/users/" ++ toString username ++ "/repos")
        publicHeaders VUndef
        (VObj [("sort", VStr "updated"); ("per_page", VNum 30); ("type", VStr "owner")])
    else
      mkRequest "GET" ("https://api.github.com/users/" ++ toString username)
        publicHeaders VUndef VUndef.

Lemma dispatch_public (intent params : JS) (action userId : string) (w : World) :
    getProp E "intent" intent "action" = Ret (VStr action) ->
    getProp E "intent" intent "params" = Ret params ->
    In action PUBLIC_ACTIONS ->
    dispatch E intent userId w
    = try_catch
        (let! step := executeAction E (VStr action) params userId in
         match step with
         | Returned r => ret r
         | Assigned result summary =>
             ret (mkResult true (Some action) (Some summary) (Some result)
                    None None None None)
         end)
        (fun error =>
           let errMsg := errMessage error in
           if includes errMsg "token expired" || includes errMsg "not connected" then
             let authUrl := getAuthorizationUrl E userId in
             ret (authRequired authUrl
                    ("Session expired. Please reconnect:" ++ nl ++ "🔗 " ++ authUrl))
           else ret (failure errMsg))
        w.
  Proof.
    intros Haction Hparams Hin.
    assert (Hpublic : isPublicAction (VStr action) = true).
    { unfold PUBLIC_ACTIONS in Hin. cbn [In] in Hin.
      destruct Hin as [<-|[<-|[]]]; reflexivity. }
    unfold dispatch. unfold bind at 1, lift at 1. rewrite Haction. cbv beta iota.
    unfold bind at 1, gets. cbv beta iota. rewrite Hpublic. cbn [negb andb].
    unfold try_catch. unfold bind at 1, lift at 1. rewrite Hparams. reflexivity.
  Qed.
End PublicActions.

(** X4.  The two ungated actions ([list_user_repos], [get_user_profile])
    with a username: whether or not the identity has a credential, the
    dispatch sends exactly one request, a GET of the public endpoint of
    that user, without an Authorization header, and leaves the token
    store as it was. *)
Theorem public_action_sends_one_anonymous_request
  (E : Env) (intent params username : JS) (action userId : string) (w : World) :
  getProp E "intent" intent "action" = Ret (VStr action) ->
  getProp E "intent" intent "params" = Ret params ->
  In action githubAgent.PUBLIC_ACTIONS ->
  getProp E "intent.params" params "username" = Ret username ->
  truthy username = true ->
  let run := githubAgent.dispatch E intent userId w in
  let req := publicRequest action username in
  trace run.2 = (trace w ++ [EvHttp req])%list
  /\ tokenStore run.2 = tokenStore w
  /\ req_method req = "GET"
  /\ String.prefix ("https://api.github.com/users/" ++ toString username) (req_url req) = true
  /\ assoc "Authorization" (req_headers req) = None
  /\ exists r, run.1 = Ret r.
Proof.
  intros Haction Hparams Hin Husername Htruthy run req.
  subst run. rewrite (dispatch_public E intent params action userId w Haction Hparams Hin).
  assert (Hexec : exists res,
             githubAgent.executeAction E (VStr action) params userId w
             = (res, mkWorld (tokenStore w) (trace w ++ [EvHttp req]))).
  { subst req. unfold publicRequest.
    unfold githubAgent.PUBLIC_ACTIONS in Hin. cbn [In] in Hin.
    destruct Hin as [<-|[<-|[]]];
      unfold githubAgent.executeAction; cbn [isStr String.eqb Ascii.eqb Bool.eqb];
      unfold githubAgent.param; unfold bind at 1, lift at 1; rewrite Husername;
      cbv beta iota; rewrite Htruthy; cbn [negb];
      unfold githubOAuthAgent.listPublicRepos, githubOAuthAgent.getPublicUser;
      unfold bind at 1, githubOAuthAgent.axiosCall; cbn [default];
      match goal with
      | |- context [axios E (trace w) ?r] => destruct (axios E (trace w) r)
      end; [|eauto| |eauto];
      unfold bind, lift;
      match goal with
      | |- context [match ?s with Ret _ => _ | Throw _ => _ end] => destruct s
      end; eauto. }
  destruct Hexec as [res Hexec].
  assert (Hprefix : String.prefix ("https://api.github.com/users/" ++ toString username)
                      (req_url req) = true).
  { subst req. unfold publicRequest.
    destruct (String.eqb action "list_user_repos"); cbn [req_url].
    - rewrite <- append_assoc. apply prefix_append.
    - apply prefix_refl. }
  unfold try_catch, bind. rewrite Hexec.
  split; [|split; [|split; [|split; [|split]]]].
  - destruct res as [[r|result summary]|e]; cbn; try reflexivity.
    by destruct (includes _ _ || includes _ _).
  - destruct res as [[r|result summary]|e]; cbn; try reflexivity.
    by destruct (includes _ _ || includes _ _).
  - subst req. unfold publicRequest. by destruct (String.eqb action "list_user_repos").
  - exact Hprefix.
  - subst req. unfold publicRequest. by destruct (String.eqb action "list_user_repos").
  - destruct res as [[r|result summary]|e]; cbn; eauto.
    destruct (includes _ _ || includes _ _); eauto.
Qed.

Lemma public_action_sends_one_anonymous_request_witness :
  tokenStore
    (githubAgent.dispatch (Examples.env Examples.generativeDown Examples.http401)
       (VObj [("action", VStr "get_user_profile");
              ("params", VObj [("username", VStr "torvalds")])])
       "octocat" Examples.fresh).2
  = tokenStore Examples.fresh.
Proof.
  refine (proj1 (proj2 (public_action_sends_one_anonymous_request
            (Examples.env Examples.generativeDown Examples.http401)
            (VObj [("action", VStr "get_user_profile");
                   ("params", VObj [("username", VStr "torvalds")])])
            (VObj [("username", VStr "torvalds")]) (VStr "torvalds")
            "get_user_profile" "octocat" Examples.fresh
            eq_refl eq_refl _ eq_refl eq_refl)));
    cbn; tauto.
Defined.

(** X5.  The two ungated actions without a username (absent, empty or
    otherwise falsy): the dispatch returns the failed result that asks
    for a username and sends no request. *)
Theorem public_action_requires_username
  (E : Env) (intent params username : JS) (action userId : string) (w : World) :
  getProp E "intent" intent "action" = Ret (VStr action) ->
  getProp E "intent" intent "params" = Ret params ->
  In action githubAgent.PUBLIC_ACTIONS ->
  getProp E "intent.params" params "username" = Ret username ->
  truthy username = false ->
  exists msg,
    githubAgent.dispatch E intent userId w = (Ret (githubAgent.failure msg), w)
    /\ String.prefix "Username is required." msg = true.
Proof.
  intros Haction Hparams Hin Husername Hfalsy.
  rewrite (dispatch_public E intent params action userId w Haction Hparams Hin).
  unfold githubAgent.PUBLIC_ACTIONS in Hin. cbn [In] in Hin.
  destruct Hin as [<-|[<-|[]]];
    unfold try_catch, bind, githubAgent.executeAction;
    cbn [isStr String.eqb Ascii.eqb Bool.eqb];
    unfold githubAgent.param, bind, lift; rewrite Husername; cbv beta iota;
    rewrite Hfalsy; cbn [negb]; eexists; split; reflexivity.
Qed.

Lemma public_action_requires_username_witness :
  exists msg,
    githubAgent.dispatch (Examples.env Examples.generativeDown Examples.http401)
      (VObj [("action", VStr "list_user_repos"); ("params", VObj [])])
      "octocat" Examples.fresh
    = (Ret (githubAgent.failure msg), Examples.fresh)
    /\ String.prefix "Username is required." msg = true.
Proof.
  refine (public_action_requires_username
            (Examples.env Examples.generativeDown Examples.http401)
            (VObj [("action", VStr "list_user_repos"); ("params", VObj [])])
            (VObj []) VUndef "list_user_repos" "octocat" Examples.fresh
            eq_refl eq_refl _ eq_refl eq_refl).
  cbn. tauto.
Defined.

(** ** Where the requests go, and whose credential changes *)

Section Frames.
  Context (P : Request -> Prop).

  (** Every event of [evs] that is a request satisfies [P]. *)
Definition requestsSatisfy (evs : list Event) : Prop :=
    Forall (fun ev => match ev with EvHttp req => P req | _ => True end) evs.

  (** [m] only adds to the trace, and every request it adds satisfies
      [P]. *)
Definition sends {A : Type} (m : M A) : Prop :=
    forall w, exists evs, trace (m w).2 = (trace w ++ evs)%list /\ requestsSatisfy evs.

Lemma sends_nothing {A : Type} (m : M A) :
    (forall w, trace (m w).2 = trace w) -> sends m.
  Proof.
    intros Hm w. exists []. rewrite app_nil_r. split; [apply Hm|constructor].
  Qed.

Lemma sends_ret {A : Type} (a : A) : sends (ret a).
  Proof. by apply sends_nothing. Qed.

Lemma sends_throw {A : Type} (e : Thrown) : sends (@throw A e).
  Proof. by apply sends_nothing. Qed.

Lemma sends_lift {A : Type} (r : Exc A) : sends (lift r).
  Proof. by apply sends_nothing. Qed.

Lemma sends_gets {A : Type} (f : World -> A) : sends (gets f).
  Proof. by apply sends_nothing. Qed.

Lemma sends_bind {A B : Type} (m : M A) (k : A -> M B) :
    sends m -> (forall a, sends (k a)) -> sends (bind m k).
  Proof.
    intros Hm Hk w. unfold bind. destruct (Hm w) as (evs & Htr & Hevs).
    destruct (m w) as [[a|e] w1]; cbn [snd] in *; [|eauto].
    destruct (Hk a w1) as (evs' & Htr' & Hevs').
    exists (evs ++ evs')%list. split; [by rewrite Htr', Htr, app_assoc|].
    by apply Forall_app.
  Qed.

Lemma sends_try_catch {A : Type} (m : M A) (h : Thrown -> M A) :
    sends m -> (forall e, sends (h e)) -> sends (try_catch m h).
  Proof.
    intros Hm Hh w. unfold try_catch. destruct (Hm w) as (evs & Htr & Hevs).
    destruct (m w) as [[a|e] w1]; cbn [snd] in *; [eauto|].
    destruct (Hh e w1) as (evs' & Htr' & Hevs').
    exists (evs ++ evs')%list. split; [by rewrite Htr', Htr, app_assoc|].
    by apply Forall_app.
  Qed.

Lemma sends_axiosCall (E : Env) (req : Request) :
    P req -> sends (githubOAuthAgent.axiosCall E req).
  Proof.
    intros Hreq w. exists [EvHttp req]. unfold githubOAuthAgent.axiosCall.
    split; [by destruct (axios E (trace w) req)|]. by repeat constructor.
  Qed.

Lemma sends_generate (E : Env) (modelName prompt : string) :
    sends (geminiReporter.generate E modelName prompt).
  Proof. intros w. exists [EvGenerate modelName prompt]. split; [done|]. by repeat constructor. Qed.

Lemma sends_sleep (delay : Z) : sends (geminiReporter.sleep delay).
  Proof. intros w. exists [EvSleep delay]. split; [done|]. by repeat constructor. Qed.

Lemma sends_callGeminiWithRetry (E : Env) (prompt : string) :
    sends (geminiReporter.callGeminiWithRetry E prompt).
  Proof.
    unfold geminiReporter.callGeminiWithRetry.
    generalize geminiReporter.MODELS as models.
    assert (Hinner : forall modelName remaining attempt,
               sends (geminiReporter.attemptLoop E prompt modelName remaining attempt)).
    { intros modelName remaining.
      induction remaining as [|remaining IH]; intros attempt; [apply sends_ret|].
      cbn [geminiReporter.attemptLoop]. apply sends_bind.
      - apply sends_try_catch.
        + apply sends_bind; [apply sends_generate|]. intros text. apply sends_ret.
        + intros e. destruct (_ && _).
          * apply sends_bind; [apply sends_sleep|]. intros _. apply sends_ret.
          * destruct (geminiReporter.is429 _); [apply sends_ret|apply sends_throw].
      - intros [result| |]; [apply sends_ret|apply IH|apply sends_ret]. }
    induction models as [|modelName rest IH]; [apply sends_throw|].
    cbn [geminiReporter.modelLoop]. apply sends_bind; [apply Hinner|].
    intros [result|]; [apply sends_ret|apply IH].
  Qed.

Lemma sends_callGemini (E : Env) (prompt : string) :
    sends (githubAgent.callGemini E prompt).
  Proof.
    unfold githubAgent.callGemini. generalize githubAgent.MODEL_CHAIN as models.
    induction models as [|modelName rest IH]; [apply sends_throw|].
    cbn [githubAgent.callGeminiLoop]. apply sends_bind.
    - apply sends_try_catch; [|intros e; apply sends_ret].
      apply sends_bind; [apply sends_generate|]. intros text. apply sends_ret.
    - intros [text|]; [apply sends_ret|apply IH].
  Qed.
End Frames.

(** [m] changes the token of no identity other than [userId]. *)
Definition keepsOthers (userId : string) {A : Type} (m : M A) : Prop :=
  forall w other, other <> userId ->
    githubOAuthAgent.getToken other (m w).2 = githubOAuthAgent.getToken other w.

Section KeepsOthers.
  Context (userId : string).

Lemma keeps_store {A : Type} (m : M A) :
    (forall w, tokenStore (m w).2 = tokenStore w) -> keepsOthers userId m.
  Proof. intros Hm w other _. unfold githubOAuthAgent.getToken. by rewrite Hm. Qed.

Lemma keeps_ret {A : Type} (a : A) : keepsOthers userId (ret a).
  Proof. by apply keeps_store. Qed.

Lemma keeps_throw {A : Type} (e : Thrown) : keepsOthers userId (@throw A e).
  Proof. by apply keeps_store. Qed.

Lemma keeps_lift {A : Type} (r : Exc A) : keepsOthers userId (lift r).
  Proof. by apply keeps_store. Qed.

Lemma keeps_gets {A : Type} (f : World -> A) : keepsOthers userId (gets f).
  Proof. by apply keeps_store. Qed.

Lemma keeps_bind {A B : Type} (m : M A) (k : A -> M B) :
    keepsOthers userId m -> (forall a, keepsOthers userId (k a)) ->
    keepsOthers userId (bind m k).
  Proof.
    intros Hm Hk w other Hother. unfold bind. specialize (Hm w other Hother).
    destruct (m w) as [[a|e] w1]; cbn [snd] in *; [|done].
    by rewrite (Hk a w1 other Hother).
  Qed.

Lemma keeps_try_catch {A : Type} (m : M A) (h : Thrown -> M A) :
    keepsOthers userId m -> (forall e, keepsOthers userId (h e)) ->
    keepsOthers userId (try_catch m h).
  Proof.
    intros Hm Hh w other Hother. unfold try_catch. specialize (Hm w other Hother).
    destruct (m w) as [[a|e] w1]; cbn [snd] in *; [done|].
    by rewrite (Hh e w1 other Hother).
  Qed.

Lemma keeps_quiet {A : Type} (m : M A) : quiet m -> keepsOthers userId m.
  Proof. intros Hm. apply keeps_store. intros w. apply Hm. Qed.

Lemma keeps_axiosCall (E : Env) (req : Request) :
    keepsOthers userId (githubOAuthAgent.axiosCall E req).
  Proof.
    apply keeps_store. intros w. unfold githubOAuthAgent.axiosCall.
    by destruct (axios E (trace w) req).
  Qed.

Lemma keeps_githubAPI (E : Env) (endpoint : string) (options : githubOAuthAgent.Options) :
    keepsOthers userId (githubOAuthAgent.githubAPI E endpoint options userId).
  Proof.
    intros w other Hother. rewrite githubAPI_run.
    destruct (githubOAuthAgent.getToken userId w) as [tokenData|]; [|done]. cbv zeta.
    destruct (axios E (trace w) _) as [data|status message]; [done|].
    destruct (decide (status = Some 401%Z)); [|done].
    unfold githubOAuthAgent.getToken. cbn [snd tokenStore].
    apply JSMap_get_delete_ne. congruence.
  Qed.
End KeepsOthers.

(** ** Isolation of the GitHub dispatcher *)

(** A request to the GitHub API: its URL is a path on the host
    api.github.com, and its method is one the agents use. *)
Definition isGitHubRequest (req : Request) : Prop :=
  String.prefix "https://api.github.com/" (req_url req) = true
  /\ In (req_method req) ["GET"; "POST"; "PUT"].

Ltac solve_method :=
  cbn [default from_option githubOAuthAgent.opt_method req_method In];
  repeat first [ by left | right ].

Ltac frame_steps_with leaf :=
  repeat first
    [ leaf
    | apply sends_ret | apply sends_throw | apply sends_lift | apply sends_gets
    | apply keeps_ret | apply keeps_throw | apply keeps_lift | apply keeps_gets
    | apply sends_bind; [|intros ?]
    | apply keeps_bind; [|intros ?]
    | apply sends_try_catch; [|intros ?]
    | apply keeps_try_catch; [|intros ?]
    | match goal with
      | |- sends _ (if ?c then _ else _) => destruct c
      | |- sends _ (match ?x with _ => _ end) => destruct x
      | |- keepsOthers _ (if ?c then _ else _) => destruct c
      | |- keepsOthers _ (match ?x with _ => _ end) => destruct x
      end ].

Lemma prefix_split (s t : string) :
  String.prefix s t = true -> exists rest, t = s ++ rest.
Proof.
  revert t. induction s as [|a s IH]; intros t; [by exists t|].
  destruct t as [|b t]; [done|]. cbn.
  destruct (ascii_dec a b) as [<-|]; [|done].
  intros (rest & ->)%IH. by exists rest.
Qed.

Section GitHubIsolation.
  Import githubOAuthAgent githubAgent.
  Context (E : Env).

Lemma sends_githubAPI (endpoint : string) (options : Options) (userId : string) :
    String.prefix "/" endpoint = true ->
    In (default "GET" (opt_method options)) ["GET"; "POST"; "PUT"] ->
    sends isGitHubRequest (githubAPI E endpoint options userId).
  Proof.
    intros Hendpoint Hmethod w. rewrite githubAPI_run.
    destruct (getToken userId w) as [tokenData|].
    - exists [EvHttp (requestOf tokenData endpoint options)]. cbv zeta. split.
      + destruct (axios E (trace w) _) as [data|status message]; [done|].
        by destruct (decide (status = Some 401%Z)).
      + constructor; [|constructor]. split; [|exact Hmethod].
        apply prefix_split in Hendpoint as [rest ->].
        exact (prefix_append "https://api.github.com/" rest).
    - exists []. rewrite app_nil_r. split; [done|constructor].
  Qed.

Lemma sends_createOrUpdateFile (owner repo path content : JS) (message userId : string) :
    sends isGitHubRequest (createOrUpdateFile E owner repo path content message userId).
  Proof.
    unfold createOrUpdateFile.
    frame_steps_with ltac:(apply sends_githubAPI; [reflexivity|solve_method]).
  Qed.

Lemma keeps_createOrUpdateFile (owner repo path content : JS) (message userId : string) :
    keepsOthers userId (createOrUpdateFile E owner repo path content message userId).
  Proof. unfold createOrUpdateFile. frame_steps_with ltac:(apply keeps_githubAPI). Qed.

Lemma sends_pushLoop (owner repo : JS) (message userId : string) (files : list JS)
    (results : list PushResult) :
    sends isGitHubRequest (pushLoop E owner repo message userId files results).
  Proof.
    revert results. induction files as [|file rest IH]; intros results; [apply sends_ret|].
    cbn [pushLoop]. apply sends_bind; [|intros ?; apply IH].
    frame_steps_with ltac:(apply sends_createOrUpdateFile).
  Qed.

Lemma keeps_pushLoop (owner repo : JS) (message userId : string) (files : list JS)
    (results : list PushResult) :
    keepsOthers userId (pushLoop E owner repo message userId files results).
  Proof.
    revert results. induction files as [|file rest IH]; intros results; [apply keeps_ret|].
    cbn [pushLoop]. apply keeps_bind; [|intros ?; apply IH].
    frame_steps_with ltac:(apply keeps_createOrUpdateFile).
  Qed.

Lemma sends_executeAction (action params : JS) (userId : string) :
    sends isGitHubRequest (executeAction E action params userId).
  Proof.
    unfold executeAction, param, getUser, listRepos, listPublicRepos, getPublicUser,
      createRepo, starRepo, createIssue, listIssues, getRepo, createPullRequest, pushProject.
    frame_steps_with
      ltac:(first [ apply sends_githubAPI; [reflexivity|solve_method]
                  | apply sends_pushLoop
                  | apply sends_axiosCall; split; [reflexivity|solve_method] ]).
  Qed.

Lemma keeps_executeAction (action params : JS) (userId : string) :
    keepsOthers userId (executeAction E action params userId).
  Proof.
    unfold executeAction, param, getUser, listRepos, listPublicRepos, getPublicUser,
      createRepo, starRepo, createIssue, listIssues, getRepo, createPullRequest, pushProject.
    frame_steps_with
      ltac:(first [ apply keeps_githubAPI | apply keeps_pushLoop | apply keeps_axiosCall ]).
  Qed.

Lemma sends_runGitHubAgent (userPrompt userId : string) :
    sends isGitHubRequest (runGitHubAgent E userPrompt userId).
  Proof.
    unfold runGitHubAgent, parseIntent, dispatch.
    frame_steps_with ltac:(first [ apply sends_callGemini | apply sends_executeAction ]).
  Qed.

Lemma keeps_runGitHubAgent (userPrompt userId : string) :
    keepsOthers userId (runGitHubAgent E userPrompt userId).
  Proof.
    unfold runGitHubAgent, dispatch.
    apply keeps_bind; [apply keeps_quiet, parseIntent_quiet|]. intros parsed.
    frame_steps_with ltac:(apply keeps_executeAction).
  Qed.
End GitHubIsolation.

Lemma prefix_path (url : string) :
  String.prefix "https://api.github.com/" url = true ->
  exists path, url = "https://api.github.com" ++ String "/" path.
Proof. intros (rest & ->)%prefix_split. by exists rest. Qed.

Lemma requestsSatisfy_http (P : Request -> Prop) (evs : list Event) :
  requestsSatisfy P evs -> Forall P (httpRequests evs).
Proof.
  induction 1 as [|ev evs Hev _ IH]; [constructor|].
  destruct ev; cbn; try done. by constructor.
Qed.

(** X6.  Whatever the prompt and the answers of the services, the trace
    after [runGitHubAgent] is the trace before it followed by new events,
    and every request among them goes to the host api.github.com: its URL
    is https://api.github.com followed by a path. *)
Theorem runGitHubAgent_calls_only_github
  (E : Env) (userPrompt userId : string) (w : World) :
  exists evs,
    trace (githubAgent.runGitHubAgent E userPrompt userId w).2 = (trace w ++ evs)%list
    /\ Forall (fun req => exists path,
                            req_url req = "https://api.github.com" ++ String "/" path)
         (httpRequests evs).
Proof.
  destruct (sends_runGitHubAgent E userPrompt userId w) as (evs & Htrace & Hevs).
  exists evs. split; [done|]. apply requestsSatisfy_http in Hevs.
  eapply Forall_impl; [exact Hevs|]. intros req [Hurl _]. by apply prefix_path.
Qed.

(** X7.  A dispatch for one identity never changes the credential of
    another: after [runGitHubAgent] for [userId], every other identity
    has the token it had. *)
Theorem runGitHubAgent_keeps_other_credentials
  (E : Env) (userPrompt userId other : string) (w : World) :
  other <> userId ->
  githubOAuthAgent.getToken other (githubAgent.runGitHubAgent E userPrompt userId w).2
  = githubOAuthAgent.getToken other w.
Proof. intros Hother. by apply keeps_runGitHubAgent. Qed.

Lemma runGitHubAgent_keeps_other_credentials_witness :
  githubOAuthAgent.getToken "octocat"
    (githubAgent.runGitHubAgent
       (Examples.env (Examples.replies Examples.pushJson) Examples.http401)
       "push a.txt, b.txt and c.txt to octo/demo" "hubot" Examples.connected).2
  = githubOAuthAgent.getToken "octocat" Examples.connected.
Proof.
  exact (runGitHubAgent_keeps_other_credentials
           (Examples.env (Examples.replies Examples.pushJson) Examples.http401)
           "push a.txt, b.txt and c.txt to octo/demo" "hubot" "octocat" Examples.connected
           ltac:(discriminate)).
Defined.

(** C9, as the code has it.  The GitHub dispatcher can never delete a
    repository: whatever the prompt, the identity and the answers of the
    services, every request [runGitHubAgent] sends is a GET, a POST or a
    PUT, never a DELETE.  An intent whose action has no case in the
    [switch], [delete_repo] among them, is never executed: the dispatch
    sends no HTTP request and leaves the token store alone.  What it
    returns depends on the credential: the failed result with the
    unknown-action message when the identity has one, the
    needs-authorization result when it has none. *)
Theorem unknown_action_is_never_executed
  (E : Env) (userPrompt userId : string) (w : World) :
  (exists events,
      trace (githubAgent.runGitHubAgent E userPrompt userId w).2 = (trace w ++ events)%list
      /\ Forall (fun req => In (req_method req) ["GET"; "POST"; "PUT"]
                            /\ req_method req <> "DELETE")
           (httpRequests events))
  /\ GitHubOutcome.isHandled (VStr "delete_repo") = false
  /\ forall (w1 : World) (intent action : JS),
       githubAgent.parseIntent E userPrompt w = (Ret (inr intent), w1) ->
       getProp E "intent" intent "action" = Ret action ->
       GitHubOutcome.isHandled action = false ->
       let run := githubAgent.runGitHubAgent E userPrompt userId w in
       let url := githubOAuthAgent.getAuthorizationUrl E userId in
       run.2 = w1
       /\ httpRequests (trace run.2) = httpRequests (trace w)
       /\ tokenStore run.2 = tokenStore w
       /\ (githubOAuthAgent.isConnected userId w = true ->
           run.1 = Ret (githubAgent.failure
                          ("Unknown action: " ++ toString action
                           ++ ". Try: list repos, create repo, star repo, create issue, etc.")))
       /\ (githubOAuthAgent.isConnected userId w = false ->
           run.1 = Ret (githubAgent.authRequired url
                          ("This action requires GitHub authorization." ++ nl ++ "🔗 " ++ url))).
Proof.
  split.
  { destruct (sends_runGitHubAgent E userPrompt userId w) as (events & Htrace & Hevents).
    exists events. split; [done|]. apply requestsSatisfy_http in Hevents.
    eapply Forall_impl; [exact Hevents|]. intros req [_ Hmethod]. split; [done|].
    intros Hdelete. rewrite Hdelete in Hmethod. cbn in Hmethod. intuition discriminate. }
  split; [reflexivity|].
  intros w1 intent action Hparse Haction Hunknown run url.
  destruct (parseIntent_world E _ _ _ _ Hparse) as [Hstore Hhttp].
  pose proof (unhandled_not_public action Hunknown) as Hpublic.
  destruct (getProp_total E "intent" "intent" intent action "action" "params" Haction)
    as (params & Hparams).
  assert (Hrun : run = githubAgent.dispatch E intent userId w1)
    by (subst run; by apply runGitHubAgent_parsed).
  assert (Hconn : githubOAuthAgent.isConnected userId w1 = githubOAuthAgent.isConnected userId w)
    by (unfold githubOAuthAgent.isConnected; by rewrite Hstore).
  assert (Hdispatch :
    githubAgent.dispatch E intent userId w1
    = (Ret (if githubOAuthAgent.isConnected userId w
            then githubAgent.failure
                   ("Unknown action: " ++ toString action
                    ++ ". Try: list repos, create repo, star repo, create issue, etc.")
            else githubAgent.authRequired url
                   ("This action requires GitHub authorization." ++ nl ++ "🔗 " ++ url)),
       w1)).
  { unfold githubAgent.dispatch, bind, lift, gets. rewrite Haction. cbv beta iota.
    rewrite Hpublic, Hconn.
    destruct (githubOAuthAgent.isConnected userId w); [|reflexivity].
    cbn [negb andb]. unfold try_catch, bind, lift. rewrite Hparams. cbv beta iota.
    by rewrite executeAction_unknown. }
  rewrite Hrun, Hdispatch. cbn [fst snd].
  split; [done|]. split; [done|]. split; [done|].
  split; intros ->; reflexivity.
Qed.

Lemma unknown_action_is_never_executed_witness :
  (githubAgent.runGitHubAgent
     (Examples.env (Examples.replies Examples.deleteJson) Examples.http401)
     "delete the repo octo/demo" "octocat" Examples.connected).1
  = Ret (githubAgent.failure
           ("Unknown action: delete_repo"
            ++ ". Try: list repos, create repo, star repo, create issue, etc.")).
Proof.
  refine (proj1 (proj2 (proj2 (proj2
            (proj2 (proj2
               (unknown_action_is_never_executed
                  (Examples.env (Examples.replies Examples.deleteJson) Examples.http401)
                  "delete the repo octo/demo" "octocat" Examples.connected))
               (mkWorld (tokenStore Examples.connected)
                  [EvGenerate "gemini-2.5-flash"
                     (githubAgent.parsePrompt "delete the repo octo/demo")])
               Examples.deleteIntent (VStr "delete_repo") _ _ _)))) _);
    vm_compute; reflexivity.
Defined.

(** C9 as stated fails when the identity has no credential: the gate of
    step 2 comes before the [switch], so [delete_repo] gets the
    needs-authorization result, not the failed result with the
    unknown-action message. *)
Lemma delete_repo_without_credential :
  (githubAgent.runGitHubAgent
     (Examples.env (Examples.replies Examples.deleteJson) Examples.http401)
     "delete the repo octo/demo" "octocat" Examples.fresh).1
  = Ret (githubAgent.authRequired
           (githubOAuthAgent.getAuthorizationUrl
              (Examples.env (Examples.replies Examples.deleteJson) Examples.http401) "octocat")
           ("This action requires GitHub authorization." ++ nl ++ "🔗 "
            ++ githubOAuthAgent.getAuthorizationUrl
                 (Examples.env (Examples.replies Examples.deleteJson) Examples.http401)
                 "octocat"))
  /\ forall msg,
       (githubAgent.runGitHubAgent
          (Examples.env (Examples.replies Examples.deleteJson) Examples.http401)
          "delete the repo octo/demo" "octocat" Examples.fresh).1
       <> Ret (githubAgent.failure msg).
Proof.
  split; [vm_compute; reflexivity|].
  intros msg. vm_compute. discriminate.
Qed.

(** ** Isolation of the crypto dispatcher *)

(** [m] leaves the token store as it was. *)
Definition keepsStore {A : Type} (m : M A) : Prop :=
  forall w, tokenStore (m w).2 = tokenStore w.

Lemma keepsStore_bind {A B : Type} (m : M A) (k : A -> M B) :
  keepsStore m -> (forall a, keepsStore (k a)) -> keepsStore (bind m k).
Proof.
  intros Hm Hk w. unfold bind. specialize (Hm w).
  destruct (m w) as [[a|e] w1]; cbn [snd] in *; [|done]. by rewrite Hk.
Qed.

Lemma keepsStore_try_catch {A : Type} (m : M A) (h : Thrown -> M A) :
  keepsStore m -> (forall e, keepsStore (h e)) -> keepsStore (try_catch m h).
Proof.
  intros Hm Hh w. unfold try_catch. specialize (Hm w).
  destruct (m w) as [[a|e] w1]; cbn [snd] in *; [done|]. by rewrite Hh.
Qed.

Lemma keepsStore_pure {A : Type} (m : M A) :
  (forall w, (m w).2 = w) -> keepsStore m.
Proof. intros Hm w. by rewrite Hm. Qed.

Lemma keepsStore_axiosCall (E : Env) (req : Request) :
  keepsStore (githubOAuthAgent.axiosCall E req).
Proof. intros w. unfold githubOAuthAgent.axiosCall. by destruct (axios E (trace w) req). Qed.

Lemma keepsStore_callGeminiWithRetry (E : Env) (prompt : string) :
  keepsStore (geminiReporter.callGeminiWithRetry E prompt).
Proof. intros w. apply (modelLoop_run E prompt geminiReporter.MODELS w). Qed.

Ltac store_steps_with leaf :=
  repeat first
    [ leaf
    | apply keepsStore_pure; reflexivity
    | apply keepsStore_bind; [|intros ?]
    | apply keepsStore_try_catch; [|intros ?]
    | match goal with
      | |- keepsStore (if ?c then _ else _) => destruct c
      | |- keepsStore (match ?x with _ => _ end) => destruct x
      end ].

Section CryptoIsolation.
  Import cryptoAgent.
  Context (E : Env).

  (** A request to the market-data API: a GET below [CMC_BASE] with the
      API key of the environment. *)
Definition isMarketRequest (req : Request) : Prop :=
    req_method req = "GET"
    /\ String.prefix CMC_BASE (req_url req) = true
    /\ assoc "X-CMC_PRO_API_KEY" (req_headers req) = Some (envString (COINMARKETCAP_APIKEY E))
    /\ assoc "Authorization" (req_headers req) = None.

Lemma sends_executeAction_crypto (action params : JS) :
    sends isMarketRequest (executeAction E action params).
  Proof.
    unfold executeAction, getQuotes, getTopCoins, analyzeWithGemini.
    frame_steps_with
      ltac:(first [ apply sends_callGeminiWithRetry
                  | apply sends_axiosCall; repeat split ]).
  Qed.

Lemma keepsStore_executeAction (action params : JS) :
    keepsStore (executeAction E action params).
  Proof.
    unfold executeAction, getQuotes, getTopCoins, analyzeWithGemini.
    store_steps_with
      ltac:(first [ apply keepsStore_callGeminiWithRetry | apply keepsStore_axiosCall ]).
  Qed.

Lemma executeAction_unknown_crypto (action params : JS) (w : World) :
    existsb (isStr action) ["get_price"; "top_coins"; "analyze"; "market_overview"] = false ->
    executeAction E action params w = (Ret (failure ("Unknown action: " ++ toString action)), w).
  Proof.
    cbn [existsb]. intros H. repeat (apply orb_false_iff in H as [? H]).
    unfold executeAction.
    repeat match goal with
           | Hs : isStr action _ = false |- _ => rewrite Hs; clear Hs
           end.
    reflexivity.
  Qed.
End CryptoIsolation.

(** X8.  Whatever the prompt and the answers of the services,
    [runCryptoAgent] leaves the token store as it was, and every request
    it sends is a GET below the market-data base URL that carries the API
    key and no Authorization header. *)
Theorem runCryptoAgent_calls_only_the_market_api
  (E : Env) (userPrompt : string) (w : World) :
  tokenStore (cryptoAgent.runCryptoAgent E userPrompt w).2 = tokenStore w
  /\ exists evs,
       trace (cryptoAgent.runCryptoAgent E userPrompt w).2 = (trace w ++ evs)%list
       /\ Forall (isMarketRequest E) (httpRequests evs).
Proof.
  split.
  - revert w. change (keepsStore (cryptoAgent.runCryptoAgent E userPrompt)).
    unfold cryptoAgent.runCryptoAgent, cryptoAgent.parseIntent, cryptoAgent.dispatch.
    store_steps_with
      ltac:(first [ apply keepsStore_callGeminiWithRetry | apply keepsStore_executeAction ]).
  - assert (Hsends : sends (isMarketRequest E) (cryptoAgent.runCryptoAgent E userPrompt)).
    { unfold cryptoAgent.runCryptoAgent, cryptoAgent.parseIntent, cryptoAgent.dispatch.
      frame_steps_with
        ltac:(first [ apply sends_callGeminiWithRetry | apply sends_executeAction_crypto ]). }
    destruct (Hsends w) as (evs & Htrace & Hevs).
    exists evs. split; [done|]. by apply requestsSatisfy_http.
Qed.

(** X9.  An intent of the crypto dispatcher whose action is none of
    [get_price], [top_coins], [analyze] and [market_overview] gets the
    failed result with the unknown-action message; nothing is requested
    and the state is as it was. *)
Theorem crypto_unknown_action_fails
  (E : Env) (intent action params : JS) (w : World) :
  getProp E "intent" intent "action" = Ret action ->
  getProp E "intent" intent "params" = Ret params ->
  existsb (isStr action) ["get_price"; "top_coins"; "analyze"; "market_overview"] = false ->
  cryptoAgent.dispatch E intent w
  = (Ret (cryptoAgent.failure ("Unknown action: " ++ toString action)), w).
Proof.
  intros Haction Hparams Hunknown.
  unfold cryptoAgent.dispatch, try_catch, bind, lift. rewrite Haction, Hparams.
  cbv beta iota. by rewrite executeAction_unknown_crypto.
Qed.

Lemma crypto_unknown_action_fails_witness :
  cryptoAgent.dispatch (Examples.env Examples.generativeDown Examples.http401)
    (VObj [("action", VStr "buy"); ("params", VObj [("symbols", VStr "BTC")])])
    Examples.fresh
  = (Ret (cryptoAgent.failure "Unknown action: buy"), Examples.fresh).
Proof.
  exact (crypto_unknown_action_fails
           (Examples.env Examples.generativeDown Examples.http401)
           (VObj [("action", VStr "buy"); ("params", VObj [("symbols", VStr "BTC")])])
           (VStr "buy") (VObj [("symbols", VStr "BTC")]) Examples.fresh
           eq_refl eq_refl eq_refl).
Defined.

(** ** Bounds on the generative calls *)

(** The generative calls of a trace, and the time it waits. *)
Definition generateCalls (evs : list Event) : nat :=
  length (List.filter (fun ev => match ev with EvGenerate _ _ => true | _ => false end) evs).

Definition totalSleep (evs : list Event) : Z :=
  fold_right (fun ev acc => match ev with EvSleep ms => (ms + acc)%Z | _ => acc end) 0%Z evs.

Lemma generateCalls_app (a b : list Event) :
  generateCalls (a ++ b) = generateCalls a + generateCalls b.
Proof. unfold generateCalls. by rewrite List.filter_app, length_app. Qed.

Lemma totalSleep_app (a b : list Event) :
  totalSleep (a ++ b) = (totalSleep a + totalSleep b)%Z.
Proof.
  induction a as [|ev a IH]; simpl; [done|]. destruct ev; rewrite ?IH; lia.
Qed.

Lemma totalSleep_nonneg (evs : list Event) :
  Forall (fun ev => match ev with EvSleep ms => (0 <= ms)%Z | _ => True end) evs ->
  (0 <= totalSleep evs)%Z.
Proof.
  induction 1 as [|ev evs Hev _ IH]; simpl; [done|]. destruct ev; lia.
Qed.

Lemma schedule_bounds (prompt : string) (evs : list Event) :
  evs `prefix_of` Schedule.schedule prompt geminiReporter.MODELS ->
  generateCalls evs <= 9 /\ (0 <= totalSleep evs <= 45000)%Z /\ httpRequests evs = [].
Proof.
  intros [rest Hplan].
  assert (Hsleeps : Forall (fun ev => match ev with
                                      | EvSleep ms => (0 <= ms)%Z
                                      | _ => True
                                      end)
                      (Schedule.schedule prompt geminiReporter.MODELS)).
  { cbn. repeat constructor; done. }
  assert (Hhttp : httpRequests (Schedule.schedule prompt geminiReporter.MODELS) = [])
    by reflexivity.
  assert (Hcalls : generateCalls (Schedule.schedule prompt geminiReporter.MODELS) = 9)
    by reflexivity.
  assert (Htotal : totalSleep (Schedule.schedule prompt geminiReporter.MODELS) = 45000%Z)
    by reflexivity.
  rewrite Hplan in Hsleeps, Hhttp, Hcalls, Htotal.
  apply Forall_app in Hsleeps as [Hevs Hrest].
  apply totalSleep_nonneg in Hevs, Hrest.
  rewrite generateCalls_app in Hcalls. rewrite totalSleep_app in Htotal.
  rewrite httpRequests_app in Hhttp. apply app_eq_nil in Hhttp as [Hhttp _].
  repeat split; [lia|lia|lia|done].
Qed.

(** X10.  Whatever the service answers, one call of
    [callGeminiWithRetry] makes at most nine generative calls, waits at
    most 45 seconds in total, sends no HTTP request and leaves the token
    store as it was. *)
Theorem callGeminiWithRetry_is_bounded (E : Env) (prompt : string) (w : World) :
  exists evs,
    trace (geminiReporter.callGeminiWithRetry E prompt w).2 = (trace w ++ evs)%list
    /\ generateCalls evs <= 9
    /\ (0 <= totalSleep evs <= 45000)%Z
    /\ httpRequests evs = []
    /\ tokenStore (geminiReporter.callGeminiWithRetry E prompt w).2 = tokenStore w.
Proof.
  destruct (modelLoop_run E prompt geminiReporter.MODELS w) as [Hstore Hrun].
  unfold geminiReporter.callGeminiWithRetry.
  destruct Hrun as [(_ & Htrace & _)|(body & modelName & Hprefix & Htrace & _)].
  - eexists. split; [exact Htrace|].
    destruct (schedule_bounds prompt _ (reflexivity _)) as (? & ? & ?). done.
  - eexists. split; [exact Htrace|].
    destruct (schedule_bounds prompt _ Hprefix) as (? & ? & ?). done.
Qed.

(** X11.  Whatever the service answers, one call of the GitHub agent's
    [callGemini] asks each model of the chain at most once, in order: it
    makes at most three generative calls, never waits, and sends no HTTP
    request. *)
Theorem callGemini_is_bounded (E : Env) (prompt : string) (w : World) :
  exists tried,
    tried `prefix_of` githubAgent.MODEL_CHAIN
    /\ trace (githubAgent.callGemini E prompt w).2
       = (trace w ++ Schedule.calls prompt tried)%list
    /\ generateCalls (Schedule.calls prompt tried) <= 3
    /\ totalSleep (Schedule.calls prompt tried) = 0%Z
    /\ httpRequests (Schedule.calls prompt tried) = [].
Proof.
  assert (Hcalls : forall models,
             generateCalls (Schedule.calls prompt models) = length models
             /\ totalSleep (Schedule.calls prompt models) = 0%Z).
  { induction models as [|m models [IH1 IH2]]; [done|].
    change (Schedule.calls prompt (m :: models))
      with ([EvGenerate m prompt] ++ Schedule.calls prompt models)%list.
    rewrite generateCalls_app, totalSleep_app, IH1, IH2. done. }
  assert (Hbound : forall tried,
             tried `prefix_of` githubAgent.MODEL_CHAIN ->
             generateCalls (Schedule.calls prompt tried) <= 3
             /\ totalSleep (Schedule.calls prompt tried) = 0%Z
             /\ httpRequests (Schedule.calls prompt tried) = []).
  { intros tried Hprefix. destruct (Hcalls tried) as [-> ->].
    apply prefix_length in Hprefix. cbn in Hprefix.
    split; [lia|]. split; [done|]. apply httpRequests_calls. }
  destruct (callGeminiLoop_run E prompt githubAgent.MODEL_CHAIN w) as [_ Hrun].
  unfold githubAgent.callGemini.
  destruct Hrun as [(_ & Htrace & _)|(tried & m & rest & text & Hchain & Htrace & _)].
  - exists githubAgent.MODEL_CHAIN. split; [done|]. split; [done|]. by apply Hbound.
  - exists (tried ++ [m])%list.
    assert (Hprefix : (tried ++ [m])%list `prefix_of` githubAgent.MODEL_CHAIN).
    { rewrite Hchain. exists rest. by rewrite <- app_assoc. }
    split; [done|]. split; [|by apply Hbound].
    rewrite Htrace. unfold Schedule.calls. by rewrite map_app.
Qed.

(** ** The reporters *)

Section Reporters.
  Import geminiReporter.
  Context (E : Env).


Lemma withoutRawData_lookup (data : list (string * JS)) (k : string) :
    assoc k (withoutRawData data) = if String.eqb k "rawData" then None else assoc k data.
  Proof.
    unfold withoutRawData. induction data as [|[k' v] data IH]; simpl.
    - by destruct (String.eqb k "rawData").
    - destruct (String.eqb_spec k' "rawData") as [->|Hk']; simpl.
      + rewrite IH. by destruct (String.eqb_spec k "rawData").
      + rewrite IH. destruct (String.eqb_spec k k') as [->|Hk].
        * destruct (String.eqb_spec k' "rawData"); done.
        * done.
  Qed.
End Reporters.


(** X13.  The data the reporters put in a prompt is the scraped data
    without its [rawData]: the object handed to [JSON.stringify] has no
    [rawData] field and has every other field with its value. *)
Theorem rawData_is_stripped (E : Env) (scrapedData : list (string * JS)) (userQuery : string) :
  let cleanData := geminiReporter.withoutRawData scrapedData in
  assoc "rawData" cleanData = None
  /\ (forall k, k <> "rawData" -> assoc k cleanData = assoc k scrapedData)
  /\ geminiReporter.buildPrompt E scrapedData userQuery
     = geminiReporter.reportHead ++ JSON_stringify E (VObj cleanData)
       ++ geminiReporter.reportInstructions
       ++ (if String.eqb userQuery "" then ""
           else geminiReporter.additionalRequest ++ userQuery ++ nl)
       ++ geminiReporter.reportTail.
Proof.
  intros cleanData. split; [|split].
  - subst cleanData. by rewrite withoutRawData_lookup.
  - intros k Hk. subst cleanData. rewrite withoutRawData_lookup.
    by destruct (String.eqb_spec k "rawData").
  - reflexivity.
Qed.

Lemma rawData_is_stripped_witness :
  assoc "likes"
    (geminiReporter.withoutRawData [("likes", VNum 10); ("rawData", VObj []); ("url", VNull)])
  = assoc "likes" [("likes", VNum 10); ("rawData", VObj []); ("url", VNull)].
Proof.
  exact (proj1 (proj2 (rawData_is_stripped
                         (Examples.env Examples.generativeDown Examples.http401)
                         [("likes", VNum 10); ("rawData", VObj []); ("url", VNull)] ""))
           "likes" ltac:(discriminate)).
Defined.

(** ** The authorization URL *)

Section FormEncoding.

Lemma nat_of_ascii_inj (a b : ascii) : nat_of_ascii a = nat_of_ascii b -> a = b.
  Proof.
    intros H. rewrite <- (ascii_nat_embedding a), <- (ascii_nat_embedding b). by rewrite H.
  Qed.

Lemma hexDigit_inj (d d' : nat) : d < 16 -> d' < 16 -> hexDigit d = hexDigit d' -> d = d'.
  Proof.
    intros Hd Hd' H. apply (f_equal nat_of_ascii) in H. unfold hexDigit in H.
    rewrite !nat_ascii_embedding in H
      by (destruct (d <? 10)%nat, (d' <? 10)%nat; lia).
    destruct (d <? 10)%nat eqn:H10, (d' <? 10)%nat eqn:H10';
      rewrite ?Nat.ltb_lt, ?Nat.ltb_ge in *; lia.
  Qed.

Lemma formEncode_cons (c : ascii) (s : string) :
    formEncode (String c s)
    = if isFormSafe c then String c (formEncode s)
      else if (nat_of_ascii c =? 32)%nat then String "+" (formEncode s)
      else String "%" (String (hexDigit (nat_of_ascii c / 16))
                         (String (hexDigit (nat_of_ascii c mod 16)) (formEncode s))).
  Proof. reflexivity. Qed.

Lemma formEncode_inj (s t : string) : formEncode s = formEncode t -> s = t.
  Proof.
    revert t. induction s as [|c s IH]; intros [|c' t].
    - done.
    - rewrite formEncode_cons. simpl formEncode at 1.
      destruct (isFormSafe c'); [done|]. by destruct (nat_of_ascii c' =? 32)%nat.
    - rewrite formEncode_cons. simpl formEncode at 2.
      destruct (isFormSafe c); [done|]. by destruct (nat_of_ascii c =? 32)%nat.
    - rewrite !formEncode_cons.
      pose proof (nat_ascii_bounded c) as Hc. pose proof (nat_ascii_bounded c') as Hc'.
      destruct (isFormSafe c) eqn:Hsafe, (isFormSafe c') eqn:Hsafe'.
      + intros [= -> H]. by rewrite (IH t H).
      + destruct (nat_of_ascii c' =? 32)%nat; intros [= -> H]; discriminate.
      + destruct (nat_of_ascii c =? 32)%nat; intros [= <- H]; discriminate.
      + destruct (nat_of_ascii c =? 32)%nat eqn:H32, (nat_of_ascii c' =? 32)%nat eqn:H32';
          rewrite ?Nat.eqb_eq, ?Nat.eqb_neq in *.
        * intros [= H]. rewrite (IH t H). f_equal. apply nat_of_ascii_inj. lia.
        * intros [=].
        * intros [=].
        * assert (Hhi : nat_of_ascii c / 16 < 16)
            by (apply Nat.Div0.div_lt_upper_bound; lia).
          assert (Hhi' : nat_of_ascii c' / 16 < 16)
            by (apply Nat.Div0.div_lt_upper_bound; lia).
          assert (Hlo : nat_of_ascii c mod 16 < 16) by (apply Nat.mod_upper_bound; lia).
          assert (Hlo' : nat_of_ascii c' mod 16 < 16) by (apply Nat.mod_upper_bound; lia).
          pose proof (Nat.div_mod_eq (nat_of_ascii c) 16) as Hn.
          pose proof (Nat.div_mod_eq (nat_of_ascii c') 16) as Hn'.
          remember (nat_of_ascii c / 16) as hi. remember (nat_of_ascii c mod 16) as lo.
          remember (nat_of_ascii c' / 16) as hi'. remember (nat_of_ascii c' mod 16) as lo'.
          intros H. injection H as Ehi Elo H.
          apply hexDigit_inj in Ehi; [|done|done].
          apply hexDigit_inj in Elo; [|done|done].
          rewrite (IH t H). f_equal. apply nat_of_ascii_inj. lia.
  Qed.

  (** The characters an encoded value is made of. *)
Definition isEncodedChar (c : ascii) : bool :=
    isFormSafe c || Ascii.eqb c "+" || Ascii.eqb c "%".

Lemma hexDigit_safe (d : nat) : d < 16 -> isFormSafe (hexDigit d) = true.
  Proof.
    intros Hd. do 16 (destruct d as [|d]; [reflexivity|]). lia.
  Qed.

Lemma formEncode_alphabet (s : string) :
    forallb isEncodedChar (list_ascii_of_string (formEncode s)) = true.
  Proof.
    induction s as [|c s IH]; [done|]. rewrite formEncode_cons.
    pose proof (nat_ascii_bounded c) as Hc.
    destruct (isFormSafe c) eqn:Hsafe; [|destruct (nat_of_ascii c =? 32)%nat].
    - cbn [list_ascii_of_string forallb]. unfold isEncodedChar at 1. by rewrite Hsafe, IH.
    - cbn [list_ascii_of_string forallb]. by rewrite IH.
    - cbn [list_ascii_of_string forallb]. unfold isEncodedChar at 2 3.
      rewrite !hexDigit_safe, IH; [done| |].
      + apply Nat.mod_upper_bound. lia.
      + apply Nat.Div0.div_lt_upper_bound. lia.
  Qed.
End FormEncoding.

(** X14.  The authorization URL identifies the identity it was generated
    for: two identities with the same URL are the same identity.  (The
    identity travels in the [state] parameter and comes back in the
    callback.) *)
Theorem authorization_url_identifies_identity (E : Env) (userId userId' : string) :
  githubOAuthAgent.getAuthorizationUrl E userId = githubOAuthAgent.getAuthorizationUrl E userId' ->
  userId = userId'.
Proof.
  unfold githubOAuthAgent.getAuthorizationUrl, URLSearchParams_toString.
  cbn [map join fst snd]. intros H.
  repeat (apply (inj (String.app _)) in H).
  by apply formEncode_inj.
Qed.

Lemma authorization_url_identifies_identity_witness :
  "octocat" = "octocat".
Proof.
  exact (authorization_url_identifies_identity
           (Examples.env Examples.generativeDown Examples.http401) "octocat" "octocat" eq_refl).
Defined.

(** X15.  Whatever the identity, the [state] parameter of the
    authorization URL is made of letters, digits and the characters
    [* - . _ + %] only: an identity cannot add a parameter to the URL or
    end it.  The URL is the GitHub authorization endpoint followed by the
    four parameters [client_id], [redirect_uri], [scope] and [state]. *)
Theorem authorization_url_is_well_formed (E : Env) (userId : string) :
  githubOAuthAgent.getAuthorizationUrl E userId
  = "https://github.com/login/oauth/authorize?client_id="
    ++ formEncode (envString (GITHUB_CLIENT_ID E))
    ++ "&redirect_uri=" ++ formEncode (envString (GITHUB_REDIRECT_URI E))
    ++ "&scope=repo+user+read%3Aorg+workflow"
    ++ "&state=" ++ formEncode userId
  /\ forallb isEncodedChar (list_ascii_of_string (formEncode userId)) = true
  /\ isEncodedChar "&" = false /\ isEncodedChar "=" = false /\ isEncodedChar "#" = false
  /\ isEncodedChar " " = false /\ isEncodedChar "?" = false.
Proof.
  split; [|split; [apply formEncode_alphabet|by repeat split]].
  unfold githubOAuthAgent.getAuthorizationUrl, URLSearchParams_toString.
  cbn [map join fst snd].
  change (formEncode "client_id") with "client_id".
  change (formEncode "redirect_uri") with "redirect_uri".
  change (formEncode "scope") with "scope".
  change (formEncode "state") with "state".
  change (formEncode "repo user read:org workflow") with "repo+user+read%3Aorg+workflow".
  rewrite !append_assoc. reflexivity.
Qed.

(** ** The list of connected accounts *)

Section Accounts.
  Context {V : Type}.
  Implicit Types (k : string) (v : V) (m : JSMap.t V).

Lemma JSMap_keys_set k v m :
    JSMap.keys (JSMap.set k v m)
    = if JSMap.has k m then JSMap.keys m else (JSMap.keys m ++ [k])%list.
  Proof.
    unfold JSMap.keys, JSMap.has, JSMap.get.
    induction m as [|[k' v'] m IH]; simpl; [done|].
    destruct (String.eqb_spec k k') as [->|Hk]; simpl; [done|].
    rewrite IH. by destruct (assoc k m).
  Qed.

Lemma JSMap_keys_delete k m :
    JSMap.keys (JSMap.delete k m)
    = List.filter (fun u => negb (String.eqb k u)) (JSMap.keys m).
  Proof.
    unfold JSMap.keys, JSMap.delete.
    induction m as [|[k' v'] m IH]; simpl; [done|].
    destruct (String.eqb k k'); simpl; by rewrite IH.
  Qed.

Lemma JSMap_has_keys k m : JSMap.has k m = true <-> In k (JSMap.keys m).
  Proof.
    unfold JSMap.keys, JSMap.has, JSMap.get.
    induction m as [|[k' v'] m IH]; simpl; [split; [done|tauto]|].
    destruct (String.eqb_spec k k') as [->|Hk]; [tauto|].
    rewrite IH. split; [tauto|]. intros [?|?]; [congruence|done].
  Qed.
End Accounts.

(** X16.  [listConnectedUsers] lists the identities that are connected,
    in the order they were first connected: storing a token for a
    connected identity keeps the list, storing one for a new identity
    puts it last, disconnecting removes the identity and keeps the order
    of the others; a list without repetition stays without repetition. *)
Theorem listConnectedUsers_order (E : Env) (id : string) (t : TokenData) (w : World) :
  (forall u, In u (githubOAuthAgent.listConnectedUsers w)
             <-> githubOAuthAgent.isConnected u w = true)
  /\ (githubOAuthAgent.isConnected id w = true ->
      githubOAuthAgent.listConnectedUsers (githubOAuthAgent.storeToken E id t w)
      = githubOAuthAgent.listConnectedUsers w)
  /\ (githubOAuthAgent.isConnected id w = false ->
      githubOAuthAgent.listConnectedUsers (githubOAuthAgent.storeToken E id t w)
      = (githubOAuthAgent.listConnectedUsers w ++ [id])%list)
  /\ githubOAuthAgent.listConnectedUsers (githubOAuthAgent.disconnect id w)
     = List.filter (fun u => negb (String.eqb id u)) (githubOAuthAgent.listConnectedUsers w)
  /\ (List.NoDup (githubOAuthAgent.listConnectedUsers w) ->
      List.NoDup (githubOAuthAgent.listConnectedUsers (githubOAuthAgent.storeToken E id t w))
      /\ List.NoDup (githubOAuthAgent.listConnectedUsers (githubOAuthAgent.disconnect id w))).
Proof.
  unfold githubOAuthAgent.listConnectedUsers, githubOAuthAgent.isConnected,
    githubOAuthAgent.storeToken, githubOAuthAgent.disconnect. cbn [tokenStore].
  split; [|split; [|split; [|split]]].
  - intros u. symmetry. apply JSMap_has_keys.
  - intros Hconn. by rewrite JSMap_keys_set, Hconn.
  - intros Hconn. by rewrite JSMap_keys_set, Hconn.
  - apply JSMap_keys_delete.
  - intros Hnodup. split.
    + rewrite JSMap_keys_set. destruct (JSMap.has id (tokenStore w)) eqn:Hconn; [done|].
      apply List.NoDup_app; [done|repeat constructor; by intros []|].
      intros u Hu [<-|[]]. apply JSMap_has_keys in Hu. congruence.
    + rewrite JSMap_keys_delete. by apply List.NoDup_filter.
Qed.

Lemma listConnectedUsers_order_witness :
  githubOAuthAgent.listConnectedUsers
    (githubOAuthAgent.storeToken (Examples.env Examples.generativeDown Examples.http401)
       "hubot" Examples.token Examples.connected)
  = ["octocat"; "hubot"].
Proof.
  exact (proj1 (proj2 (proj2 (listConnectedUsers_order
                                (Examples.env Examples.generativeDown Examples.http401)
                                "hubot" Examples.token Examples.connected)))
           eq_refl).
Defined.

(** ** The closed vocabulary of actions *)

Lemma isStr_eq (v : JS) (s : string) : isStr v s = true -> v = VStr s.
Proof. destruct v; simpl; try done. by intros ->%String.eqb_eq. Qed.

Lemma executeAction_assigned (E : Env) (action params : JS) (userId : string) :
  ensures (githubAgent.executeAction E action params userId)
    (fun step => match step with
                 | githubAgent.Returned r => exists msg, r = githubAgent.failure msg
                 | githubAgent.Assigned _ _ =>
                     exists a, action = VStr a /\ In a GitHubOutcome.HANDLED_ACTIONS
                 end).
Proof.
  unfold githubAgent.executeAction.
  repeat match goal with
         | |- ensures (if isStr action ?s then _ else _) _ =>
             let H := fresh "H" in
             destruct (isStr action s) eqn:H;
             [apply isStr_eq in H; ensures_steps;
              eauto; exists s; (split; [exact H|cbn; tauto])|clear H]
         end.
  apply ensures_ret. eauto.
Qed.

(** X17.  An ok result of [runGitHubAgent] names one of the eleven
    actions the dispatcher has a case for: no other action, [delete_repo]
    included, is ever reported as done. *)
Theorem ok_result_names_a_handled_action
  (E : Env) (userPrompt userId : string) (w w' : World) (r : githubAgent.GitHubAgentResult) :
  githubAgent.runGitHubAgent E userPrompt userId w = (Ret r, w') ->
  githubAgent.success r = true ->
  exists a, githubAgent.action r = Some a
            /\ In a GitHubOutcome.HANDLED_ACTIONS
            /\ a <> "delete_repo".
Proof.
  intros Hrun Hok.
  assert (Hens : ensures (githubAgent.runGitHubAgent E userPrompt userId)
                   (fun r => githubAgent.success r = true ->
                             exists a, githubAgent.action r = Some a
                                       /\ In a GitHubOutcome.HANDLED_ACTIONS)).
  { unfold githubAgent.runGitHubAgent.
    eapply ensures_bind_with; [apply parseIntent_ensures|].
    intros [r0|intent]; [intros (msg & ->); by apply ensures_ret|].
    intros _. unfold githubAgent.dispatch.
    apply ensures_bind. intros action. apply ensures_bind. intros connected.
    destruct (_ && _); [by apply ensures_ret|].
    apply ensures_try_catch.
    - apply ensures_bind. intros params.
      eapply ensures_bind_with; [apply executeAction_assigned|].
      intros [r0|result summary] Hstep; apply ensures_ret.
      + destruct Hstep as (msg & ->). done.
      + intros _. destruct Hstep as (a & -> & Hin). exists a. by split.
    - intros e. destruct (_ || _); by apply ensures_ret. }
  destruct (Hens w r w' Hrun Hok) as (a & Haction & Hin).
  exists a. split; [done|]. split; [done|].
  intros ->. cbn in Hin. intuition discriminate.
Qed.

Lemma ok_result_names_a_handled_action_witness :
  exists r w',
    githubAgent.runGitHubAgent
      (Examples.env (Examples.replies Examples.pushJson) Examples.httpSecondFails)
      "push my project" "octocat" Examples.connected = (Ret r, w')
    /\ githubAgent.success r = true
    /\ exists a, githubAgent.action r = Some a
                 /\ In a GitHubOutcome.HANDLED_ACTIONS
                 /\ a <> "delete_repo".
Proof.
  eexists _, _. split; [vm_compute; reflexivity|]. split; [reflexivity|].
  eapply (ok_result_names_a_handled_action
            (Examples.env (Examples.replies Examples.pushJson) Examples.httpSecondFails)
            "push my project" "octocat" Examples.connected);
    [vm_compute; reflexivity|reflexivity].
Defined.

(** ** Writing one file *)

Section FileWrites.
  Import githubOAuthAgent Push.
  Context (E : Env).

  (** The world after one more recorded request. *)
Definition sent (req : Request) (w : World) : World :=
    mkWorld (tokenStore w) (trace w ++ [EvHttp req]).

Lemma getToken_sent (req : Request) (userId : string) (w : World) :
    getToken userId (sent req w) = getToken userId w.
  Proof. reflexivity. Qed.

  (** The [PUT] of [createOrUpdateFile], with the fields that follow
      [message] and [content]. *)
Definition putRequest (tokenData : TokenData) (owner repo path : JS)
    (message encoded : string) (more : list (string * JS)) : Request :=
    requestOf tokenData (contentsEndpoint owner repo path)
      (mkOptions (Some "PUT")
         (Some (VObj ([("message", VStr message); ("content", VStr encoded)] ++ more)))
         None).

Definition getRequest (tokenData : TokenData) (owner repo path : JS) : Request :=
    requestOf tokenData (contentsEndpoint owner repo path) noOptions.

  (** The trace of [w'] is the trace of [w] and at most [n] requests
      more. *)
Definition grows (n : nat) (w w' : World) : Prop :=
    exists requests,
      trace w' = (trace w ++ map EvHttp requests)%list /\ length requests <= n.

Lemma grows_refl (n : nat) (w : World) : grows n w w.
  Proof. exists []. cbn [map]. rewrite app_nil_r. split; [done|simpl; lia]. Qed.

Lemma grows_trans (n m : nat) (w1 w2 w3 : World) :
    grows n w1 w2 -> grows m w2 w3 -> grows (n + m) w1 w3.
  Proof.
    intros (ev1 & H1 & Hn) (ev2 & H2 & Hm). exists (ev1 ++ ev2)%list.
    rewrite H2, H1, <- app_assoc, map_app, length_app. split; [done|lia].
  Qed.

Lemma githubAPI_grows (endpoint : string) (options : Options) (userId : string) (w : World) :
    grows 1 w (githubAPI E endpoint options userId w).2.
  Proof.
    rewrite githubAPI_run. destruct (getToken userId w) as [tokenData|]; [|apply grows_refl].
    exists [requestOf tokenData endpoint options]. cbv zeta. split; [|simpl; lia].
    destruct (axios E (trace w) _) as [data|status message]; [done|].
    by destruct (decide (status = Some 401%Z)).
  Qed.

Lemma createOrUpdateFile_grows (owner repo path content : JS) (message userId : string)
    (w : World) :
    grows 2 w (createOrUpdateFile E owner repo path content message userId w).2.
  Proof.
    unfold createOrUpdateFile. unfold bind at 1. unfold try_catch. unfold bind at 1.
    pose proof (githubAPI_grows (contentsEndpoint owner repo path) noOptions userId w) as Hget.
    destruct (githubAPI E (contentsEndpoint owner repo path) noOptions userId w)
      as [[existing|e] w1]; cbn [snd] in Hget.
    - unfold lift at 1.
      assert (Hrest : forall sha,
                 grows 2 w
                   ((let! encoded := lift (toBase64 E content) in
                     githubAPI E (contentsEndpoint owner repo path)
                       (mkOptions (Some "PUT")
                          (Some (VObj (if truthy sha
                                       then ([("message", VStr message);
                                              ("content", VStr encoded)]
                                             ++ [("sha", sha)])%list
                                       else [("message", VStr message);
                                             ("content", VStr encoded)])))
                          None) userId) w1).2).
      { intros sha. unfold bind, lift. destruct (toBase64 E content) as [encoded|e].
        - apply (grows_trans 1 1 w w1); [done|apply githubAPI_grows].
        - apply (grows_trans 1 1 w w1); [done|apply grows_refl]. }
      destruct (getProp E "existing" existing "sha") as [sha|e]; apply Hrest.
    - unfold ret at 1. unfold bind, lift. destruct (toBase64 E content) as [encoded|e'].
      + apply (grows_trans 1 1 w w1); [done|apply githubAPI_grows].
      + apply (grows_trans 1 1 w w1); [done|apply grows_refl].
  Qed.

Lemma writeAll_grows (owner repo : JS) (message userId : string)
    (entries : list (string * string)) (w : World) :
    grows (2 * length entries) w (writeAll E owner repo message userId entries w).2.
  Proof.
    revert w. induction entries as [|entry rest IH]; intros w; [apply grows_refl|].
    cbn [writeAll length].
    pose proof (createOrUpdateFile_grows owner repo (VStr entry.1) (VStr entry.2)
                  message userId w) as Hone.
    unfold writeOne.
    destruct (createOrUpdateFile E owner repo (VStr entry.1) (VStr entry.2) message userId w)
      as [[body|e] w1]; cbn [snd] in Hone.
    - destruct (getProp E "result" body "content");
        (specialize (IH w1);
         destruct (writeAll E owner repo message userId rest w1) as [rs w2]; cbn [snd] in *;
         replace (2 * S (length rest)) with (2 + 2 * length rest) by lia;
         by apply (grows_trans _ _ w w1)).
    - specialize (IH w1).
      destruct (writeAll E owner repo message userId rest w1) as [rs w2]; cbn [snd] in *.
      replace (2 * S (length rest)) with (2 + 2 * length rest) by lia.
      by apply (grows_trans _ _ w w1).
  Qed.

Definition notConnected : string :=
    "GitHub not connected. Please connect your GitHub account first.".

Lemma createOrUpdateFile_not_connected (owner repo path content : JS)
    (message userId encoded : string) (w : World) :
    getToken userId w = None ->
    toBase64 E content = Ret encoded ->
    createOrUpdateFile E owner repo path content message userId w
    = (Throw (Error notConnected), w).
  Proof.
    intros Htoken Hencoded.
    unfold createOrUpdateFile, bind, try_catch, lift, ret.
    rewrite !githubAPI_run, Htoken, Hencoded. cbv beta iota.
    by rewrite githubAPI_run, Htoken.
  Qed.

Lemma writeAll_not_connected (owner repo : JS) (message userId : string)
    (entries : list (string * string)) (w : World) :
    getToken userId w = None ->
    Forall (fun entry => exists encoded, toBase64 E (VStr entry.2) = Ret encoded) entries ->
    writeAll E owner repo message userId entries w
    = (map (fun entry => mkPushResult (VStr entry.1) false VUndef (Some notConnected)) entries,
       w).
  Proof.
    intros Htoken Hbase64. induction Hbase64 as [|entry rest (encoded & Hencoded) _ IH]; [done|].
    cbn [writeAll map]. unfold writeOne.
    rewrite (createOrUpdateFile_not_connected _ _ _ _ _ _ encoded) by done.
    by rewrite IH.
  Qed.
End FileWrites.

(** X18.  [createOrUpdateFile] for a connected identity first asks for the
    file.  When GitHub answers with a [sha], the [PUT] that follows carries
    it; when the request fails with another status than 401, the [PUT]
    carries none.  When GitHub answers 401, the token of the identity is
    deleted, no [PUT] is sent, and the error the caller sees is the
    not-connected error, not the token-expired error. *)
Theorem createOrUpdateFile_requests
  (E : Env) (owner repo path content : JS) (message userId encoded : string)
  (tokenData : TokenData) (w : World) :
  githubOAuthAgent.getToken userId w = Some tokenData ->
  toBase64 E content = Ret encoded ->
  let get := getRequest tokenData owner repo path in
  let put := putRequest tokenData owner repo path message encoded in
  let run := githubOAuthAgent.createOrUpdateFile E owner repo path content message userId w in
  (forall existing sha,
      axios E (trace w) get = HttpOk existing ->
      getProp E "existing" existing "sha" = Ret sha ->
      truthy sha = true ->
      trace run.2 = (trace w ++ [EvHttp get; EvHttp (put [("sha", sha)])])%list)
  /\ (forall status failure,
        axios E (trace w) get = HttpFail status failure ->
        status <> Some 401%Z ->
        trace run.2 = (trace w ++ [EvHttp get; EvHttp (put [])])%list)
  /\ (forall failure,
        axios E (trace w) get = HttpFail (Some 401%Z) failure ->
        run = (Throw (Error notConnected),
               mkWorld (JSMap.delete userId (tokenStore w)) (trace w ++ [EvHttp get]))).
Proof.
  intros Htoken Hencoded get put run. subst get put run.
  unfold getRequest, putRequest.
  set (get := requestOf tokenData (githubOAuthAgent.contentsEndpoint owner repo path)
                githubOAuthAgent.noOptions).
  assert (Hput : forall data,
             trace (githubOAuthAgent.githubAPI E
                      (githubOAuthAgent.contentsEndpoint owner repo path)
                      (githubOAuthAgent.mkOptions (Some "PUT") (Some data) None)
                      userId (sent get w)).2
             = (trace w
                ++ [EvHttp get;
                    EvHttp (requestOf tokenData
                              (githubOAuthAgent.contentsEndpoint owner repo path)
                              (githubOAuthAgent.mkOptions (Some "PUT") (Some data) None))])%list).
  { intros data. rewrite githubAPI_run, getToken_sent, Htoken. cbv zeta.
    destruct (axios E (trace (sent get w)) _) as [answer|status failure];
      [unfold sent; cbn [snd trace]; by rewrite <- app_assoc|].
    destruct (decide (status = Some 401%Z));
      unfold sent; cbn [snd trace]; by rewrite <- app_assoc. }
  assert (Hrun : forall (rest : JS -> M JS),
             (let! sha :=
                try_catch
                  (let! existing :=
                     githubOAuthAgent.githubAPI E
                       (githubOAuthAgent.contentsEndpoint owner repo path)
                       githubOAuthAgent.noOptions userId in
                   lift (getProp E "existing" existing "sha"))
                  (fun _ => ret VNull) in
              rest sha) w
             = match axios E (trace w) get with
               | HttpOk existing =>
                   match getProp E "existing" existing "sha" with
                   | Ret sha => rest sha (sent get w)
                   | Throw _ => rest VNull (sent get w)
                   end
               | HttpFail status failure =>
                   if decide (status = Some 401%Z)
                   then rest VNull (mkWorld (JSMap.delete userId (tokenStore w))
                                      (trace w ++ [EvHttp get]))
                   else rest VNull (sent get w)
               end).
  { intros rest. unfold bind at 1. unfold try_catch. unfold bind at 1.
    rewrite githubAPI_run, Htoken. cbv zeta. fold get.
    destruct (axios E (trace w) get) as [existing|status failure].
    - unfold lift. by destruct (getProp E "existing" existing "sha").
    - by destruct (decide (status = Some 401%Z)). }
  unfold githubOAuthAgent.createOrUpdateFile. rewrite Hrun.
  split; [|split].
  - intros existing sha Hget Hsha Htruthy. rewrite Hget, Hsha.
    unfold bind, lift. rewrite Hencoded, Htruthy. apply Hput.
  - intros status failure Hget Hstatus. rewrite Hget, decide_False by done.
    unfold bind, lift. rewrite Hencoded. cbn [truthy].
    rewrite app_nil_r. apply Hput.
  - intros failure Hget. rewrite Hget, decide_True by done.
    unfold bind, lift. rewrite Hencoded. cbn [truthy].
    rewrite githubAPI_run. unfold githubOAuthAgent.getToken. cbn [tokenStore].
    by rewrite JSMap_get_delete_eq.
Qed.

Lemma createOrUpdateFile_requests_witness :
  githubOAuthAgent.createOrUpdateFile
    (Examples.env Examples.generativeDown Examples.http401)
    (VStr "octo") (VStr "demo") (VStr "a.txt") (VStr "one") "first" "octocat"
    Examples.connected
  = (Throw (Error notConnected),
     mkWorld []
       [EvHttp (getRequest
                  (mkTokenData (VStr "gho_expired") (VStr "bearer") (VStr "repo,user")
                     (Some "2026-01-01T00:00:00.000Z"))
                  (VStr "octo") (VStr "demo") (VStr "a.txt"))]).
Proof.
  exact (proj2 (proj2 (createOrUpdateFile_requests
                         (Examples.env Examples.generativeDown Examples.http401)
                         (VStr "octo") (VStr "demo") (VStr "a.txt") (VStr "one")
                         "first" "octocat" "b25l"
                         (mkTokenData (VStr "gho_expired") (VStr "bearer") (VStr "repo,user")
                            (Some "2026-01-01T00:00:00.000Z"))
                         Examples.connected eq_refl eq_refl))
           "Request failed with status code 401" eq_refl).
Defined.

(** X19.  [pushProject] sends at most two requests for each file, and
    records nothing else: no generative call and no pause. *)
Theorem pushProject_sends_at_most_two_requests_per_file
  (E : Env) (owner repo : JS) (entries : list (string * string))
  (message userId : string) (w : World) :
  let run := githubOAuthAgent.pushProject E owner repo
               (VArr (map Push.fileEntry entries)) message userId w in
  exists requests,
    trace run.2 = (trace w ++ map EvHttp requests)%list
    /\ length requests <= 2 * length entries.
Proof.
  intros run. subst run. rewrite pushProject_writeAll. cbn [snd].
  apply writeAll_grows.
Qed.

(** X20.  [pushProject] for an identity that has no token sends nothing:
    every file whose content can be encoded is reported as failed with the
    not-connected error, in the order given, and the state is left as it
    was. *)
Theorem pushProject_without_token
  (E : Env) (owner repo : JS) (entries : list (string * string))
  (message userId : string) (w : World) :
  githubOAuthAgent.getToken userId w = None ->
  Forall (fun entry => exists encoded, toBase64 E (VStr entry.2) = Ret encoded) entries ->
  githubOAuthAgent.pushProject E owner repo (VArr (map Push.fileEntry entries))
    message userId w
  = (Ret (map (fun entry =>
                 githubOAuthAgent.mkPushResult (VStr entry.1) false VUndef
                   (Some notConnected))
            entries),
     w).
Proof.
  intros Htoken Hbase64. rewrite pushProject_writeAll.
  by rewrite writeAll_not_connected.
Qed.

Lemma pushProject_without_token_witness :
  githubOAuthAgent.pushProject (Examples.env Examples.generativeDown Examples.httpSecondFails)
    (VStr "octo") (VStr "demo")
    (VArr (map Push.fileEntry [("a.txt", "one"); ("b.txt", "two")])) "first" "octocat"
    Examples.fresh
  = (Ret [githubOAuthAgent.mkPushResult (VStr "a.txt") false VUndef (Some notConnected);
          githubOAuthAgent.mkPushResult (VStr "b.txt") false VUndef (Some notConnected)],
     Examples.fresh).
Proof.
  apply (pushProject_without_token
           (Examples.env Examples.generativeDown Examples.httpSecondFails)
           (VStr "octo") (VStr "demo") [("a.txt", "one"); ("b.txt", "two")]
           "first" "octocat" Examples.fresh).
  - reflexivity.
  - repeat constructor; eexists; reflexivity.
Defined.

(** ** The classifier as a whole *)

Lemma callGeminiWithRetry_quiet (E : Env) (prompt : string) :
  quiet (geminiReporter.callGeminiWithRetry E prompt).
Proof.
  intros w. unfold geminiReporter.callGeminiWithRetry.
  destruct (modelLoop_run E prompt geminiReporter.MODELS w) as [Hstore Hout].
  split; [exact Hstore|].
  destruct Hout as [(_ & -> & _)|(body & modelName & Hprefix & -> & _)].
  - destruct (schedule_bounds prompt _
                (reflexivity (Schedule.schedule prompt geminiReporter.MODELS)))
      as (_ & _ & Hhttp).
    by rewrite httpRequests_app, Hhttp, app_nil_r.
  - destruct (schedule_bounds prompt _ Hprefix) as (_ & _ & Hhttp).
    by rewrite httpRequests_app, Hhttp, app_nil_r.
Qed.

Lemma generativeIntent_quiet (E : Env) (userPrompt : string) :
  quiet (intentParser.generativeIntent E userPrompt).
Proof.
  unfold intentParser.generativeIntent.
  apply quiet_bind; [apply callGeminiWithRetry_quiet|]. intros r. cbv zeta.
  repeat (apply quiet_bind; [apply quiet_lift|intros ?]). apply quiet_ret.
Qed.

Lemma generativeIntent_shape (E : Env) (userPrompt : string) :
  ensures (intentParser.generativeIntent E userPrompt)
    (fun g => intentParser.success g = true
              /\ intentParser.fallback g = None
              /\ intentParser.error g = None
              /\ truthy (intentParser.platform g) = true
              /\ truthy (intentParser.urls g) = true
              /\ truthy (intentParser.action g) = true).
Proof.
  unfold intentParser.generativeIntent. ensures_steps. cbn.
  repeat split; by apply truthy_orElse.
Qed.

(** X21.  [parseUserIntent] always returns an intent, it never throws; it
    sends no HTTP request and leaves the token store as it was.  The
    intent has one of three shapes: from the model, with no fallback mark
    and a platform, a list of URLs and an action that are all set; from
    the regex fallback, marked as such, for one of the three platforms
    and with the prompt as the query; or the failure for an unrecognized
    prompt, with the error of the generative call. *)
Theorem parseUserIntent_always_answers (E : Env) (userPrompt : string) (w : World) :
  exists r w',
    intentParser.parseUserIntent E userPrompt w = (Ret r, w')
    /\ tokenStore w' = tokenStore w
    /\ httpRequests (trace w') = httpRequests (trace w)
    /\ ((intentParser.success r = true
         /\ intentParser.fallback r = None
         /\ intentParser.error r = None
         /\ truthy (intentParser.platform r) = true
         /\ truthy (intentParser.urls r) = true
         /\ truthy (intentParser.action r) = true)
        \/ (intentParser.success r = true
            /\ intentParser.fallback r = Some true
            /\ intentParser.error r = None
            /\ intentParser.userQuery r = VStr userPrompt
            /\ In (intentParser.platform r, intentParser.action r)
                 [(VStr "instagram", VStr "analyze");
                  (VStr "github", VStr "github_action");
                  (VStr "crypto", VStr "crypto_action")])
        \/ (intentParser.success r = false
            /\ intentParser.fallback r = None
            /\ intentParser.platform r = VStr "unknown"
            /\ intentParser.action r = VNull
            /\ intentParser.urls r = VArr []
            /\ intentParser.userQuery r = VStr userPrompt
            /\ exists e w1,
                 intentParser.generativeIntent E userPrompt w = (Throw e, w1)
                 /\ intentParser.error r = Some (errMessage e))).
Proof.
  destruct (generativeIntent_quiet E userPrompt w) as [Hstore Hhttp].
  destruct (intentParser.generativeIntent E userPrompt w) as [[g|e] w1] eqn:Hgen;
    cbn [snd] in Hstore, Hhttp.
  - exists g, w1. split; [by apply parseUserIntent_generative|].
    split; [done|]. split; [done|]. left.
    exact (generativeIntent_shape E userPrompt w g w1 Hgen).
  - exists (intentParser.fallbackIntent userPrompt (errMessage e)), w1.
    split; [by apply parseUserIntent_fallback|]. split; [done|]. split; [done|].
    right. unfold intentParser.fallbackIntent.
    destruct (0 <? length _)%nat; [left; cbn; intuition|].
    destruct (Regex.test true intentParser.githubKeywords userPrompt);
      [left; cbn; intuition|].
    destruct (Regex.test true intentParser.cryptoKeywords userPrompt);
      [left; cbn; intuition|].
    right. cbn. repeat (split; [done|]). eauto.
Qed.

(** ** The quick summary *)

(** X22.  [generateQuickSummary] always returns a result, and what it
    returns is read off the generative calls it made.  Either every call
    of the whole schedule was rate limited (nine calls, 45 seconds of
    waiting) and the result is the failure with the exhaustion error; or
    the calls are a beginning of the schedule of which every call but the
    last was rate limited, and the last call decides: when it answered,
    the result is the success with its text; when it failed, its error
    has no rate-limit signature and the result is the failure with the
    message of that error. *)
Theorem generateQuickSummary_outcomes
  (E : Env) (scrapedData : list (string * JS)) (w : World) :
  let prompt :=
    geminiReporter.quickHead
    ++ JSON_stringify E (VObj (geminiReporter.withoutRawData scrapedData)) in
  exists r w' events,
    geminiReporter.generateQuickSummary E scrapedData w = (Ret r, w')
    /\ trace w' = (trace w ++ events)%list
    /\ ((events = Schedule.schedule prompt geminiReporter.MODELS
         /\ Schedule.allRateLimited E (trace w) events
         /\ generateCalls events = 9
         /\ totalSleep events = 45000%Z
         /\ r = geminiReporter.mkSummaryResult false None
                  (Some (errMessage Schedule.exhausted)))
        \/ (exists body modelName,
              events = (body ++ [EvGenerate modelName prompt])%list
              /\ events `prefix_of` Schedule.schedule prompt geminiReporter.MODELS
              /\ In modelName geminiReporter.MODELS
              /\ Schedule.allRateLimited E (trace w) body
              /\ match generateContent E (trace w ++ body)%list modelName prompt with
                 | Ret text =>
                     r = geminiReporter.mkSummaryResult true (Some text) None
                 | Throw e =>
                     geminiReporter.is429 (errMessage e) = false
                     /\ r = geminiReporter.mkSummaryResult false None
                              (Some (errMessage e))
                 end)).
Proof.
  intros prompt. unfold geminiReporter.generateQuickSummary. cbv zeta. fold prompt.
  unfold try_catch, bind, geminiReporter.callGeminiWithRetry.
  destruct (modelLoop_run E prompt geminiReporter.MODELS w) as [_ Hout].
  destruct (geminiReporter.modelLoop E prompt geminiReporter.MODELS w) as [res w1].
  cbn [fst snd] in Hout.
  destruct Hout as [(-> & Htrace & Hall)|(body & modelName & Hprefix & Htrace & Hall & Hlast)].
  - eexists _, w1, _. split; [reflexivity|]. split; [exact Htrace|].
    left. repeat (split; [done|]). done.
  - assert (Hin : In modelName geminiReporter.MODELS).
    { assert (Hev : In (EvGenerate modelName prompt)
                      (Schedule.schedule prompt geminiReporter.MODELS)).
      { destruct Hprefix as [rest ->]. rewrite <- app_assoc.
        apply in_or_app. right. by left. }
      cbn in Hev. cbn. intuition congruence. }
    destruct (generateContent E (trace w ++ body)%list modelName prompt) as [text|e] eqn:Hgen.
    + subst res. eexists _, w1, _. split; [reflexivity|]. split; [exact Htrace|].
      right. exists body, modelName. rewrite Hgen. done.
    + destruct Hlast as [Hother ->]. eexists _, w1, _.
      split; [reflexivity|]. split; [exact Htrace|].
      right. exists body, modelName. rewrite Hgen. done.
Qed.

(** ** Quotes in a prompt *)

Section Escaping.
  Import Regex.

Lemma append_empty_r (s : string) : s ++ "" = s.
  Proof.
    induction s as [|c s IH]; [done|].
    change (String c (s ++ "") = String c s). by rewrite IH.
  Qed.

Lemma length_append (a b : string) :
    String.length (a ++ b) = String.length a + String.length b.
  Proof.
    induction a as [|c a IH]; [done|].
    change (S (String.length (a ++ b)) = S (String.length a) + String.length b).
    by rewrite IH.
  Qed.

Lemma concat_cons (chunk : string) (chunks : list string) :
    String.concat "" (chunk :: chunks) = chunk ++ String.concat "" chunks.
  Proof. destruct chunks; cbn; [by rewrite append_empty_r|done]. Qed.

  (** The code points of a string, put together again, are the string. *)
Lemma codePoints_concat (s : string) : String.concat "" (codePoints s) = s.
  Proof.
    induction s as [|c s IH]; [done|]. cbn [codePoints].
    destruct (codePoints s) as [|[|c' chunk] rest].
    - cbn in IH. by subst s.
    - rewrite concat_cons, IH. done.
    - destruct (is_continuation c').
      + rewrite concat_cons in *.
        change (String c (String c' chunk ++ String.concat "" rest) = String c s).
        by rewrite IH.
      + rewrite concat_cons, IH. done.
  Qed.

  (** What [escapeQuotes] makes of one character. *)
Definition escapeChunk (chunk : string) : string :=
    if String.eqb chunk dq then "\" ++ dq else chunk.

Lemma matchAt_quote (prev : option string) (input : list string) :
    matchAt false (lit dq) prev input
    = match input with
      | c :: _ => if String.eqb c dq then Some [c] else None
      | [] => None
      end.
  Proof.
    destruct input as [|c rest]; [done|].
    unfold matchAt. cbn [lit dq run snd].
    assert (Hc : charMatches false (ascii_of_nat 34) c = String.eqb c dq).
    { destruct c as [|a [|b c']]; cbn; [done| |].
      - by destruct (Ascii.eqb a _).
      - by destruct (Ascii.eqb a _). }
    rewrite Hc. destruct (String.eqb c dq); [|done].
    replace (length (c :: rest) - length rest) with 1 by (cbn [length]; lia). done.
  Qed.

Lemma replaceFrom_quote (replacement : string) (prev : option string)
    (input : list string) :
    replaceFrom false (lit dq) replacement prev input 0
    = String.concat ""
        (map (fun c => if String.eqb c dq then replacement else c) input).
  Proof.
    revert prev. induction input as [|c rest IH]; intros prev.
    - cbn [replaceFrom]. by rewrite matchAt_quote.
    - cbn [replaceFrom map]. rewrite matchAt_quote, concat_cons.
      destruct (String.eqb c dq); cbn [length Nat.sub]; by rewrite IH.
  Qed.

Lemma escapeQuotes_run (userPrompt : string) :
    githubAgent.escapeQuotes userPrompt
    = String.concat "" (map escapeChunk (codePoints userPrompt)).
  Proof. unfold githubAgent.escapeQuotes, replaceAll. apply replaceFrom_quote. Qed.

Lemma escaped_length (chunks : list string) :
    String.length (String.concat "" (map escapeChunk chunks))
    = String.length (String.concat "" chunks)
      + length (List.filter (fun c => String.eqb c dq) chunks).
  Proof.
    induction chunks as [|c rest IH]; [done|].
    cbn [map List.filter]. rewrite !concat_cons, !length_append, IH.
    unfold escapeChunk. destruct (String.eqb_spec c dq) as [->|_]; cbn [length]; [|lia].
    change (String.length ("\" ++ dq)) with 2. change (String.length dq) with 1. lia.
  Qed.
End Escaping.

(** X23.  [escapeQuotes] goes through the prompt character by character:
    a double quote gets a backslash before it, and every other character,
    a backslash included, is kept as it is.  The result is one byte
    longer for each double quote, and a prompt without a double quote is
    returned unchanged. *)
Theorem escapeQuotes_characterized (userPrompt : string) :
  githubAgent.escapeQuotes userPrompt
  = String.concat "" (map escapeChunk (codePoints userPrompt))
  /\ String.length (githubAgent.escapeQuotes userPrompt)
     = String.length userPrompt
       + length (List.filter (fun c => String.eqb c dq) (codePoints userPrompt))
  /\ (List.filter (fun c => String.eqb c dq) (codePoints userPrompt) = [] ->
      githubAgent.escapeQuotes userPrompt = userPrompt).
Proof.
  split; [apply escapeQuotes_run|]. split.
  - by rewrite escapeQuotes_run, escaped_length, codePoints_concat.
  - intros Hnone. rewrite escapeQuotes_run.
    rewrite <- (codePoints_concat userPrompt) at 2. f_equal.
    induction (codePoints userPrompt) as [|c rest IH]; [done|].
    cbn [List.filter map] in *. unfold escapeChunk at 1.
    destruct (String.eqb c dq); [discriminate|]. by rewrite IH.
Qed.

(** ** What the writing actions send *)

Section WritingActions.
  Import githubOAuthAgent githubAgent.
  Context (E : Env).

  (** An authenticated call records its request whatever the answer. *)
Lemma githubAPI_trace (endpoint : string) (options : Options) (userId : string)
    (w : World) (tokenData : TokenData) :
    getToken userId w = Some tokenData ->
    trace (githubAPI E endpoint options userId w).2
    = (trace w ++ [EvHttp (requestOf tokenData endpoint options)])%list.
  Proof.
    intros Htoken. rewrite githubAPI_run, Htoken. cbv zeta.
    destruct (axios E (trace w) _) as [data|status failure]; [done|].
    by destruct (decide (status = Some 401%Z)).
  Qed.

Lemma getProp_object (what : string) (fields : list (string * JS)) (k : string) :
    getProp E what (VObj fields) k = Ret (default VUndef (assoc k fields)).
  Proof. cbn. by destruct (assoc k fields). Qed.
End WritingActions.

(** X24.  [create_issue] and [create_pr] send the parameters of the intent
    as they are, without checking them.  Whatever the parameters and the
    answer of GitHub, [create_issue] sends one POST whose labels are the
    empty list, and whose body is the empty text when the intent has none;
    [create_pr] sends one POST whose base is [main] when the intent has
    none.  A parameter that is missing is sent as [undefined]. *)
Theorem writing_actions_send_one_request
  (E : Env) (fields : list (string * JS)) (userId : string) (w : World)
  (tokenData : TokenData) :
  githubOAuthAgent.getToken userId w = Some tokenData ->
  let field k := default VUndef (assoc k fields) in
  let path suffix :=
    "/repos/" ++ toString (field "owner") ++ "/" ++ toString (field "repo") ++ suffix in
  let post endpoint data :=
    requestOf tokenData endpoint
      (githubOAuthAgent.mkOptions (Some "POST") (Some (VObj data)) None) in
  trace (githubAgent.executeAction E (VStr "create_issue") (VObj fields) userId w).2
  = (trace w
     ++ [EvHttp (post (path "/issues")
                   [("title", field "title");
                    ("body", withDefault (field "body") (VStr ""));
                    ("labels", VArr [])])])%list
  /\ trace (githubAgent.executeAction E (VStr "create_pr") (VObj fields) userId w).2
     = (trace w
        ++ [EvHttp (post (path "/pulls")
                      [("title", field "title");
                       ("head", field "head");
                       ("base", withDefault (field "base") (VStr "main"));
                       ("body", withDefault (field "body") (VStr ""))])])%list.
Proof.
  intros Htoken field path post.
  split;
    unfold githubAgent.executeAction; cbn [isStr String.eqb Ascii.eqb Bool.eqb];
    unfold githubAgent.param; rewrite !getProp_object;
    unfold githubOAuthAgent.createIssue, githubOAuthAgent.createPullRequest;
    unfold bind, lift, ret; cbv beta iota;
    match goal with
    | |- context [githubOAuthAgent.githubAPI E ?endpoint ?options userId w] =>
        pose proof (githubAPI_trace E endpoint options userId w tokenData Htoken) as Hsent;
        destruct (githubOAuthAgent.githubAPI E endpoint options userId w) as [[a|e] w1]
    end;
    cbn [snd] in Hsent; subst post path field; cbv beta;
    destruct (default VUndef (assoc "body" fields)),
      (default VUndef (assoc "base" fields));
    repeat match goal with
           | |- context [match ?x with Ret _ => _ | Throw _ => _ end] => destruct x
           end;
    exact Hsent.
Qed.

Lemma writing_actions_send_one_request_witness :
  trace (githubAgent.executeAction (Examples.env Examples.generativeDown Examples.http401)
           (VStr "create_issue")
           (VObj [("owner", VStr "octo"); ("repo", VStr "demo"); ("title", VStr "Bug");
                  ("labels", VArr [VStr "urgent"])])
           "octocat" Examples.connected).2
  = [EvHttp (requestOf
               (mkTokenData (VStr "gho_expired") (VStr "bearer") (VStr "repo,user")
                  (Some "2026-01-01T00:00:00.000Z"))
               "/repos/octo/demo/issues"
               (githubOAuthAgent.mkOptions (Some "POST")
                  (Some (VObj [("title", VStr "Bug"); ("body", VStr "");
                               ("labels", VArr [])]))
                  None))].
Proof.
  exact (proj1 (writing_actions_send_one_request
                  (Examples.env Examples.generativeDown Examples.http401)
                  [("owner", VStr "octo"); ("repo", VStr "demo"); ("title", VStr "Bug");
                   ("labels", VArr [VStr "urgent"])]
                  "octocat" Examples.connected
                  (mkTokenData (VStr "gho_expired") (VStr "bearer") (VStr "repo,user")
                     (Some "2026-01-01T00:00:00.000Z"))
                  eq_refl)).
Defined.

(** ** How the crypto dispatcher labels a failure *)

Section CryptoFailures.
  Import cryptoAgent.
  Context (E : Env).

  (** The stage a failure message names. *)
Definition namesStage (msg : string) : Prop :=
    String.prefix "Failed to parse intent: " msg = true
    \/ String.prefix "Unknown action: " msg = true
    \/ String.prefix "CoinMarketCap API error: " msg = true.

Definition labelled (r : CryptoAgentResult) : Prop :=
    success r = false -> exists msg, error r = Some msg /\ namesStage msg.

Lemma executeAction_labelled (action params : JS) :
    ensures (executeAction E action params) labelled.
  Proof.
    unfold executeAction, labelled.
    ensures_steps; cbn;
      first [ by intros [=]
            | intros _; eexists; split; [reflexivity|]; right; left; apply prefix_append ].
  Qed.

Lemma runCryptoAgent_labelled (userPrompt : string) :
    ensures (runCryptoAgent E userPrompt) labelled.
  Proof.
    unfold runCryptoAgent.
    eapply ensures_bind_with with
      (P := fun parsed => match parsed with inl r => labelled r | inr _ => True end).
    - apply ensures_try_catch; [ensures_steps; done|].
      intros e. apply ensures_ret. intros _. eexists. split; [reflexivity|].
      left. apply prefix_append.
    - intros [r|intent] Hparsed; [by apply ensures_ret|].
      unfold dispatch. apply ensures_try_catch.
      + apply ensures_bind. intros action. apply ensures_bind. intros params.
        apply executeAction_labelled.
      + intros e. apply ensures_ret. intros _. eexists. split; [reflexivity|].
        right. right. apply prefix_append.
  Qed.
End CryptoFailures.

(** X25.  Every failed result of [runCryptoAgent] carries an error that
    names the stage that failed: parsing the intent, an unknown action,
    or the market API.  The last label is given to whatever step 2
    throws: a failure of the generative service during an analysis is
    reported as a CoinMarketCap API error too. *)
Theorem crypto_failures_name_their_stage (E : Env) (w : World) :
  (forall userPrompt r w',
      cryptoAgent.runCryptoAgent E userPrompt w = (Ret r, w') ->
      cryptoAgent.success r = false ->
      exists msg, cryptoAgent.error r = Some msg /\ namesStage msg)
  /\ (forall intent action params e w1,
        getProp E "intent" intent "action" = Ret action ->
        getProp E "intent" intent "params" = Ret params ->
        cryptoAgent.executeAction E action params w = (Throw e, w1) ->
        cryptoAgent.dispatch E intent w
        = (Ret (cryptoAgent.failure ("CoinMarketCap API error: " ++ errMessage e)), w1)).
Proof.
  split.
  - intros userPrompt r w' Hrun. exact (runCryptoAgent_labelled E userPrompt w r w' Hrun).
  - intros intent action params e w1 Haction Hparams Hexec.
    unfold cryptoAgent.dispatch, try_catch, bind, lift.
    rewrite Haction, Hparams. cbv beta iota. by rewrite Hexec.
Qed.

Lemma crypto_failures_name_their_stage_witness :
  (cryptoAgent.dispatch
     (Examples.env Examples.generativeDown (fun _ _ => HttpOk (VObj [("data", VObj [])])))
     (VObj [("action", VStr "analyze"); ("params", VObj [("symbols", VStr "BTC")])])
     Examples.fresh).1
  = Ret (cryptoAgent.failure "CoinMarketCap API error: fetch failed").
Proof.
  refine (f_equal fst
            (proj2 (crypto_failures_name_their_stage
                      (Examples.env Examples.generativeDown
                         (fun _ _ => HttpOk (VObj [("data", VObj [])])))
                      Examples.fresh)
               (VObj [("action", VStr "analyze"); ("params", VObj [("symbols", VStr "BTC")])])
               (VStr "analyze") (VObj [("symbols", VStr "BTC")])
               (Error "fetch failed") _ eq_refl eq_refl _)).
  vm_compute. reflexivity.
Defined.

(** ** The scraper and the analysis workflow *)

Section Scraper.
  Import instagramScraper.
  Context (E : Env) (services : Services).

  (** A scraped object never has both a photo URL and a video URL: one
      of the two is the empty text. *)
Definition oneMedium (r : list (string * JS)) : Prop :=
    field r "photoUrl" = VStr "" \/ field r "videoUrl" = VStr "".

Lemma failed_shape (msg : string) :
    field (failed msg) "success" = VBool false /\ oneMedium (failed msg).
  Proof. split; [reflexivity|]. by left. Qed.

Lemma apifyData_shape (postUrl : string) (data : JS) (r : list (string * JS)) :
    apifyData E postUrl data = Ret r ->
    field r "success" = VBool true /\ oneMedium r /\ field r "rawData" = data.
  Proof.
    unfold apifyData, exc_bind. destruct (getProp E "data" data "type") as [type|e]; [|done].
    cbv zeta. intros [= <-]. split; [reflexivity|]. split; [|reflexivity].
    unfold oneMedium, field. cbn [assoc String.eqb Ascii.eqb Bool.eqb default from_option].
    destruct (truthy _); cbn [negb]; [by left|by right].
  Qed.

Lemma cheerioData_shape (page : JS) (r : list (string * JS)) :
    cheerioData services page = Ret r ->
    field r "success" = VBool true /\ oneMedium r /\ field r "views" = VNum 0.
  Proof.
    unfold cheerioData, exc_bind.
    destruct (metaContent services page "og:description") as [description|e]; [|done].
    destruct (metaContent services page "og:image") as [ogImage|e]; [|done].
    destruct (metaContent services page "og:video") as [ogVideo|e]; [|done].
    destruct (metaContent services page "og:type") as [ogType|e]; [|done].
    cbv zeta. intros [= <-]. split; [reflexivity|]. split; [|reflexivity].
    unfold oneMedium, field. cbn [assoc String.eqb Ascii.eqb Bool.eqb default from_option].
    destruct (_ || _); cbn [negb]; [by left|by right].
  Qed.

  (** The first scraper catches whatever its client throws, and records
      nothing. *)
Lemma getInstagramDataApify_run (postUrl : string) (w : World) :
    exists r,
      getInstagramDataApify E services postUrl w = (Ret r, w)
      /\ ((exists data, apifyData E postUrl data = Ret r) \/ exists msg, r = failed msg).
  Proof.
    unfold getInstagramDataApify, try_catch, bind, gets, lift, throw, ret. cbv zeta.
    destruct (actorCall services (trace w) ACTOR _) as [run|e]; [|eauto].
    destruct (getProp E "run" run "defaultDatasetId") as [datasetId|e]; [|eauto].
    destruct (listItems services (trace w) datasetId) as [[|data rest]|e]; [eauto| |eauto].
    destruct (apifyData E postUrl data) as [r|e] eqn:Hdata; eauto.
  Qed.

  (** The second scraper sends one request for the page and catches
      whatever follows. *)
Lemma getInstagramDataCheerio_run (postUrl : string) (w : World) :
    exists r,
      getInstagramDataCheerio E services postUrl w
      = (Ret r, mkWorld (tokenStore w) (trace w ++ [EvHttp (pageRequest postUrl)]))
      /\ ((exists page, cheerioData services page = Ret r) \/ exists msg, r = failed msg).
  Proof.
    unfold getInstagramDataCheerio, try_catch, bind, lift, ret, githubOAuthAgent.axiosCall.
    destruct (axios E (trace w) (pageRequest postUrl)) as [page|status message]; [|eauto].
    destruct (cheerioData services page) as [r|e] eqn:Hpage; eauto.
  Qed.

Lemma getInstagramData_run (postUrl : string) (w : World) :
    exists r w',
      getInstagramData E services postUrl w = (Ret r, w')
      /\ tokenStore w' = tokenStore w.
  Proof.
    unfold getInstagramData, bind.
    destruct (getInstagramDataApify_run postUrl w) as (r & -> & _).
    destruct (truthy (field r "success")); [by exists r, w|].
    destruct (getInstagramDataCheerio_run postUrl w) as (r' & -> & _). by eexists _, _.
  Qed.
End Scraper.

(** X26.  [getInstagramData] runs the first scraper, which never throws
    and records nothing.  When the object of the first scraper is a
    success, [getInstagramData] returns that very object from the state
    it started in: the second scraper is not run and no page is
    requested.  When it is not, the first object is the failure object,
    and [getInstagramData] is the run of the second scraper: the page of
    the post is requested once, the token store is kept, and the object
    returned is the second scraper's, a success without views or the
    failure object.  No object returned has both a photo URL and a video
    URL. *)
Theorem getInstagramData_always_answers
  (E : Env) (services : instagramScraper.Services) (postUrl : string) (w : World) :
  exists first,
    instagramScraper.getInstagramDataApify E services postUrl w = (Ret first, w)
    /\ (truthy (instagramScraper.field first "success") = true ->
        instagramScraper.getInstagramData E services postUrl w = (Ret first, w)
        /\ (exists data, instagramScraper.apifyData E postUrl data = Ret first
                         /\ instagramScraper.field first "rawData" = data)
        /\ instagramScraper.field first "success" = VBool true
        /\ oneMedium first)
    /\ (truthy (instagramScraper.field first "success") = false ->
        (exists msg, first = instagramScraper.failed msg)
        /\ exists second,
             let w' := mkWorld (tokenStore w)
                         (trace w ++ [EvHttp (instagramScraper.pageRequest postUrl)]) in
             instagramScraper.getInstagramDataCheerio E services postUrl w = (Ret second, w')
             /\ instagramScraper.getInstagramData E services postUrl w = (Ret second, w')
             /\ oneMedium second
             /\ ((instagramScraper.field second "success" = VBool true
                  /\ instagramScraper.field second "views" = VNum 0)
                 \/ exists msg, second = instagramScraper.failed msg)).
Proof.
  destruct (getInstagramDataApify_run E services postUrl w)
    as (first & Hfirst & [(data & Hdata)|(msg & ->)]).
  - exists first. split; [done|].
    destruct (apifyData_shape E postUrl data first Hdata) as (Hok & Hone & Hraw).
    split.
    + intros _. unfold instagramScraper.getInstagramData, bind.
      rewrite Hfirst, Hok. cbn [truthy]. eauto 10.
    + rewrite Hok. done.
  - exists (instagramScraper.failed msg). split; [done|]. split; [done|].
    intros _. split; [eauto|].
    destruct (getInstagramDataCheerio_run E services postUrl w)
      as (second & Hsecond & Hshape).
    exists second. cbv zeta. split; [done|]. split.
    { unfold instagramScraper.getInstagramData, bind. rewrite Hfirst.
      rewrite (proj1 (failed_shape msg)). cbn [truthy]. done. }
    destruct Hshape as [(page & Hpage)|(msg' & ->)].
    + destruct (cheerioData_shape services page second Hpage) as (Hok & Hone & Hviews).
      split; [done|]. by left.
    + split; [by left|]. right. eauto.
Qed.

Section Workflow.
  Import instagramScraper geminiReporter workflow.
  Context (E : Env) (services : Services).

  (** Step 2 always answers: with a text when it succeeded, with an
      error when it did not; only the full report has metadata. *)
Lemma analyse_run (quick : bool) (scraped : list (string * JS)) (userQuery : string)
    (w : World) :
    exists ok failure text meta w',
      analyse E quick scraped userQuery w = (Ret (ok, failure, text, meta), w')
      /\ tokenStore w' = tokenStore w
      /\ (if ok
          then is_Some text /\ (if quick then meta = None else is_Some meta)
          else is_Some failure).
  Proof.
    unfold analyse. destruct quick.
    - unfold generateQuickSummary, try_catch, bind, ret. cbv zeta.
      pose proof (keepsStore_callGeminiWithRetry E
                    (quickHead ++ JSON_stringify E (VObj (withoutRawData scraped))) w) as Hstore.
      destruct (callGeminiWithRetry E _ w) as [[r|e] w1]; cbn [snd] in Hstore;
        eexists _, _, _, _, _; (split; [reflexivity|]); cbn; eauto.
    - unfold generateReport, try_catch, bind, gets, ret. cbv zeta.
      pose proof (keepsStore_callGeminiWithRetry E (buildPrompt E scraped userQuery) w)
        as Hstore.
      destruct (callGeminiWithRetry E _ w) as [[r|e] w1]; cbn [snd] in Hstore;
        eexists _, _, _, _, _; (split; [reflexivity|]); cbn; eauto.
  Qed.
End Workflow.

(** X27.  [runAnalysisWorkflow] always returns a result, it never throws,
    and it leaves the token store as it was.  The result is of one of
    three kinds: stopped at the scraping step, with no scraped data and no
    analysis started; stopped at the analysis step, with the scraped data
    and the error of the analysis; or a success with the URL, a report and
    a completion time, which has metadata exactly when the mode is not
    [quick]. *)
Theorem runAnalysisWorkflow_outcomes
  (E : Env) (services : instagramScraper.Services) (postUrl : string)
  (options : workflow.WorkflowOptions) (w : World) :
  exists r w',
    workflow.runAnalysisWorkflow E services postUrl options w = (Ret r, w')
    /\ tokenStore w' = tokenStore w
    /\ ((workflow.success r = false
         /\ workflow.step r = Some "scraping"
         /\ workflow.scrapedData r = None
         /\ workflow.report r = None
         /\ w' = (instagramScraper.getInstagramData E services postUrl w).2)
        \/ (workflow.success r = false
            /\ workflow.step r = Some "analysis"
            /\ workflow.report r = None
            /\ (exists message, workflow.error r = VStr message)
            /\ exists scraped w1,
                 instagramScraper.getInstagramData E services postUrl w = (Ret scraped, w1)
                 /\ workflow.scrapedData r = Some scraped)
        \/ (workflow.success r = true
            /\ workflow.step r = None
            /\ workflow.url r = Some postUrl
            /\ is_Some (workflow.report r)
            /\ is_Some (workflow.completedAt r)
            /\ (workflow.mode options = Some "quick" -> workflow.metadata r = None)
            /\ (workflow.mode options <> Some "quick" -> is_Some (workflow.metadata r)))).
Proof.
  unfold workflow.runAnalysisWorkflow. cbv zeta. unfold bind at 1.
  destruct (getInstagramData_run E services postUrl w) as (scraped & w1 & Hscrape & Hstore1).
  rewrite Hscrape. cbn [snd].
  destruct (truthy (instagramScraper.field scraped "success")); cbn [negb].
  - unfold bind at 1.
    destruct (analyse_run E (String.eqb (default "full" (workflow.mode options)) "quick")
                scraped (default "" (workflow.userQuery options)) w1)
      as (ok & failure & text & meta & w2 & -> & Hstore2 & Hshape).
    destruct ok; cbn [negb].
    + eexists _, w2. split; [reflexivity|]. split; [congruence|].
      right. right. cbn. destruct Hshape as [Htext Hmeta].
      repeat (split; [by eauto|]). split.
      * intros Hmode. by rewrite Hmode in Hmeta.
      * intros Hmode. destruct options as [[m|] query]; cbn in Hmeta, Hmode; [|done].
        destruct (String.eqb_spec m "quick") as [->|_]; done.
    + eexists _, w2. split; [reflexivity|]. split; [congruence|].
      right. left. cbn. destruct Hshape as [message ->]. eauto 10.
  - eexists _, w1. split; [reflexivity|]. split; [done|]. left. done.
Qed.

(** X28.  Only the mode [quick] asks for the quick summary: with any
    other mode, or none, the workflow is the one of the full report. *)
Theorem any_other_mode_is_full
  (E : Env) (services : instagramScraper.Services) (postUrl : string)
  (options : workflow.WorkflowOptions) :
  workflow.mode options <> Some "quick" ->
  workflow.runAnalysisWorkflow E services postUrl options
  = workflow.runAnalysisWorkflow E services postUrl
      (workflow.mkWorkflowOptions None (workflow.userQuery options)).
Proof.
  intros Hmode. unfold workflow.runAnalysisWorkflow. cbv zeta. cbn [workflow.mode workflow.userQuery].
  replace (String.eqb (default "full" (workflow.mode options)) "quick") with false; [done|].
  destruct options as [[m|] query]; cbn in *; [|done].
  destruct (String.eqb_spec m "quick") as [->|_]; done.
Qed.

(** A scraper whose client has no data and whose page has no metadata. *)
Definition noData : instagramScraper.Services :=
  instagramScraper.mkServices
    (fun _ _ _ => Ret (VObj [("defaultDatasetId", VStr "dataset")]))
    (fun _ _ => Ret [])
    (fun _ _ => Ret None)
    (fun _ => VNum 0) (fun _ => VNum 0) (fun _ => VStr "").

Lemma any_other_mode_is_full_witness :
  workflow.runAnalysisWorkflow (Examples.env Examples.generativeDown Examples.http401) noData
    "https://www.instagram.com/p/ABC123/" (workflow.mkWorkflowOptions (Some "QUICK") None)
  = workflow.runAnalysisWorkflow (Examples.env Examples.generativeDown Examples.http401) noData
      "https://www.instagram.com/p/ABC123/" (workflow.mkWorkflowOptions None None).
Proof.
  apply (any_other_mode_is_full (Examples.env Examples.generativeDown Examples.http401) noData
           "https://www.instagram.com/p/ABC123/" (workflow.mkWorkflowOptions (Some "QUICK") None)).
  discriminate.
Defined.
